(** * Evolutionary agent simulation: the tick engine and the population balancer

    A shallow embedding of [src/utils.py], [src/config.py],
    [src/agent_state.py], [src/agent_components/agent_body.py],
    [src/agent_components/agent_senses.py], [src/population_balancer.py] and
    of the lifecycle part of [Simulation.run] in [src/simulation.py].

    Conventions of the embedding:
    - Python [int] is [Z]; Python [float] is idealised as an exact rational
      [Q] (comparisons, [min], [max] and [abs] are exact on floats; sums and
      products are taken without rounding);
    - a [set] of cells is a [gset (Z * Z)], a [dict] keyed by cells is a
      [gmap (Z * Z) _], a [defaultdict(list)] is a total function;
    - a value that is [None], a string or a tuple of strings is a [pyval];
    - an exception is [None] in an [option] result;
    - random draws are inputs: a raw integer per call of [random.randint],
      mapped into the requested range by [randint]. *)

From stdpp Require Import gmap list strings sorting.
From Stdlib Require Import ZArith QArith Qminmax Qabs Lia Lqa.

Local Open Scope Z_scope.

(** ** Python values and built-ins used by the sources *)

Module Py.

(** [None], a [str], or a tuple of [str] (the only tuple the sources
    compare a death reason with). *)
Inductive pyval : Type :=
| PyNone
| PyStr (s : string)
| PyTuple (items : list string).

#[global] Instance pyval_eq_dec : EqDecision pyval.
Proof. solve_decision. Defined.

(** Python's [==] on these values: a string never equals a tuple or
    [None]. *)
Definition py_eq (a b : pyval) : bool := bool_decide (a = b).

(** [x < y] and [x <= y] on floats. *)
Definition Qltb (x y : Q) : bool := negb (Qle_bool y x).
Definition Qleb (x y : Q) : bool := Qle_bool x y.

(** [min(a, b)] returns [a] unless [b < a]; [max(a, b)] returns [a]
    unless [b > a]. *)
Definition py_min (a b : Q) : Q := if Qltb b a then b else a.
Definition py_max (a b : Q) : Q := if Qltb a b then b else a.

(** [int(q)]: truncation toward zero. *)
Definition py_int (q : Q) : Z := Z.quot (Qnum q) (Z.pos (Qden q)).

(** [range(lo, hi)]. *)
Definition range (lo hi : Z) : list Z :=
  (fun i : nat => lo + Z.of_nat i) <$> seq 0 (Z.to_nat (hi - lo)).

(** [random.randint(lo, hi)] fed with the raw draw [raw]: a value of
    [lo..hi] whenever [lo <= hi]. *)
Definition randint (lo hi raw : Z) : Z := lo + raw mod (hi - lo + 1).

(** [deque(maxlen=n).append(x)]: the oldest entries fall out. *)
Definition deque_append {A : Type} (maxlen : nat) (d : list A) (x : A) : list A :=
  let d' := d ++ [x] in drop (length d' - maxlen)%nat d'.

(** [defaultdict(list)[k].append(v)] on a total function. *)
Definition dict_append {K V : Type} `{EqDecision K}
    (d : K -> list V) (k : K) (v : V) : K -> list V :=
  fun k' => if decide (k' = k) then d k ++ [v] else d k'.

End Py.
Import Py.

(** ** src/utils.py *)

Module utils.

(** [clamp(val, low, high) = max(low, min(high, val))], on ints. *)
Definition clamp (val low high : Z) : Z := Z.max low (Z.min high val).

(** The same function called on floats. *)
Definition clampQ (val low high : Q) : Q := py_max low (py_min high val).

End utils.
Import utils.

(** ** src/config.py *)

Module config.

Definition ENERGY_START : Z := 45.
Definition ENERGY_PER_FOOD : Z := 60.
Definition ENERGY_TO_REPRODUCE : Z := 120.
Definition ENERGY_AFTER_REPRO : Z := 45.
Definition MAX_AGENT_AGE : Z := 1500.
Definition MUTATION_RANGE : Z := 16.
Definition SENSOR_RADIUS_RANGE : Z * Z := (0, 20).
Definition PERSONALITY_TYPES : list string :=
  ["explorer"; "survivor"; "feeder"; "loner"; "social"]%string.
(** [PERSONALITY_MUTATION_RATE = 0.05] *)
Definition PERSONALITY_MUTATION_RATE : Q := 5 # 100.
Definition TARGET_CROWD_RATIO : Q := 25 # 100.
Definition TARGET_ENERGY_RATIO : Q := 25 # 100.
Definition MIN_POP : Z := 40.
Definition MAX_POP : Z := 800.

End config.
Import config.

(** ** src/agent_state.py and the sensory record of agent_senses.py *)

Definition cell : Type := Z * Z.
Definition color_t : Type := Z * Z * Z.

(** The mutable data of an agent ([AgentState]); the reference to the
    simulation is passed to the operations instead of being stored. *)
Record AgentState : Type := mkState {
  x : Z;
  y : Z;
  color : color_t;
  energy : Q;
  personality : string;
  age : Z;
  offspring_count : Z;
  id : Z;
  parent_id : option Z;
  death_reason : pyval;
  visited_last_10 : list cell;
  last_move : Z * Z;
  lstm_hidden : list Q;
  lstm_cell : list Q;
  food_radius : Z;
  agent_radius : Z
}.

(** The fields of an [AgentSenses] object. The four food distances hold
    [None] or a number. *)
Record Senses : Type := mkSenses {
  sense_food : Z;
  sense_agents : Z;
  sense_friends : Z;
  sense_others : Z;
  food_up : Z;
  food_down : Z;
  food_left : Z;
  food_right : Z;
  food_up_dist : option Q;
  food_down_dist : option Q;
  food_left_dist : option Q;
  food_right_dist : option Q;
  avg_energy : Q;
  max_energy : Q;
  chemo_signal : Q;
  edge_distance_x : Q;
  edge_distance_y : Q
}.

(** An [Agent]: the state and the senses (the brain and the renderer are
    external collaborators of the tick engine). *)
Record Agent : Type := mkAgent {
  state : AgentState;
  senses : Senses
}.

Definition pos (a : Agent) : cell := (x (state a), y (state a)).

(** What the operations read of the simulation object. *)
Record World : Type := mkWorld {
  world_w : Z;
  world_h : Z;
  MAX_NEIGHBORS : Z;
  FOOD_COUNT : Z;
  MOVE_COST : Q;
  IDLE_COST : Q;
  MAX_POP : Z
}.

(** [np.zeros((NN_LAYERS, NN_HIDDEN))], flattened: 10 layers of 64 units. *)
Definition zeros_state : list Q := repeat (0 # 1)%Q (10 * 64)%nat.

(** [AgentState.__init__] with the drawn [id]; [personality] is a
    non-empty tag here ([personality if personality else ...]). *)
Definition new_state (x0 y0 : Z) (c : color_t) (e : Q)
    (fr ar : Z) (p : string) (new_id : Z) : AgentState :=
  {| x := x0; y := y0; color := c; energy := e; personality := p;
     age := 0; offspring_count := 0; id := new_id; parent_id := None;
     death_reason := PyNone; visited_last_10 := []; last_move := (0, 0);
     lstm_hidden := zeros_state; lstm_cell := zeros_state;
     food_radius := fr; agent_radius := ar |}.

(** The reset values of [AgentSenses.reset]. *)
Definition reset : Senses :=
  {| sense_food := 0; sense_agents := 0; sense_friends := 0; sense_others := 0;
     food_up := 0; food_down := 0; food_left := 0; food_right := 0;
     food_up_dist := None; food_down_dist := None;
     food_left_dist := None; food_right_dist := None;
     avg_energy := 0; max_energy := 0; chemo_signal := 0;
     edge_distance_x := 0; edge_distance_y := 0 |}.

(** [Agent.__init__]. *)
Definition new_agent (x0 y0 : Z) (c : color_t) (e : Q)
    (fr ar : Z) (p : string) (new_id : Z) : Agent :=
  {| state := new_state x0 y0 c e fr ar p new_id; senses := reset |}.

(** Field updates of the records. *)
Definition set_energy (e : Q) (s : AgentState) : AgentState :=
  mkState (x s) (y s) (color s) e (personality s) (age s) (offspring_count s)
    (id s) (parent_id s) (death_reason s) (visited_last_10 s) (last_move s)
    (lstm_hidden s) (lstm_cell s) (food_radius s) (agent_radius s).

Definition set_death_reason (d : pyval) (s : AgentState) : AgentState :=
  mkState (x s) (y s) (color s) (energy s) (personality s) (age s)
    (offspring_count s) (id s) (parent_id s) d (visited_last_10 s)
    (last_move s) (lstm_hidden s) (lstm_cell s) (food_radius s)
    (agent_radius s).

Definition set_age (n : Z) (s : AgentState) : AgentState :=
  mkState (x s) (y s) (color s) (energy s) (personality s) n
    (offspring_count s) (id s) (parent_id s) (death_reason s)
    (visited_last_10 s) (last_move s) (lstm_hidden s) (lstm_cell s)
    (food_radius s) (agent_radius s).

Definition set_offspring_count (n : Z) (s : AgentState) : AgentState :=
  mkState (x s) (y s) (color s) (energy s) (personality s) (age s) n
    (id s) (parent_id s) (death_reason s) (visited_last_10 s) (last_move s)
    (lstm_hidden s) (lstm_cell s) (food_radius s) (agent_radius s).

Definition set_parent_id (p : option Z) (s : AgentState) : AgentState :=
  mkState (x s) (y s) (color s) (energy s) (personality s) (age s)
    (offspring_count s) (id s) p (death_reason s) (visited_last_10 s)
    (last_move s) (lstm_hidden s) (lstm_cell s) (food_radius s)
    (agent_radius s).

Definition set_lstm (h c : list Q) (s : AgentState) : AgentState :=
  mkState (x s) (y s) (color s) (energy s) (personality s) (age s)
    (offspring_count s) (id s) (parent_id s) (death_reason s)
    (visited_last_10 s) (last_move s) h c (food_radius s) (agent_radius s).

(** The committed move of [apply_move]: history, last move, position. *)
Definition set_moved (nx ny dx dy : Z) (s : AgentState) : AgentState :=
  mkState nx ny (color s) (energy s) (personality s) (age s)
    (offspring_count s) (id s) (parent_id s) (death_reason s)
    (deque_append 10 (visited_last_10 s) (x s, y s)) (dx, dy)
    (lstm_hidden s) (lstm_cell s) (food_radius s) (agent_radius s).

Definition set_xy (nx ny : Z) (s : AgentState) : AgentState :=
  mkState nx ny (color s) (energy s) (personality s) (age s)
    (offspring_count s) (id s) (parent_id s) (death_reason s)
    (visited_last_10 s) (last_move s) (lstm_hidden s) (lstm_cell s)
    (food_radius s) (agent_radius s).

Definition with_state (f : AgentState -> AgentState) (a : Agent) : Agent :=
  {| state := f (state a); senses := senses a |}.

(** ** src/agent_components/agent_body.py *)

Module AgentBody.

(** [directions[action]]: Python indexing of a four-element list. An
    index of [-4..-1] counts from the end of the list; any other index
    outside [0..3] raises [IndexError]. *)
Definition directions : list (Z * Z) := [(0, -1); (0, 1); (-1, 0); (1, 0)].

Definition py_index {A : Type} (l : list A) (i : Z) : option A :=
  if 0 <=? i then l !! Z.to_nat i
  else if - Z.of_nat (length l) <=? i then l !! Z.to_nat (Z.of_nat (length l) + i)
  else None.

Definition _decode_action (action : Z) : option (Z * Z) :=
  py_index directions action.

(** [apply_move]: the new state of the agent and the trace map; [None]
    when the action cannot be decoded. *)
Definition apply_move (sim : World) (s : AgentState) (action : Z)
    (hidden cell_ : list Q) (taken : gset cell) (trace_map : gmap cell Z)
    (tick : Z) : option (AgentState * gmap cell Z) :=
  match _decode_action action with
  | None => None
  | Some (dx, dy) =>
      let nx := clamp (x s + dx) 0 (world_w sim - 1) in
      let ny := clamp (y s + dy) 0 (world_h sim - 1) in
      let s1 := set_lstm hidden cell_ s in
      if bool_decide ((nx, ny) = (x s1, y s1)) || bool_decide ((nx, ny) ∈ taken)
      then Some (set_energy (energy s1 - IDLE_COST sim)%Q s1, trace_map)
      else
        let trace_map' := <[(x s1, y s1) := tick]> trace_map in
        let s2 := set_moved nx ny dx dy s1 in
        Some (set_energy (energy s2 - MOVE_COST sim)%Q s2, trace_map')
  end.

(** [eat]: the food at the agent's cell, if any, is removed from the
    shared food set. *)
Definition eat (s : AgentState) (food : gset cell) : AgentState * gset cell :=
  let p := (x s, y s) in
  if bool_decide (p ∈ food)
  then (set_energy (energy s + inject_Z ENERGY_PER_FOOD)%Q s, food ∖ {[p]})
  else (s, food).

(** [step]: one tick of ageing and the death conditions. *)
Definition step (sim : World) (sn : Senses) (s : AgentState) : AgentState :=
  let s1 := set_age (age s + 1) s in
  if (0 <? MAX_NEIGHBORS sim) && (MAX_NEIGHBORS sim <? sense_agents sn)
  then set_energy (-1) (set_death_reason (PyStr "crowd") s1)
  else if MAX_AGENT_AGE <=? age s1
  then set_energy (-1) (set_death_reason (PyStr "old_age") s1)
  else if Qleb (energy s1) 0
  then set_death_reason (PyStr "energy") s1
  else s1.

Definition can_reproduce (s : AgentState) : bool :=
  Qleb (inject_Z ENERGY_TO_REPRODUCE) (energy s).

(** The raw random draws of one call of [reproduce], in the order the
    interpreter makes them. *)
Record repro_draws : Type := mkDraws {
  d_color : Z * Z * Z;
  d_food_radius : Z;
  d_agent_radius : Z;
  d_mutate_roll : Q;
  d_personality : nat;
  d_id : Z
}.

Definition mutate_radius (value raw : Z) : Z :=
  clamp (value + randint (-1) 1 raw) (fst SENSOR_RADIUS_RANGE) (snd SENSOR_RADIUS_RANGE).

Definition mutate_channel (c raw : Z) : Z :=
  clamp (c + randint (- MUTATION_RANGE) MUTATION_RANGE raw) 0 255.

(** [utils.random_personality] and [utils.mutate_personality]. *)
Definition random_personality (k : nat) : string :=
  nth (k mod length PERSONALITY_TYPES) PERSONALITY_TYPES "explorer"%string.

Definition mutate_personality (parent : string) (roll : Q) (k : nat) : string :=
  if Qltb roll PERSONALITY_MUTATION_RATE then random_personality k else parent.

(** [reproduce]: the child and the updated parent. *)
Definition reproduce (s : AgentState) (d : repro_draws) : Agent * AgentState :=
  let '(r, g, b) := color s in
  let '(dr, dg, db) := d_color d in
  let new_color := (mutate_channel r dr, mutate_channel g dg, mutate_channel b db) in
  let child :=
    new_agent (x s) (y s) new_color (inject_Z ENERGY_AFTER_REPRO)
      (mutate_radius (food_radius s) (d_food_radius d))
      (mutate_radius (agent_radius s) (d_agent_radius d))
      (mutate_personality (personality s) (d_mutate_roll d) (d_personality d))
      (d_id d) in
  let child := with_state (set_parent_id (Some (id s))) child in
  let s1 := set_energy (inject_Z ENERGY_AFTER_REPRO) s in
  let s2 := set_offspring_count (offspring_count s1 + 1) s1 in
  (child, s2).

End AgentBody.

(** ** src/agent_components/agent_senses.py *)

Module AgentSenses.

(** The object during [update]: its fields and the local accumulators of
    the scan. *)
Record scan_state : Type := mkScan {
  self : Senses;
  energy_sum : Q;
  energy_max : Q;
  energy_count : Z;
  friends : Z;
  others : Z
}.

Definition scan_start : scan_state :=
  {| self := reset; energy_sum := 0; energy_max := 0; energy_count := 0;
     friends := 0; others := 0 |}.

Definition on_self (f : Senses -> Senses) (st : scan_state) : scan_state :=
  mkScan (f (self st)) (energy_sum st) (energy_max st) (energy_count st)
    (friends st) (others st).

Definition add_sense_agents (n : Z) (s : Senses) : Senses :=
  mkSenses (sense_food s) (sense_agents s + n) (sense_friends s)
    (sense_others s) (food_up s) (food_down s) (food_left s) (food_right s)
    (food_up_dist s) (food_down_dist s) (food_left_dist s)
    (food_right_dist s) (avg_energy s) (max_energy s) (chemo_signal s)
    (edge_distance_x s) (edge_distance_y s).

Definition add_sense_food (n : Z) (s : Senses) : Senses :=
  mkSenses (sense_food s + n) (sense_agents s) (sense_friends s)
    (sense_others s) (food_up s) (food_down s) (food_left s) (food_right s)
    (food_up_dist s) (food_down_dist s) (food_left_dist s)
    (food_right_dist s) (avg_energy s) (max_energy s) (chemo_signal s)
    (edge_distance_x s) (edge_distance_y s).

Definition add_chemo (q : Q) (s : Senses) : Senses :=
  mkSenses (sense_food s) (sense_agents s) (sense_friends s)
    (sense_others s) (food_up s) (food_down s) (food_left s) (food_right s)
    (food_up_dist s) (food_down_dist s) (food_left_dist s)
    (food_right_dist s) (avg_energy s) (max_energy s) (chemo_signal s + q)%Q
    (edge_distance_x s) (edge_distance_y s).

Definition set_food_counters (u d l r : Z) (s : Senses) : Senses :=
  mkSenses (sense_food s) (sense_agents s) (sense_friends s)
    (sense_others s) u d l r
    (food_up_dist s) (food_down_dist s) (food_left_dist s)
    (food_right_dist s) (avg_energy s) (max_energy s) (chemo_signal s)
    (edge_distance_x s) (edge_distance_y s).

Definition set_food_dists (u d l r : option Q) (s : Senses) : Senses :=
  mkSenses (sense_food s) (sense_agents s) (sense_friends s)
    (sense_others s) (food_up s) (food_down s) (food_left s) (food_right s)
    u d l r (avg_energy s) (max_energy s) (chemo_signal s)
    (edge_distance_x s) (edge_distance_y s).

(** The assignments that end [update]. *)
Definition set_summary (fr ot : Z) (avg mx ex ey : Q) (s : Senses) : Senses :=
  mkSenses (sense_food s) (sense_agents s) fr ot
    (food_up s) (food_down s) (food_left s) (food_right s)
    (food_up_dist s) (food_down_dist s) (food_left_dist s)
    (food_right_dist s) avg mx (chemo_signal s) ex ey.

(** [_update_direction]: two independent tests, so a diagonal offset
    feeds both axes. *)
Definition _update_direction (dx dy : Z) (s : Senses) : Senses :=
  let s1 :=
    if Z.abs dy <=? Z.abs dx then
      if 0 <? dx then set_food_counters (food_up s) (food_down s) (food_left s) (food_right s + 1) s
      else if dx <? 0 then set_food_counters (food_up s) (food_down s) (food_left s + 1) (food_right s) s
      else s
    else s in
  if Z.abs dx <=? Z.abs dy then
    if 0 <? dy then set_food_counters (food_up s1) (food_down s1 + 1) (food_left s1) (food_right s1) s1
    else if dy <? 0 then set_food_counters (food_up s1 + 1) (food_down s1) (food_left s1) (food_right s1) s1
    else s1
  else s1.

(** [_min_dist(old, new)]: [None] counts as infinity. *)
Definition _min_dist (old : option Q) (new : Q) : option Q :=
  match old with
  | None => Some new
  | Some o => if Qltb new o then Some new else Some o
  end.

Definition _update_distance (dx dy : Z) (s : Senses) : Senses :=
  let s1 := if (dx =? 0) && (dy <? 0)
    then set_food_dists (_min_dist (food_up_dist s) (inject_Z (Z.abs dy)))
           (food_down_dist s) (food_left_dist s) (food_right_dist s) s
    else s in
  let s2 := if (dx =? 0) && (0 <? dy)
    then set_food_dists (food_up_dist s1)
           (_min_dist (food_down_dist s1) (inject_Z (Z.abs dy)))
           (food_left_dist s1) (food_right_dist s1) s1
    else s1 in
  let s3 := if (dy =? 0) && (dx <? 0)
    then set_food_dists (food_up_dist s2) (food_down_dist s2)
           (_min_dist (food_left_dist s2) (inject_Z (Z.abs dx)))
           (food_right_dist s2) s2
    else s2 in
  if (dy =? 0) && (0 <? dx)
  then set_food_dists (food_up_dist s3) (food_down_dist s3)
         (food_left_dist s3)
         (_min_dist (food_right_dist s3) (inject_Z (Z.abs dx))) s3
  else s3.

(** [d or r]: [None] and zero are false. *)
Definition py_or (d : option Q) (r : Q) : Q :=
  match d with
  | None => r
  | Some v => if Qeq_bool v 0 then r else v
  end.

(** [_normalize_distances]; dividing by [r = 0] raises. *)
Definition _normalize_distances (fr : Z) (s : Senses) : option Senses :=
  let r := inject_Z (fr + 1) in
  if fr + 1 =? 0 then None
  else Some (set_food_dists
               (Some (py_or (food_up_dist s) r / r)%Q)
               (Some (py_or (food_down_dist s) r / r)%Q)
               (Some (py_or (food_left_dist s) r / r)%Q)
               (Some (py_or (food_right_dist s) r / r)%Q) s).

(** The inner [for ag in agents_here] loop. *)
Definition see_agent (me : AgentState) (st : scan_state) (ag : AgentState) : scan_state :=
  let same := bool_decide (color ag = color me) in
  mkScan (self st)
    (energy_sum st + energy ag)%Q
    (if Qltb (energy_max st) (energy ag) then energy ag else energy_max st)
    (energy_count st + 1)
    (if same then friends st + 1 else friends st)
    (if same then others st else others st + 1).

(** The cell the offset [(dx, dy)] is read from: clamped into the world,
    not skipped. *)
Definition target (sim : World) (me : AgentState) (dx dy : Z) : cell :=
  (clamp (x me + dx) 0 (world_w sim - 1), clamp (y me + dy) 0 (world_h sim - 1)).

(** The body of the double loop of [update] for one offset. *)
Definition scan_cell (sim : World) (me : AgentState)
    (food_grid : gset cell) (agent_grid : gmap cell (list AgentState))
    (chemo_grid : option (Z -> Z -> Q))
    (st : scan_state) (d : Z * Z) : scan_state :=
  let '(dx, dy) := d in
  let t := target sim me dx dy in
  let agents_here := default [] (agent_grid !! t) in
  let st1 := on_self (add_sense_agents (Z.of_nat (length agents_here))) st in
  let st2 := foldl (see_agent me) st1 agents_here in
  let chemo (st' : scan_state) :=
    match chemo_grid with
    | Some g => on_self (add_chemo (g (fst t) (snd t))) st'
    | None => st'
    end in
  if bool_decide (t ∈ food_grid) then
    let st3 := on_self (add_sense_food 1) st2 in
    if (dx =? 0) && (dy =? 0) then st3
    else chemo (on_self (fun s => _update_distance dx dy (_update_direction dx dy s)) st3)
  else chemo st2.

(** The offsets in the order of the two nested [for] loops. *)
Definition offsets (fr : Z) : list (Z * Z) :=
  dx ← range (- fr) (fr + 1); dy ← range (- fr) (fr + 1); [(dx, dy)].

(** The double loop of [update], lines 50-73. *)
Definition scan (sim : World) (me : AgentState)
    (food_grid : gset cell) (agent_grid : gmap cell (list AgentState))
    (chemo_grid : option (Z -> Z -> Q)) : scan_state :=
  foldl (scan_cell sim me food_grid agent_grid chemo_grid) scan_start
    (offsets (food_radius me)).

(** The cells the scan reads, with repetitions, in scan order. *)
Definition scanned_cells (sim : World) (me : AgentState) : list cell :=
  (fun d => target sim me (fst d) (snd d)) <$> offsets (food_radius me).

(** [update]: [None] stands for a [ZeroDivisionError] (a radius of [-1]
    or a world one cell wide or high). *)
Definition update (sim : World) (me : AgentState)
    (food_grid : gset cell) (agent_grid : gmap cell (list AgentState))
    (chemo_grid : option (Z -> Z -> Q)) : option Senses :=
  let st := scan sim me food_grid agent_grid chemo_grid in
  let avg := if energy_count st =? 0 then 0%Q
             else (energy_sum st / inject_Z (energy_count st))%Q in
  s1 ← _normalize_distances (food_radius me) (self st);
  if (world_w sim - 1 =? 0) || (world_h sim - 1 =? 0) then None
  else Some (set_summary (friends st) (others st) avg (energy_max st)
         (inject_Z (Z.min (x me) (world_w sim - 1 - x me)) / inject_Z (world_w sim - 1))%Q
         (inject_Z (Z.min (y me) (world_h sim - 1 - y me)) / inject_Z (world_h sim - 1))%Q
         s1).

End AgentSenses.

(** ** The simulation object (src/simulation.py) *)

Definition genome_key : Type := color_t * Z * Z * string.

Record Simulation : Type := mkSim {
  knobs : World;
  ema_crowd : Q;
  ema_energy : Q;
  ema_old_age : Q;
  tick : Z;
  trace_map : gmap cell Z;
  recent_deaths : list pyval;
  genome_stats : genome_key -> list (Z * Z);
  deaths : pyval -> list Z;
  agents : list Agent;
  food_set : gset cell;
  _deadlock_ticks : Z
}.

Definition set_knobs (k : World) (sim : Simulation) : Simulation :=
  mkSim k (ema_crowd sim) (ema_energy sim) (ema_old_age sim) (tick sim)
    (trace_map sim) (recent_deaths sim) (genome_stats sim) (deaths sim)
    (agents sim) (food_set sim) (_deadlock_ticks sim).

Definition set_emas (c e o : Q) (sim : Simulation) : Simulation :=
  mkSim (knobs sim) c e o (tick sim) (trace_map sim) (recent_deaths sim)
    (genome_stats sim) (deaths sim) (agents sim) (food_set sim)
    (_deadlock_ticks sim).

Definition set_deadlock_ticks (n : Z) (sim : Simulation) : Simulation :=
  mkSim (knobs sim) (ema_crowd sim) (ema_energy sim) (ema_old_age sim)
    (tick sim) (trace_map sim) (recent_deaths sim) (genome_stats sim)
    (deaths sim) (agents sim) (food_set sim) n.

Definition set_agents (l : list Agent) (sim : Simulation) : Simulation :=
  mkSim (knobs sim) (ema_crowd sim) (ema_energy sim) (ema_old_age sim)
    (tick sim) (trace_map sim) (recent_deaths sim) (genome_stats sim)
    (deaths sim) l (food_set sim) (_deadlock_ticks sim).

Definition set_food_set (f : gset cell) (sim : Simulation) : Simulation :=
  mkSim (knobs sim) (ema_crowd sim) (ema_energy sim) (ema_old_age sim)
    (tick sim) (trace_map sim) (recent_deaths sim) (genome_stats sim)
    (deaths sim) (agents sim) f (_deadlock_ticks sim).

Definition set_trace_map (t : gmap cell Z) (sim : Simulation) : Simulation :=
  mkSim (knobs sim) (ema_crowd sim) (ema_energy sim) (ema_old_age sim)
    (tick sim) t (recent_deaths sim) (genome_stats sim)
    (deaths sim) (agents sim) (food_set sim) (_deadlock_ticks sim).

Definition set_stats (rd : list pyval) (gs : genome_key -> list (Z * Z))
    (ds : pyval -> list Z) (sim : Simulation) : Simulation :=
  mkSim (knobs sim) (ema_crowd sim) (ema_energy sim) (ema_old_age sim)
    (tick sim) (trace_map sim) rd gs ds (agents sim) (food_set sim)
    (_deadlock_ticks sim).

(** The number of live agents, [len(sim.agents)]. *)
Definition population (sim : Simulation) : Z := Z.of_nat (length (agents sim)).

(** [ResourceLimits] and [Simulation.apply_resource_limits]. *)
Record ResourceLimits : Type := mkLimits {
  max_neighbors : Z;
  food_count : Z;
  move_cost : Q;
  idle_cost : Q;
  max_pop : Z
}.

Definition apply_resource_limits (l : ResourceLimits) (sim : Simulation) : Simulation :=
  set_knobs (mkWorld (world_w (knobs sim)) (world_h (knobs sim))
               (max_neighbors l) (food_count l) (move_cost l) (idle_cost l)
               (max_pop l)) sim.

(** [sorted(xs, key=...)]: a stable sort, smallest key first. *)
Fixpoint insert_by {A : Type} (key : A -> Z) (a : A) (l : list A) : list A :=
  match l with
  | [] => [a]
  | b :: l' => if key a <=? key b then a :: b :: l' else b :: insert_by key a l'
  end.

Definition sorted_by {A : Type} (key : A -> Z) (l : list A) : list A :=
  foldr (insert_by key) [] l.

(** [Simulation.cull_agents]: the [count] oldest agents are marked in place
    (they stay in the list until the next cleanup). *)
Definition cull_agents (count : Z) (sim : Simulation) : Simulation :=
  if count <=? 0 then sim
  else
    let indexed := imap (fun i a => (i, a)) (agents sim) in
    let sorted_agents := sorted_by (fun ia => - age (state (snd ia))) indexed in
    let kill := map fst (take (Z.to_nat count) sorted_agents) in
    set_agents
      (imap (fun i a =>
               if bool_decide (i ∈ kill)
               then with_state (fun s => set_death_reason (PyStr "cull") (set_energy (-1) s)) a
               else a) (agents sim))
      sim.

(** ** src/population_balancer.py *)

Module PopulationBalancer.

Definition MAXN_MIN : Z := 8.
Definition MAXN_MAX : Z := 30.
Definition FOOD_MIN : Z := 300.
Definition FOOD_MAX : Z := 1200.
Definition MOVE_MIN : Q := 8 # 10.
Definition MOVE_MAX : Q := 25 # 10.
Definition POP_MIN : Z := 200.
Definition POP_MAX : Z := 2000.
Definition DEADLOCK_LIMIT : Z := 80.

(** [dynamic_alpha = 0.03] *)
Definition dynamic_alpha : Q := 3 # 100.

(** [sum(1 for d in recent_deaths if d == v)] *)
Definition count_eq (v : pyval) (l : list pyval) : Z :=
  Z.of_nat (length (filter (fun d => py_eq d v = true) l)).

(** The four counts of lines 48-51. The first one compares every record
    with the tuple [("crowd", "cull")]. *)
Definition crowd_count (l : list pyval) : Z := count_eq (PyTuple ["crowd"; "cull"]%string) l.
Definition energy_count (l : list pyval) : Z := count_eq (PyStr "energy") l.
Definition old_age_count (l : list pyval) : Z := count_eq (PyStr "old_age") l.
Definition total (l : list pyval) : Z :=
  crowd_count l + energy_count l + old_age_count l + 1.

Definition current_crowd_ratio (l : list pyval) : Q :=
  inject_Z (crowd_count l) / inject_Z (total l).
Definition current_energy_ratio (l : list pyval) : Q :=
  inject_Z (energy_count l) / inject_Z (total l).
Definition current_old_age_ratio (l : list pyval) : Q :=
  inject_Z (old_age_count l) / inject_Z (total l).

(** [ema += dynamic_alpha * (ratio - ema)] *)
Definition ema_step (ema ratio : Q) : Q := ema + dynamic_alpha * (ratio - ema).

(** Lines 58-61: the three moving averages. *)
Definition update_ema (sim : Simulation) : Simulation :=
  set_emas (ema_step (ema_crowd sim) (current_crowd_ratio (recent_deaths sim)))
           (ema_step (ema_energy sim) (current_energy_ratio (recent_deaths sim)))
           (ema_step (ema_old_age sim) (current_old_age_ratio (recent_deaths sim)))
           sim.

(** Lines 63-77: the proportional feedback, from the updated averages. *)
Definition neighbor_change (sim : Simulation) : Q :=
  clampQ (1 + (ema_crowd sim - TARGET_CROWD_RATIO) * (1 # 10)) (98 # 100) (102 # 100).
Definition food_change (sim : Simulation) : Q :=
  clampQ (1 + (ema_energy sim - TARGET_ENERGY_RATIO) * (1 # 10)) (98 # 100) (102 # 100).
Definition move_cost_change (sim : Simulation) : Q :=
  clampQ (1 + (ema_crowd sim - TARGET_CROWD_RATIO) * (5 # 100)) (98 # 100) (102 # 100).
Definition pop_limit_change (sim : Simulation) : Q :=
  clampQ (1 - (ema_crowd sim - TARGET_CROWD_RATIO) * (5 # 100)) (95 # 100) (105 # 100).

Definition feedback (sim : Simulation) : ResourceLimits :=
  let k := knobs sim in
  let mc := clampQ (MOVE_COST k * move_cost_change sim) MOVE_MIN MOVE_MAX in
  {| max_neighbors :=
       py_int (clampQ (inject_Z (MAX_NEIGHBORS k) * neighbor_change sim)
                      (inject_Z MAXN_MIN) (inject_Z MAXN_MAX));
     food_count :=
       py_int (clampQ (inject_Z (FOOD_COUNT k) * food_change sim)
                      (inject_Z FOOD_MIN) (inject_Z FOOD_MAX));
     move_cost := mc;
     idle_cost := mc * (6 # 10);
     max_pop :=
       py_int (clampQ (inject_Z (MAX_POP k) * pop_limit_change sim)
                      (inject_Z POP_MIN) (inject_Z POP_MAX)) |}.

(** Lines 80-86: the deadlock test on the proposed limits. *)
Definition is_deadlocked (l : ResourceLimits) (sim : Simulation) : bool :=
  Qltb (Qabs (inject_Z (max_neighbors l - MAXN_MIN))) (11 # 10) &&
  Qltb (Qabs (inject_Z (food_count l - FOOD_MIN))) (51 # 10) &&
  Qltb (Qabs (move_cost l - MOVE_MAX)) (9 # 100) &&
  Qltb (Qabs (inject_Z (max_pop l - POP_MIN))) 15 &&
  Qltb (96 # 100) (ema_crowd sim).

(** Lines 95-101: the limits of the deadlock breaker, from the two raw
    draws of [random.randint]. *)
Definition breaker_limits (raw_n raw_f : Z) : ResourceLimits :=
  {| max_neighbors := randint 20 MAXN_MAX raw_n;
     food_count := randint (FOOD_MAX / 2) FOOD_MAX raw_f;
     move_cost := MOVE_MIN;
     idle_cost := MOVE_MIN * (6 # 10);
     max_pop := POP_MAX |}.

(** The skip test of line 44. *)
Definition insufficient_data (sim : Simulation) : bool :=
  (population sim =? 0) || (Z.of_nat (length (recent_deaths sim)) <? 50).

(** Lines 47-111, past the skip test: averages, feedback, deadlock
    counter, breaker, and the first [apply_resource_limits]. *)
Definition adjust (raw_n raw_f : Z) (sim : Simulation) : Simulation :=
  let sim1 := update_ema sim in
  let l := feedback sim1 in
  let ticks := if is_deadlocked l sim1 then _deadlock_ticks sim1 + 1 else 0 in
  let sim2 := set_deadlock_ticks ticks sim1 in
  if DEADLOCK_LIMIT <=? _deadlock_ticks sim2 then
    let sim3 := set_emas (3 # 10) (ema_energy sim2) (ema_old_age sim2) sim2 in
    let sim4 := set_deadlock_ticks 0 sim3 in
    apply_resource_limits (breaker_limits raw_n raw_f) sim4
  else apply_resource_limits l sim2.

(** Lines 113-116. *)
Definition hard_cull (sim : Simulation) : Simulation :=
  if py_int (inject_Z (MAX_POP (knobs sim)) * (13 # 10)) <? population sim
  then cull_agents (population sim - MAX_POP (knobs sim)) sim
  else sim.

(** Lines 118-130. *)
Definition pop_control (sim : Simulation) : Simulation :=
  let k := knobs sim in
  if MAX_POP k <? population sim then
    let mc := py_min (MOVE_COST k + (5 # 100)) MOVE_MAX in
    apply_resource_limits
      {| max_neighbors := MAX_NEIGHBORS k;
         food_count := Z.max (FOOD_COUNT k - 50) FOOD_MIN;
         move_cost := mc;
         idle_cost := mc * (6 # 10);
         max_pop := MAX_POP k |} sim
  else sim.

(** Lines 132-144. *)
Definition pop_recovery (sim : Simulation) : Simulation :=
  let k := knobs sim in
  if population sim <? MIN_POP then
    let mc := py_max (MOVE_COST k - (5 # 100)) MOVE_MIN in
    apply_resource_limits
      {| max_neighbors := MAX_NEIGHBORS k;
         food_count := Z.min (FOOD_COUNT k + 50) FOOD_MAX;
         move_cost := mc;
         idle_cost := mc * (6 # 10);
         max_pop := MAX_POP k |} sim
  else sim.

(** [balance]. *)
Definition balance (raw_n raw_f : Z) (sim : Simulation) : Simulation :=
  if insufficient_data sim then sim
  else pop_recovery (pop_control (hard_cull (adjust raw_n raw_f sim))).

End PopulationBalancer.

(** ** The lifecycle part of a tick: [Simulation.run], lines 314-357 *)

Module Tick.

(** Lines 315-317: the spatial index, cell to the agents standing there. *)
Definition agent_grid (l : list Agent) : gmap cell (list AgentState) :=
  foldl (fun g a => <[pos a := default [] (g !! pos a) ++ [state a]]> g) ∅ l.

(** Lines 318-319: every agent senses against the same snapshot. *)
Definition sense_all (sim : Simulation) : option (list Agent) :=
  let food_grid := food_set sim in
  let grid := agent_grid (agents sim) in
  mapM (fun a =>
          sn ← AgentSenses.update (knobs sim) (state a) food_grid grid None;
          Some (mkAgent (state a) sn))
       (agents sim).

Definition alive (a : Agent) : bool := Qltb 0 (energy (state a)).

(** Lines 321-326: the indices of the agents with [energy > 0]. *)
Definition active_idx (l : list Agent) : list nat :=
  fst <$> filter (fun ia => alive (snd ia) = true) (imap (fun i a => (i, a)) l).

(** What the policy engine and the sampling return for one active agent:
    the drawn action and the new recurrent state. *)
Record decision : Type := mkDecision {
  action : Z;
  h_new : list Q;
  c_new : list Q
}.

Definition move_state : Type := list Agent * gset cell * gmap cell Z.

(** The body of the loop of lines 341-345. *)
Definition move_one (w : World) (now : Z) (decisions : list decision)
    (acc : option move_state) (p : nat * nat) : option move_state :=
  '(ags, taken, tm) ← acc;
  a ← ags !! snd p;
  d ← decisions !! fst p;
  '(s', tm') ← AgentBody.apply_move w (state a) (action d) (h_new d) (c_new d) taken tm now;
  Some (<[snd p := mkAgent s' (senses a)]> ags, taken ∪ {[ (x s', y s') ]}, tm').

(** Lines 339-345 on the list of agents: [taken] starts as the cells of
    all agents. *)
Definition move_loop (w : World) (now : Z) (decisions : list decision)
    (l : list Agent) : option move_state :=
  foldl (move_one w now decisions)
    (Some (l, list_to_set (pos <$> l), ∅))
    (imap (fun i idx => (i, idx)) (active_idx l)).

(** Lines 327-345: nothing happens when no agent is active. *)
Definition resolve_moves (decisions : list decision) (sim : Simulation) : option Simulation :=
  match active_idx (agents sim) with
  | [] => Some sim
  | _ =>
      '(ags, _, tm) ← move_loop (knobs sim) (tick sim) decisions (agents sim);
      Some (set_trace_map tm (set_agents ags sim))
  end.

(** The body of the loop of lines 346-349; the food set is shared. *)
Definition eat_step_one (w : World) (acc : list Agent * gset cell) (a : Agent)
    : list Agent * gset cell :=
  if alive a then
    let '(s1, food') := AgentBody.eat (state a) (snd acc) in
    (fst acc ++ [mkAgent (AgentBody.step w (senses a) s1) (senses a)], food')
  else (fst acc ++ [a], snd acc).

Definition eat_and_step (sim : Simulation) : Simulation :=
  let '(ags, food') := foldl (eat_step_one (knobs sim)) ([], food_set sim) (agents sim) in
  set_food_set food' (set_agents ags sim).

(** Line 350. *)
Definition dead (sim : Simulation) : list Agent :=
  filter (fun a => Qleb (energy (state a)) 0 = true) (agents sim).

(** Lines 351-356 for one dead agent. *)
Definition record_death (sim : Simulation) (a : Agent) : Simulation :=
  let s := state a in
  set_stats
    (deque_append 2000 (recent_deaths sim) (death_reason s))
    (dict_append (genome_stats sim)
       (color s, food_radius s, agent_radius s, personality s)
       (age s, offspring_count s))
    (dict_append (dict_append (deaths sim) (death_reason s) (age s))
       (PyStr "all") (age s))
    sim.

(** Lines 350-357: bookkeeping, then the dead leave the live set. *)
Definition cleanup (sim : Simulation) : Simulation :=
  let sim1 := foldl record_death sim (dead sim) in
  set_agents (filter (fun a => alive a = true) (agents sim1)) sim1.

(** The tick up to the cleanup, and with it. *)
Definition before_cleanup (decisions : list decision) (sim : Simulation) : option Simulation :=
  ags ← sense_all sim;
  sim1 ← resolve_moves decisions (set_agents ags sim);
  Some (eat_and_step sim1).

Definition lifecycle (decisions : list decision) (sim : Simulation) : option Simulation :=
  cleanup <$> before_cleanup decisions sim.

(** The agents whose death cause is set. *)
Definition with_death_cause (l : list Agent) : list Agent :=
  filter (fun a => death_reason (state a) ≠ PyNone) l.

End Tick.

Import AgentBody AgentSenses PopulationBalancer Tick.

(** ** Concrete scenarios *)

(** The world of [Simulation.__init__]: 1720 x 1320 pixels in cells of 16,
    with the initial resource knobs. *)
Definition initial_world : World :=
  {| world_w := 1720 / 16; world_h := 1320 / 16;
     MAX_NEIGHBORS := 15; FOOD_COUNT := 600;
     MOVE_COST := 1; IDLE_COST := 6 # 10; MAX_POP := config.MAX_POP |}.

(** A simulation at tick [0] with the given agents and food, and empty
    statistics. *)
Definition simulation_with (l : list Agent) (food : gset cell) : Simulation :=
  {| knobs := initial_world; ema_crowd := 0; ema_energy := 0; ema_old_age := 0;
     tick := 0; trace_map := ∅; recent_deaths := [];
     genome_stats := fun _ => []; deaths := fun _ => [];
     agents := l; food_set := food; _deadlock_ticks := 0 |}.

(** An agent of radius 2 with the given cell and energy. *)
Definition agent_at (cx cy : Z) (e : Q) : Agent :=
  new_agent cx cy (10, 20, 30) e 2 3 "explorer" 1.

(** [utils.random_pos_in_zone] and [Simulation._current_food_zone] for the
    zone [(0.0, 0.5, 0.0, 1.0)] that is current when the agents are seeded. *)
Definition random_pos_in_zone (x0 x1 y0 y1 raw_x raw_y : Z) : cell :=
  (randint x0 (x1 - 1) raw_x, randint y0 (y1 - 1) raw_y).

Definition seeding_zone (w : World) : Z * Z * Z * Z :=
  (py_int (0 * inject_Z (world_w w)), py_int ((1 # 2) * inject_Z (world_w w)),
   py_int (0 * inject_Z (world_h w)), py_int (1 * inject_Z (world_h w))).

(** The raw draws behind one agent of the initial population. *)
Record seed_draws : Type := mkSeed {
  raw_x : Z;
  raw_y : Z;
  raw_color : Z * Z * Z;
  raw_food_radius : Z;
  raw_agent_radius : Z;
  raw_personality : nat;
  raw_id : Z
}.

(** One element of the list comprehension of [Simulation.__init__], lines
    76-85: the cell is drawn in the zone, whoever stands there already. *)
Definition seed_agent (w : World) (d : seed_draws) : Agent :=
  let '(x0, x1, y0, y1) := seeding_zone w in
  let '(cx, cy) := random_pos_in_zone x0 x1 y0 y1 (raw_x d) (raw_y d) in
  let '(r, g, b) := raw_color d in
  new_agent cx cy (randint 0 254 r, randint 0 254 g, randint 0 254 b)
    (inject_Z ENERGY_START)
    (randint (fst SENSOR_RADIUS_RANGE) (snd SENSOR_RADIUS_RANGE) (raw_food_radius d))
    (randint (fst SENSOR_RADIUS_RANGE) (snd SENSOR_RADIUS_RANGE) (raw_agent_radius d))
    (random_personality (raw_personality d))
    (randint 0 1000000 (raw_id d)).

(** ** More of src/config.py: the shape of the network input *)

Module config_nn.

Definition N_BASE_INPUTS : nat := 23.
Definition N_HISTORY : nat := 20.
Definition NN_INPUTS : nat := N_BASE_INPUTS * (1 + N_HISTORY).

(** [food_zones]: the fractions of the world that bound each zone. *)
Definition food_zones : list (Q * Q * Q * Q) :=
  [ (0 # 1, 1 # 2, 0 # 1, 1 # 1);
    (0 # 1, 1 # 1, 0 # 1, 1 # 1);
    (1 # 2, 1 # 1, 0 # 1, 1 # 1);
    (1 # 4, 3 # 4, 1 # 4, 3 # 4) ].

End config_nn.
Import config_nn.

(** ** src/agent_components/agent_brain.py *)

Module AgentBrain.

(** [len(self.input_keys)] and the history window of [_init_input_shape]. *)
Definition n_base_inputs : nat := 23.
Definition n_history : nat := N_HISTORY.
Definition n_inputs : nat := n_base_inputs * (1 + n_history).

(** An entry of the Python list [base_inputs]: a number, or [None] for a
    food distance that no sensory update has set yet. *)
Inductive entry : Type :=
  | NoneE
  | Num (q : Q).

(** An entry of the [float32] array [inputs]. *)
Inductive f32 : Type :=
  | NaN
  | F32 (q : Q).

Definition of_dist (d : option Q) : entry :=
  match d with
  | Some q => Num q
  | None => NoneE
  end.

(** The list [base_inputs] of lines 69-93, before normalisation. *)
Definition raw_inputs (sim : Simulation) (st : AgentState) (s : Senses) : list entry :=
  [ Num (inject_Z (sense_food s));
    Num (inject_Z (sense_agents s));
    Num (inject_Z (sense_friends s));
    Num (inject_Z (sense_others s));
    Num (avg_energy s);
    Num (max_energy s);
    Num (chemo_signal s);
    Num (edge_distance_x s);
    Num (edge_distance_y s);
    Num (inject_Z (food_up s));
    Num (inject_Z (food_down s));
    Num (inject_Z (food_left s));
    Num (inject_Z (food_right s));
    of_dist (food_up_dist s);
    of_dist (food_down_dist s);
    of_dist (food_left_dist s);
    of_dist (food_right_dist s);
    Num (if bool_decide ((x st, y st) ∈ visited_last_10 st) then 1 # 1 else 0 # 1);
    Num (inject_Z (fst (last_move st)));
    Num (inject_Z (snd (last_move st)));
    Num (ema_crowd sim);
    Num (ema_energy sim);
    Num (ema_old_age sim) ].

(** [base_inputs[i] /= d]: an index out of range raises [IndexError] and
    an entry that is [None] raises [TypeError]. *)
Definition div_at (i : nat) (d : Q) (l : list entry) : option (list entry) :=
  match l !! i with
  | Some (Num q) => Some (<[i := Num (q / d)]> l)
  | _ => None
  end.

(** Lines 96-107. *)
Definition normalize (l : list entry) : option (list entry) :=
  l ← div_at 0 10 l;
  l ← div_at 1 10 l;
  l ← div_at 2 10 l;
  l ← div_at 3 10 l;
  l ← div_at 4 200 l;
  l ← div_at 5 200 l;
  l ← div_at 6 5 l;
  l ← div_at 9 5 l;
  l ← div_at 10 5 l;
  l ← div_at 11 5 l;
  div_at 12 5 l.

(** Lines 113-117: the flattened history, padded with zeros. *)
Definition flat_hist (last_inputs : list (list entry)) : list entry :=
  let flat := concat last_inputs in
  flat ++ replicate (n_base_inputs * n_history - length flat) (Num (0 # 1)).

(** Lines 123-125: the history keeps the last [n_history] records. *)
Definition push_history (last_inputs : list (list entry)) (base : list entry)
    : list (list entry) :=
  let l := last_inputs ++ [base] in
  if (n_history <? length l)%nat then drop (length l - n_history) l else l.

Definition boost : Q := 12 # 10.

Section Float32.

(** The two operations on [float32] values that the embedding leaves
    open: the rounding of a Python float to [float32], and the product of
    an array entry with a Python float, stored back into the array. *)
Variable round32 : Q -> Q.
Variable scale32 : f32 -> Q -> f32.

(** [np.array(..., dtype=np.float32)] on one entry: [None] becomes
    [nan]. *)
Definition cast (e : entry) : f32 :=
  match e with
  | NoneE => NaN
  | Num q => F32 (round32 q)
  end.

(** [inputs[i] *= f] on the array of [n_inputs] entries. *)
Definition mul_at (i : nat) (f : Q) (l : list f32) : list f32 :=
  alter (fun v => scale32 v f) i l.

(** Lines 128-143: the bias of the personality on one feature. *)
Definition bias (personality : string) (inputs : list f32) : list f32 :=
  if String.eqb personality "explorer" then mul_at 13 boost inputs
  else if String.eqb personality "survivor" then mul_at 4 boost inputs
  else if String.eqb personality "feeder" then mul_at 0 boost inputs
  else if String.eqb personality "loner" then mul_at 1 boost inputs
  else if String.eqb personality "social" then mul_at 1 (- boost) inputs
  else inputs.

(** [get_inputs]: the input vector and the new history; [None] when a
    division or one of the two assertions raises. The record kept in the
    history is the Python list, the vector returned is its [float32]
    copy. *)
Definition get_inputs (sim : Simulation) (st : AgentState) (s : Senses)
    (last_inputs : list (list entry)) : option (list f32 * list (list entry)) :=
  base_inputs ← normalize (raw_inputs sim st s);
  if negb (length base_inputs =? n_base_inputs)%nat then None
  else
    let inputs := cast <$> (base_inputs ++ flat_hist last_inputs) in
    if negb (length inputs =? n_inputs)%nat then None
    else Some (bias (personality st) inputs, push_history last_inputs base_inputs).

End Float32.

End AgentBrain.

(** ** More of src/utils.py and src/simulation.py: food *)

Module Food.

(** [Simulation._current_food_zone]; an index outside the list raises. *)
Definition _current_food_zone (food_zone_idx : nat) (w : World)
    : option (Z * Z * Z * Z) :=
  '(x0f, x1f, y0f, y1f) ← food_zones !! food_zone_idx;
  Some (py_int (x0f * inject_Z (world_w w)), py_int (x1f * inject_Z (world_w w)),
        py_int (y0f * inject_Z (world_h w)), py_int (y1f * inject_Z (world_h w))).

(** Lines 309-312 of [run]: every [food_zone_duration = 1000] ticks the
    zone index advances and the food is cleared. *)
Definition rotate_zone (food_zone_idx : nat) (sim : Simulation) : nat * Simulation :=
  if tick sim mod 1000 =? 0
  then ((food_zone_idx + 1) mod length food_zones, set_food_set ∅ sim)%nat
  else (food_zone_idx, sim).

(** [random_pos_in_zone] as [spawn_food] calls it: [random.randint] raises
    on an empty range. *)
Definition random_pos (zone : Z * Z * Z * Z) (raw : Z * Z) : option cell :=
  let '(x0, x1, y0, y1) := zone in
  if (x1 - 1 <? x0) || (y1 - 1 <? y0) then None
  else Some (random_pos_in_zone x0 x1 y0 y1 (fst raw) (snd raw)).

(** The loop of [spawn_food]; every iteration adds one to [tries], so
    [desired_count * 10] iterations are enough fuel. The draw of try [n] is
    [draws n]. *)
Fixpoint spawn_loop (fuel : nat) (desired_count : Z) (zone : Z * Z * Z * Z)
    (taken : gset cell) (draws : nat -> Z * Z) (tries : nat) (food_set : gset cell)
    : option (gset cell) :=
  match fuel with
  | O => Some food_set
  | S fuel' =>
      if (Z.of_nat (size food_set) <? desired_count)
         && (Z.of_nat tries <? desired_count * 10)
      then
        p ← random_pos zone (draws tries);
        if bool_decide (p ∈ food_set) || bool_decide (p ∈ taken)
        then spawn_loop fuel' desired_count zone taken draws (S tries) food_set
        else spawn_loop fuel' desired_count zone taken draws (S tries) ({[p]} ∪ food_set)
      else Some food_set
  end.

Definition spawn_food (food_set : gset cell) (desired_count : Z)
    (zone : Z * Z * Z * Z) (taken : gset cell) (draws : nat -> Z * Z)
    : option (gset cell) :=
  spawn_loop (Z.to_nat (desired_count * 10)) desired_count zone taken draws 0 food_set.

(** [Simulation._spawn_food]. *)
Definition _spawn_food (food_zone_idx : nat) (draws : nat -> Z * Z)
    (sim : Simulation) : option Simulation :=
  zone ← _current_food_zone food_zone_idx (knobs sim);
  food' ← spawn_food (food_set sim) (FOOD_COUNT (knobs sim)) zone
            (list_to_set (pos <$> agents sim)) draws;
  Some (set_food_set food' sim).

(** Lines 309-313 of [run]: the zone may rotate, then the food is
    replenished. *)
Definition start_of_tick (food_zone_idx : nat) (draws : nat -> Z * Z)
    (sim : Simulation) : option (nat * Simulation) :=
  let '(idx', sim1) := rotate_zone food_zone_idx sim in
  sim2 ← _spawn_food idx' draws sim1;
  Some (idx', sim2).

End Food.

(** ** The reproduction part of a tick: [Simulation.run], lines 358-375 *)

Module Reproduction.

(** The four neighbour offsets in the order of line 365. *)
Definition neighbour_offsets : list (Z * Z) := [(-1, 0); (1, 0); (0, -1); (0, 1)].

(** Lines 364-368: the clamped neighbour cells that are neither claimed
    nor holding food. *)
Definition empty_cells (w : World) (a : Agent) (taken food : gset cell) : list cell :=
  filter (fun c => (c ∉ taken) /\ (c ∉ food))
    ((fun d => (clamp (x (state a) + fst d) 0 (world_w w - 1),
                clamp (y (state a) + snd d) 0 (world_h w - 1)))
       <$> neighbour_offsets).

(** [random.choice(empty)] on a non-empty list, from the raw draw. *)
Definition choice {A : Type} (l : list A) (raw : nat) : option A :=
  l !! (raw mod length l)%nat.

(** The state of the loop: the agents processed so far, the children, and
    the claimed cells. *)
Record repro_state : Type := mkRepro {
  parents : list Agent;
  new_agents : list Agent;
  taken_cells : gset cell
}.

(** The body of the loop of lines 361-374 for the agent [a], with the raw
    draws of its [random.choice] and of its [reproduce]. *)
Definition reproduce_one (w : World) (food : gset cell)
    (st : repro_state) (a : Agent) (d : nat * repro_draws) : repro_state :=
  if negb (can_reproduce (state a)) then
    mkRepro (parents st ++ [a]) (new_agents st) (taken_cells st)
  else
    let empty := empty_cells w a (taken_cells st) food in
    match choice empty (fst d) with
    | None => mkRepro (parents st ++ [a]) (new_agents st) (taken_cells st)
    | Some (nx, ny) =>
        let '(child, s') := reproduce (state a) (snd d) in
        let child' := with_state (set_xy nx ny) child in
        mkRepro (parents st ++ [mkAgent s' (senses a)])
                (new_agents st ++ [child'])
                (taken_cells st ∪ {[ (nx, ny) ]})
    end.

Definition reproduce_loop (w : World) (food : gset cell)
    (draws : nat -> nat * repro_draws) (l : list Agent) : repro_state :=
  foldl (fun st ia => reproduce_one w food st (snd ia) (draws (fst ia)))
    (mkRepro [] [] (list_to_set (pos <$> l)))
    (imap (fun i a => (i, a)) l).

(** Lines 358-375: the agent at index [i] uses the draws [draws i]. *)
Definition reproduction (draws : nat -> nat * repro_draws) (sim : Simulation)
    : Simulation :=
  let st := reproduce_loop (knobs sim) (food_set sim) draws (agents sim) in
  set_agents (parents st ++ new_agents st) sim.

End Reproduction.

Import AgentBrain Food Reproduction.

(** ** The vocabulary of the properties *)

(** The two unconditional death conditions of [step]: the crowd limit is
    configured and strictly exceeded; the age, once advanced, has reached
    the maximum. *)
Definition crowded (w : World) (sn : Senses) : Prop :=
  0 < MAX_NEIGHBORS w /\ MAX_NEIGHBORS w < sense_agents sn.

Definition too_old (s : AgentState) : Prop := MAX_AGENT_AGE <= age s + 1.

(** The loop invariant: the agents stand on distinct cells, all of them
    claimed. *)
Definition claimed (st : move_state) : Prop :=
  NoDup (pos <$> st.1.1) /\ (forall p, p ∈ (pos <$> st.1.1) -> p ∈ st.1.2).

(** Two neighbours that both want the cell above them. *)
Definition two_neighbours : Simulation :=
  simulation_with [agent_at 5 5 45; agent_at 6 5 45] ∅.

(** The decision that carries the action [a] and a zero recurrent state. *)
Definition go (a : Z) : decision := mkDecision a zeros_state zeros_state.

(** Two agents of the initial population whose cell draws coincide, in
    the corner of the seeding zone. *)
Definition corner_draws (n : Z) : seed_draws :=
  mkSeed 0 0 (10, 20, 30) 2 3 0%nat n.

(** The simulation with these two agents and no food. *)
Definition seeded_on_one_cell : Simulation :=
  simulation_with
    [seed_agent initial_world (corner_draws 1);
     seed_agent initial_world (corner_draws 2)] ∅.

(** An agent with one unit of energy left, alone in the world. *)
Definition last_unit : Simulation := simulation_with [agent_at 5 5 1] ∅.

(** The hard legal ranges of the four knobs, and the idle cost as the fixed
    fraction of the move cost. *)
Definition legal (k : World) : Prop :=
  8 <= MAX_NEIGHBORS k <= 30 /\
  300 <= FOOD_COUNT k <= 1200 /\
  (8 # 10 <= MOVE_COST k <= 25 # 10)%Q /\
  200 <= MAX_POP k <= 2000 /\
  IDLE_COST k = (MOVE_COST k * (6 # 10))%Q.

(** The same ranges on limits about to be applied. *)
Definition legal_limits (l : ResourceLimits) : Prop :=
  8 <= max_neighbors l <= 30 /\
  300 <= food_count l <= 1200 /\
  (8 # 10 <= move_cost l <= 25 # 10)%Q /\
  200 <= max_pop l <= 2000 /\
  idle_cost l = (move_cost l * (6 # 10))%Q.

(** A simulation with the given death log, deadlock counter, crowd
    average, knobs and agents. *)
Definition with_deaths (rd : list pyval) (ticks : Z) (c : Q) (k : World)
    (l : list Agent) : Simulation :=
  {| knobs := k; ema_crowd := c; ema_energy := 0; ema_old_age := 0;
     tick := 0; trace_map := ∅; recent_deaths := rd;
     genome_stats := fun _ => []; deaths := fun _ => [];
     agents := l; food_set := ∅; _deadlock_ticks := ticks |}.

(** Past the data test: one agent and fifty deaths, all of cause
    "energy". *)
Definition fifty_energy_deaths : Simulation :=
  with_deaths (replicate 50 (PyStr "energy")) 0 0 initial_world [agent_at 5 5 45].

(** Past the data test, as a run can get there: the initial knobs and
    averages, one agent, and fifty deaths of old age in the log. *)
Definition fifty_old_age_deaths : Simulation :=
  with_deaths (replicate 50 (PyStr "old_age")) 0 0 initial_world [agent_at 5 5 45].

(** The state of the controller: the three averages and the deadlock
    counter. *)
Definition controller (sim : Simulation) : Q * Q * Q * Z :=
  (ema_crowd sim, ema_energy sim, ema_old_age sim, _deadlock_ticks sim).

(** The count the claim speaks of: the records whose cause is the given
    one. *)
Definition records_with (cause : string) (l : list pyval) : Z :=
  Z.of_nat (length (filter (fun d => d = PyStr cause) l)).

(** The ratio as the claim states it: the count divided by the total of
    the three counts. *)
Definition stated_ratio (cause : string) (l : list pyval) : Q :=
  inject_Z (records_with cause l) /
  inject_Z (records_with "crowd" l + records_with "energy" l + records_with "old_age" l).

(** The deadlock test as [balance] evaluates it: on the limits proposed
    from the updated averages. *)
Definition deadlock_condition (sim : Simulation) : bool :=
  is_deadlocked (feedback (update_ema sim)) (update_ema sim).

(** The knobs pinned at their restrictive extremes. *)
Definition pinned_world : World :=
  {| world_w := 107; world_h := 82; MAX_NEIGHBORS := 8; FOOD_COUNT := 300;
     MOVE_COST := 25 # 10; IDLE_COST := 15 # 10; MAX_POP := 200 |}.

(** Pinned knobs, the crowd average above its ceiling, fifty death
    records, and the given deadlock counter and agents. *)
Definition pinned (ticks : Z) (l : list Agent) : Simulation :=
  with_deaths (replicate 50 (PyStr "crowd")) ticks (99 # 100) pinned_world l.

(** The square of radius [food_radius] around the agent, and the agents
    that stand at least that far from every edge of the world. *)
Definition in_square (me : AgentState) (c : cell) : Prop :=
  (x me - food_radius me <= c.1 <= x me + food_radius me) /\
  (y me - food_radius me <= c.2 <= y me + food_radius me).

#[global] Instance in_square_dec (me : AgentState) (c : cell) : Decision (in_square me c).
Proof. unfold in_square. apply _. Defined.

(** The agent is at least [food_radius] cells away from every edge. *)
Definition away_from_edges (sim : World) (me : AgentState) : Prop :=
  (food_radius me <= x me <= world_w sim - 1 - food_radius me) /\
  (food_radius me <= y me <= world_h sim - 1 - food_radius me).

(** [agent_grid.get(c, [])] *)
Definition grid_at (g : gmap cell (list AgentState)) (c : cell) : list AgentState :=
  default [] (g !! c).

(** An agent of radius 1 in the corner of the world and its neighbour to
    the right; food on the cell below the corner. *)
Definition corner_agent : Agent := new_agent 0 0 (10, 20, 30) 45 1 3 "explorer" 1.
Definition right_neighbour : Agent := new_agent 1 0 (40, 50, 60) 45 1 3 "social" 2.
Definition corner_food : gset cell := {[ (0, 1) ]}.

(** The fields that the food branch of the scan reads and writes. *)
Definition food_part (s : Senses) : Senses :=
  mkSenses (sense_food s) 0 0 0 (food_up s) (food_down s) (food_left s)
    (food_right s) (food_up_dist s) (food_down_dist s) (food_left_dist s)
    (food_right_dist s) 0 0 0 0 0.

(** The food branch of the loop body, given whether the cell holds food. *)
Definition food_step (hit : bool) (s : Senses) (d : Z * Z) : Senses :=
  if hit then
    if (d.1 =? 0) && (d.2 =? 0) then add_sense_food 1 s
    else _update_distance d.1 d.2 (_update_direction d.1 d.2 (add_sense_food 1 s))
  else s.

(** A food distance during the scan: nothing yet, or a whole number of
    cells between 1 and the radius. *)
Definition dist_ok (fr : Z) (o : option Q) : Prop :=
  match o with
  | None => True
  | Some q => exists d, q = inject_Z d /\ 1 <= d <= fr
  end.

(** The four food distances of the object are of that kind. *)
Definition dists_ok (fr : Z) (s : Senses) : Prop :=
  dist_ok fr (food_up_dist s) /\ dist_ok fr (food_down_dist s) /\
  dist_ok fr (food_left_dist s) /\ dist_ok fr (food_right_dist s).

(** The total of the four directional food counters. *)
Definition food_cues (s : Senses) : Z :=
  food_up s + food_down s + food_left s + food_right s.

(** What one food cell adds to that total: nothing at the agent's own
    cell, two on a diagonal, one elsewhere. *)
Definition direction_hits (d : Z * Z) : nat :=
  if (d.1 =? 0) && (d.2 =? 0) then 0%nat
  else if Z.abs d.1 =? Z.abs d.2 then 2%nat else 1%nat.

(** The agent stands on a cell of the world. *)
Definition inside (w : World) (s : AgentState) : Prop :=
  (0 <= x s < world_w w) /\ (0 <= y s < world_h w).

(** What [apply_move] does to an agent besides moving it: one charge, the
    idle or the move cost; the rest of the identity stays. *)
Definition charged (w : World) (s s' : AgentState) : Prop :=
  (energy s' = (energy s - IDLE_COST w)%Q \/ energy s' = (energy s - MOVE_COST w)%Q) /\
  age s' = age s /\ color s' = color s /\ id s' = id s /\
  food_radius s' = food_radius s /\ agent_radius s' = agent_radius s /\
  offspring_count s' = offspring_count s /\ death_reason s' = death_reason s.

(** What the eat-and-age loop does to one agent: nothing below positive
    energy; otherwise the agent stays where it is, ages by one tick, and
    its energy is kept, raised by one food unit, or set to the sentinel. *)
Definition stepped (a a' : Agent) : Prop :=
  if alive a then
    pos a' = pos a /\ age (state a') = age (state a) + 1 /\
    senses a' = senses a /\ id (state a') = id (state a) /\
    (energy (state a') = (-1)%Q \/
     energy (state a') = energy (state a) \/
     energy (state a') = (energy (state a) + 60)%Q)
  else a' = a.

(** The death reason of an agent. *)
Definition reason (a : Agent) : pyval := death_reason (state a).

(** The last [n] entries of a list. *)
Definition last_n {A : Type} (n : nat) (l : list A) : list A :=
  drop (length l - n) l.

(** An agent as [cull_agents] marks it. *)
Definition culled (a : Agent) : Agent :=
  with_state (fun s => set_death_reason (PyStr "cull") (set_energy (-1) s)) a.

(** The averages of the controller are ratios. *)
Definition unit_interval (q : Q) : Prop := (0 <= q <= 1)%Q.

(** A death log as the tick engine writes it: [None] or a string per
    record. *)
Definition written_log (l : list pyval) : Prop :=
  Forall (fun d => d = PyNone \/ exists s, d = PyStr s) l.

(** The input history of a brain: at most [n_history] records, each of
    [n_base_inputs] entries. *)
Definition history_ok (h : list (list entry)) : Prop :=
  (length h <= n_history)%nat /\ Forall (fun e => length e = n_base_inputs) h.

(** The features a personality can weigh. *)
Definition weighed : list nat := [0; 1; 4; 13]%nat.

(** A cell of the zone [[x0, x1) x [y0, y1)], and a zone that has cells. *)
Definition in_zone (zone : Z * Z * Z * Z) (c : cell) : Prop :=
  let '(x0, x1, y0, y1) := zone in (x0 <= c.1 < x1) /\ (y0 <= c.2 < y1).

Definition zone_has_cells (zone : Z * Z * Z * Z) : Prop :=
  let '(x0, x1, y0, y1) := zone in x0 < x1 /\ y0 < y1.

(** The number of food cells, as [len(food_set)]. *)
Definition food_len (food : gset cell) : Z := Z.of_nat (size food).

(** A zone that lies in the world, and food that lies in the world. *)
Definition zone_in_world (w : World) (zone : Z * Z * Z * Z) : Prop :=
  let '(x0, x1, y0, y1) := zone in
  0 <= x0 /\ x1 <= world_w w /\ 0 <= y0 /\ y1 <= world_h w.

Definition food_inside (w : World) (food : gset cell) : Prop :=
  forall c, c ∈ food -> (0 <= c.1 < world_w w) /\ (0 <= c.2 < world_h w).

(** No agent of the list stands on the cell. *)
Definition unoccupied (l : list Agent) (c : cell) : Prop :=
  forall a, a ∈ l -> pos a <> c.

(** What the reproduction phase does to an agent of the list: nothing, or
    the reset of [reproduce] (energy 45, one more offspring); the agent
    keeps its cell and its senses. *)
Definition after_birth (a p : Agent) : Prop :=
  pos p = pos a /\ senses p = senses a /\ id (state p) = id (state a) /\
  age (state p) = age (state a) /\
  (p = a \/
   (can_reproduce (state a) = true /\
    energy (state p) = inject_Z ENERGY_AFTER_REPRO /\
    offspring_count (state p) = offspring_count (state a) + 1)).

(** A child of the agent [a]: new-born, with the starting energy of a
    child, on a cell one step away from its parent along one axis. *)
Definition born_next_to (a c : Agent) : Prop :=
  parent_id (state c) = Some (id (state a)) /\ age (state c) = 0 /\
  energy (state c) = inject_Z ENERGY_AFTER_REPRO /\
  Z.abs (x (state c) - x (state a)) + Z.abs (y (state c) - y (state a)) = 1.

(** The agents of a list that may reproduce. *)
Definition fertile (l : list Agent) : list Agent :=
  filter (fun a => can_reproduce (state a) = true) l.

(** An agent left by a lifecycle step, against the agent it was before:
    the same id and food radius, one tick older. *)
Definition aged_survivor (a a' : Agent) : Prop :=
  id (state a') = id (state a) /\
  food_radius (state a') = food_radius (state a) /\
  age (state a') = age (state a) + 1.

(** A death reason as the code writes it: [None], or a string. *)
Definition written (d : pyval) : Prop := d = PyNone \/ exists s, d = PyStr s.

(** What holds of the simulation at every point of a run: the death log
    and the death reasons of the agents are as the code writes them, the
    crowd average is at most 0.96, and the deadlock counter is 0. *)
Definition run_state (sim : Simulation) : Prop :=
  written_log (recent_deaths sim) /\
  Forall (fun a => written (reason a)) (agents sim) /\
  (0 <= ema_crowd sim <= 96 # 100)%Q /\
  _deadlock_ticks sim = 0.

(** * Properties *)

(** ** Action decoding *)

Lemma decode_action_in_range (a : Z) :
  0 <= a < 4 -> exists d, _decode_action a = Some d /\ In d directions.
Proof.
  intros Ha.
  assert (a = 0 \/ a = 1 \/ a = 2 \/ a = 3) as [-> | [-> | [-> | ->]]] by lia;
    eexists; (split; [reflexivity | simpl; tauto]).
Qed.

(** Decoding raises exactly below [-4] and above [3]. *)
Lemma decode_action_raises (a : Z) :
  _decode_action a = None <-> a < -4 \/ 3 < a.
Proof.
  unfold _decode_action, py_index. simpl length.
  destruct (0 <=? a) eqn:H0.
  - apply Z.leb_le in H0. split.
    + intros H. apply lookup_ge_None in H. simpl in H. lia.
    + intros [H | H]; [lia |]. apply lookup_ge_None. simpl. lia.
  - apply Z.leb_gt in H0.
    destruct (- Z.of_nat 4 <=? a) eqn:H1.
    + apply Z.leb_le in H1. split.
      * intros H. apply lookup_ge_None in H. simpl in H. lia.
      * lia.
    + apply Z.leb_gt in H1. split; [lia | reflexivity].
Qed.

(** C9 (counterexample): the action index [-1] lies outside the action set
    [{0, 1, 2, 3}], yet [_decode_action] returns the offset of "right" for
    it instead of raising; the same holds for [-2], [-3] and [-4], which
    decode to left, down and up. *)
Theorem decode_action_negative_index :
  _decode_action (-1) = Some (1, 0) /\
  _decode_action (-2) = Some (-1, 0) /\
  _decode_action (-3) = Some (0, 1) /\
  _decode_action (-4) = Some (0, -1).
Proof. repeat split. Qed.

(** C9 (as amended): decoding raises for exactly the indices below -4 and
    above 3, and never returns an offset for one of them. An index of 0..3
    decodes to the entry of the list at that place, up, down, left, right;
    an index of -4..-1 is counted from the end of the list, so it decodes
    like that index plus 4. *)
Theorem decode_action_raises_outside_the_list (a : Z) :
  (_decode_action a = None <-> a < -4 \/ 3 < a) /\
  (0 <= a < 4 -> _decode_action a = directions !! Z.to_nat a) /\
  (-4 <= a < 0 -> _decode_action a = _decode_action (a + 4)) /\
  (-4 <= a < 4 -> exists d, _decode_action a = Some d /\ d ∈ directions).
Proof.
  split; [apply decode_action_raises |].
  assert (Hpos : 0 <= a < 4 -> _decode_action a = directions !! Z.to_nat a).
  { intros H. unfold _decode_action, py_index.
    destruct (0 <=? a) eqn:E; [reflexivity | apply Z.leb_gt in E; lia]. }
  assert (Hneg : -4 <= a < 0 -> _decode_action a = _decode_action (a + 4)).
  { intros H. assert (a = -4 \/ a = -3 \/ a = -2 \/ a = -1) as [-> | [-> | [-> | ->]]]
      by lia; reflexivity. }
  split; [exact Hpos |]. split; [exact Hneg |].
  intros H.
  assert (Hin : forall b, 0 <= b < 4 ->
                  exists d, _decode_action b = Some d /\ d ∈ directions).
  { intros b Hb. destruct (decode_action_in_range b Hb) as (d & Hd & Hl).
    exists d. split; [exact Hd | apply list_elem_of_In; exact Hl]. }
  destruct (Z_lt_le_dec a 0) as [Hlt | Hge].
  - rewrite Hneg by lia. apply Hin. lia.
  - apply Hin. lia.
Qed.

Lemma decode_action_raises_outside_the_list_witness :
  _decode_action 4 = None /\ _decode_action (-5) = None /\
  _decode_action (-2) = _decode_action 2 /\ _decode_action 3 = Some (1, 0).
Proof.
  split; [apply (proj1 (decode_action_raises_outside_the_list 4)); right; lia |].
  split; [apply (proj1 (decode_action_raises_outside_the_list (-5))); left; lia |].
  split.
  - apply (proj1 (proj2 (proj2 (decode_action_raises_outside_the_list (-2))))). lia.
  - rewrite (proj1 (proj2 (decode_action_raises_outside_the_list 3))) by lia.
    reflexivity.
Defined.

(** ** Ageing and death: [AgentBody.step] *)

Lemma crowded_test (w : World) (sn : Senses) :
  (0 <? MAX_NEIGHBORS w) && (MAX_NEIGHBORS w <? sense_agents sn) = true <-> crowded w sn.
Proof. unfold crowded. rewrite andb_true_iff, !Z.ltb_lt. tauto. Qed.

Lemma Qleb_le (a b : Q) : Qleb a b = true <-> (a <= b)%Q.
Proof. apply Qle_bool_iff. Qed.

Lemma Qltb_lt (a b : Q) : Qltb a b = true <-> (a < b)%Q.
Proof.
  unfold Qltb. rewrite negb_true_iff. split.
  - intros H. apply Qnot_le_lt. intros Hle. apply Qle_bool_iff in Hle. congruence.
  - intros H. destruct (Qle_bool b a) eqn:E; [| reflexivity].
    apply Qle_bool_iff in E. exfalso. exact (Qlt_not_le _ _ H E).
Qed.

Lemma Qltb_ge (a b : Q) : Qltb a b = false <-> (b <= a)%Q.
Proof.
  unfold Qltb. rewrite negb_false_iff. apply Qle_bool_iff.
Qed.

(** C2: [step] advances the age by one and then evaluates death in the
    order crowd, old age, energy. A crowd death (limit configured above 0
    and strictly exceeded by the sensed agents) and, failing that, an
    old-age death (age at or above the maximum) set the energy to the
    negative sentinel [-1] whatever it was; the cause "energy" is assigned
    only when neither applies and the energy is already at or below 0, and
    it leaves the energy as it is; with positive energy nothing is
    assigned. *)
Theorem step_death_priority (w : World) (sn : Senses) (s : AgentState) :
  let s' := step w sn s in
  age s' = age s + 1 /\
  (crowded w sn ->
     death_reason s' = PyStr "crowd" /\ energy s' = (-1)%Q /\ (energy s' < 0)%Q) /\
  (~ crowded w sn -> too_old s ->
     death_reason s' = PyStr "old_age" /\ energy s' = (-1)%Q /\ (energy s' < 0)%Q) /\
  (~ crowded w sn -> ~ too_old s -> (energy s <= 0)%Q ->
     death_reason s' = PyStr "energy" /\ energy s' = energy s) /\
  (~ crowded w sn -> ~ too_old s -> (0 < energy s)%Q ->
     death_reason s' = death_reason s /\ energy s' = energy s) /\
  (death_reason s' = PyStr "energy" ->
     (energy s <= 0)%Q \/ death_reason s = PyStr "energy").
Proof.
  unfold step, too_old. cbn zeta.
  destruct ((0 <? MAX_NEIGHBORS w) && (MAX_NEIGHBORS w <? sense_agents sn)) eqn:Hc.
  { apply crowded_test in Hc. cbn.
    repeat split; try tauto; try reflexivity; try discriminate. }
  assert (Hn : ~ crowded w sn).
  { intros H. apply crowded_test in H. congruence. }
  cbn [age set_age].
  destruct (MAX_AGENT_AGE <=? age s + 1) eqn:Ho.
  { apply Z.leb_le in Ho. cbn.
    repeat split; try tauto; try reflexivity; try discriminate; try lia. }
  apply Z.leb_gt in Ho.
  cbn [energy set_age].
  destruct (Qleb (energy s) 0) eqn:He.
  { apply Qleb_le in He. cbn.
    repeat split; try tauto; try lia.
    all: intros; exfalso; eapply Qlt_not_le; eauto. }
  cbn. repeat split; try tauto; try lia.
  all: intros; exfalso; match goal with H : (energy _ <= 0)%Q |- _ => apply Qleb_le in H; congruence end.
Qed.

(** A state on which the three death branches can be told apart. *)
Lemma step_death_priority_witness :
  let w := initial_world in
  let sn := mkSenses 0 16 0 0 0 0 0 0 None None None None 0 0 0 0 0 in
  let s := state (agent_at 5 5 45) in
  crowded w sn /\
  death_reason (step w sn s) = PyStr "crowd" /\ (energy (step w sn s) < 0)%Q.
Proof.
  intros w sn s.
  assert (Hc : crowded w sn) by (unfold crowded; cbn; lia).
  split; [exact Hc |].
  destruct (step_death_priority w sn s) as (_ & H & _).
  destruct (H Hc) as (Hd & _ & Hneg). split; [exact Hd | exact Hneg].
Defined.

(** ** Reproduction *)

Lemma can_reproduce_iff (s : AgentState) :
  can_reproduce s = true <-> (inject_Z ENERGY_TO_REPRODUCE <= energy s)%Q.
Proof. apply Qleb_le. Qed.

(** C7: with the threshold of 120, an agent of energy 119 cannot reproduce
    and one of energy 120 can (the test is energy >= threshold); after
    [reproduce] the parent and the child both have the post-reproduction
    energy 45, and the parent's offspring counter has grown by exactly 1. *)
Theorem reproduce_threshold_and_reset (s : AgentState) (d : repro_draws) :
  ENERGY_TO_REPRODUCE = 120 /\
  ((energy s == 119)%Q -> can_reproduce s = false) /\
  ((energy s == 120)%Q -> can_reproduce s = true) /\
  (can_reproduce s = true <-> (inject_Z ENERGY_TO_REPRODUCE <= energy s)%Q) /\
  energy (snd (reproduce s d)) = inject_Z ENERGY_AFTER_REPRO /\
  energy (state (fst (reproduce s d))) = inject_Z ENERGY_AFTER_REPRO /\
  offspring_count (snd (reproduce s d)) = offspring_count s + 1.
Proof.
  split; [reflexivity |].
  split.
  { intros H. destruct (can_reproduce s) eqn:E; [| reflexivity].
    apply can_reproduce_iff in E. rewrite H in E.
    apply Qle_bool_iff in E. discriminate E. }
  split.
  { intros H. apply can_reproduce_iff. rewrite H.
    apply Qle_bool_iff. reflexivity. }
  split; [apply can_reproduce_iff |].
  unfold reproduce. destruct (color s) as [[r g] b].
  destruct (d_color d) as [[dr dg] db]. cbn. repeat split.
Qed.

(** The two agents of the scenario. *)
Lemma reproduce_threshold_and_reset_witness :
  can_reproduce (state (agent_at 5 5 119)) = false /\
  can_reproduce (state (agent_at 5 5 120)) = true.
Proof.
  pose (d := mkDraws (0, 0, 0) 0 0 1 0%nat 2).
  split.
  - destruct (reproduce_threshold_and_reset (state (agent_at 5 5 119)) d) as (_ & H & _).
    apply H. reflexivity.
  - destruct (reproduce_threshold_and_reset (state (agent_at 5 5 120)) d) as (_ & _ & H & _).
    apply H. reflexivity.
Defined.

(** ** Move resolution *)

Section MoveResolution.

Variable w : World.
Variable now : Z.
Variable decisions : list decision.

(** A move ends on the agent's own cell or on a cell nobody has claimed. *)
Lemma apply_move_cell (s s' : AgentState) (a : Z) (h c : list Q)
    (taken : gset cell) (tm tm' : gmap cell Z) :
  apply_move w s a h c taken tm now = Some (s', tm') ->
  (x s', y s') = (x s, y s) \/ (x s', y s') ∉ taken.
Proof.
  unfold apply_move. destruct (_decode_action a) as [[dx dy] |]; [| discriminate].
  cbn zeta. cbn [x y set_lstm].
  destruct (bool_decide _ || bool_decide _) eqn:E; intros [= <- _]; cbn.
  - left. reflexivity.
  - right. apply orb_false_iff in E as [_ E].
    apply bool_decide_eq_false in E. exact E.
Qed.

Lemma apply_move_decodes (s : AgentState) (a : Z) (h c : list Q)
    (taken : gset cell) (tm : gmap cell Z) :
  0 <= a < 4 -> is_Some (apply_move w s a h c taken tm now).
Proof.
  intros Ha. destruct (decode_action_in_range a Ha) as ([dx dy] & Hd & _).
  unfold apply_move. rewrite Hd. cbn zeta.
  destruct (bool_decide _ || bool_decide _); eexists; reflexivity.
Qed.

(** Replacing one entry of a duplicate-free list by itself or by a fresh
    value keeps it duplicate free. *)
Lemma NoDup_insert_fresh {A : Type} (l : list A) (i : nat) (p q : A) :
  NoDup l -> l !! i = Some p -> (q = p \/ q ∉ l) -> NoDup (<[i:=q]> l).
Proof.
  intros Hnd Hi [-> | Hq].
  - rewrite list_insert_id; assumption.
  - pose proof (lookup_lt_Some _ _ _ Hi) as Hlt.
    rewrite insert_take_drop by exact Hlt.
    rewrite <- (take_drop_middle l i p Hi) in Hnd, Hq.
    apply NoDup_app in Hnd as (H1 & H2 & H3).
    apply NoDup_cons in H3 as [H3 H4].
    apply NoDup_app. split; [exact H1 |]. split.
    + intros z Hz Hin. apply elem_of_cons in Hin as [-> | Hin].
      * apply Hq. apply elem_of_app. left. exact Hz.
      * apply (H2 z Hz). apply elem_of_cons. right. exact Hin.
    + apply NoDup_cons. split; [| exact H4].
      intros Hin. apply Hq. apply elem_of_app. right.
      apply elem_of_cons. right. exact Hin.
Qed.

Lemma move_one_claimed (st st' : move_state) (p : nat * nat) :
  claimed st -> move_one w now decisions (Some st) p = Some st' ->
  claimed st' /\ length st'.1.1 = length st.1.1.
Proof.
  destruct st as [[ags taken] tm]. intros [Hnd Hin].
  unfold move_one. cbn [mbind option_bind].
  destruct (ags !! p.2) as [a |] eqn:Ha; [| discriminate]. cbn [mbind option_bind].
  destruct (decisions !! p.1) as [d |]; [| discriminate]. cbn [mbind option_bind].
  destruct (apply_move _ _ _ _ _ _ _ _) as [[s' tm'] |] eqn:Hm; [| discriminate].
  cbn [mbind option_bind]. intros [= <-]. cbn [fst snd] in *.
  apply apply_move_cell in Hm.
  assert (Hpa : (pos <$> ags) !! p.2 = Some (pos a)).
  { rewrite list_lookup_fmap, Ha. reflexivity. }
  unfold claimed. cbn [fst snd].
  split; [| apply length_insert].
  split.
  - rewrite list_fmap_insert. eapply NoDup_insert_fresh; [exact Hnd | exact Hpa |].
    destruct Hm as [Hm | Hm]; [left; exact Hm | right].
    intros Hin'. apply Hm. apply Hin. exact Hin'.
  - intros q Hq. rewrite list_fmap_insert in Hq.
    apply list_elem_of_lookup in Hq as [j Hj].
    destruct (decide (p.2 = j)) as [<- | Hne].
    + rewrite list_lookup_insert_eq in Hj
        by (rewrite length_fmap; eapply lookup_lt_Some; exact Ha).
      injection Hj as <-. apply elem_of_union. right.
      apply elem_of_singleton. reflexivity.
    + rewrite list_lookup_insert_ne in Hj by exact Hne.
      apply elem_of_union. left. apply Hin.
      apply list_elem_of_lookup. exists j. exact Hj.
Qed.

Lemma move_one_None (p : nat * nat) : move_one w now decisions None p = None.
Proof. reflexivity. Qed.

Lemma foldl_move_one_None (ps : list (nat * nat)) :
  foldl (move_one w now decisions) None ps = None.
Proof. induction ps as [| p ps IH]; [reflexivity | exact IH]. Qed.

Lemma foldl_move_one_claimed (ps : list (nat * nat)) (st st' : move_state) :
  claimed st -> foldl (move_one w now decisions) (Some st) ps = Some st' ->
  claimed st' /\ length st'.1.1 = length st.1.1.
Proof.
  revert st. induction ps as [| p ps IH]; intros st Hc; cbn [foldl].
  - intros [= <-]. split; [exact Hc | reflexivity].
  - destruct (move_one w now decisions (Some st) p) as [st1 |] eqn:H1.
    + intros H. destruct (move_one_claimed _ _ _ Hc H1) as [Hc1 Hl1].
      destruct (IH _ Hc1 H) as [Hc' Hl']. split; [exact Hc' | congruence].
    + rewrite foldl_move_one_None. discriminate.
Qed.

Lemma claimed_start (l : list Agent) :
  NoDup (pos <$> l) -> claimed (l, list_to_set (pos <$> l), ∅).
Proof.
  intros H. split; [exact H |]. intros p Hp. cbn.
  apply elem_of_list_to_set. exact Hp.
Qed.

(** Every active index points into the list. *)
Lemma active_idx_lt (l : list Agent) (i : nat) :
  i ∈ active_idx l -> (i < length l)%nat.
Proof.
  unfold active_idx. intros H.
  apply list_elem_of_fmap in H as ([j a] & -> & H).
  apply list_elem_of_filter in H as [_ H].
  apply list_elem_of_lookup in H as [k Hk].
  rewrite list_lookup_imap in Hk.
  destruct (l !! k) as [b |] eqn:Hb; [| discriminate].
  cbn in Hk. injection Hk as <- <-. cbn. eapply lookup_lt_Some. exact Hb.
Qed.

(** With one decision of the action set per active agent, the loop runs
    to its end. *)
Lemma foldl_move_one_total (idxs : list nat) (k : nat) (st : move_state) :
  (forall i, i ∈ idxs -> (i < length st.1.1)%nat) ->
  (k + length idxs <= length decisions)%nat ->
  Forall (fun d => 0 <= action d < 4) decisions ->
  is_Some (foldl (move_one w now decisions) (Some st)
             (imap (fun i idx => (k + i, idx)%nat) idxs)).
Proof.
  revert k st. induction idxs as [| idx idxs IH]; intros k st Hlt Hlen Hact.
  - eexists. reflexivity.
  - cbn [imap foldl length] in *.
    destruct st as [[ags taken] tm]. cbn [fst snd] in *.
    assert (Hidx : (idx < length ags)%nat) by (apply Hlt; left).
    destruct (lookup_lt_is_Some_2 ags idx Hidx) as [a Ha].
    assert (Hk : (k + 0 < length decisions)%nat) by lia.
    destruct (lookup_lt_is_Some_2 decisions _ Hk) as [d Hd].
    assert (Hd' : 0 <= action d < 4).
    { eapply (proj1 (Forall_forall _ _) Hact). eapply list_elem_of_lookup_2. exact Hd. }
    destruct (apply_move_decodes (state a) (action d) (h_new d) (c_new d) taken tm Hd')
      as [[s' tm'] Hm].
    match goal with
    | |- is_Some (foldl _ ?r _) =>
        assert (Hstep : r = Some (<[idx := mkAgent s' (senses a)]> ags,
                                  taken ∪ {[ (x s', y s') ]}, tm'))
    end.
    { unfold move_one. cbn [mbind option_bind fst snd]. rewrite Ha. cbn [mbind option_bind].
      rewrite Hd. cbn [mbind option_bind]. rewrite Hm. reflexivity. }
    rewrite Hstep.
    rewrite (imap_ext _ (fun i idx0 => ((S k + i)%nat, idx0)) idxs)
      by (intros; unfold compose; f_equal; lia).
    apply IH; [| lia | exact Hact].
    cbn [fst snd]. intros i Hi. rewrite length_insert. apply Hlt. right. exact Hi.
Qed.

End MoveResolution.

Lemma resolve_moves_distinct (decisions : list decision) (sim sim' : Simulation) :
  NoDup (pos <$> agents sim) ->
  resolve_moves decisions sim = Some sim' ->
  NoDup (pos <$> agents sim') /\ length (agents sim') = length (agents sim).
Proof.
  intros Hnd. unfold resolve_moves.
  destruct (active_idx (agents sim)) eqn:Ha.
  - intros [= <-]. split; [exact Hnd | reflexivity].
  - unfold move_loop.
    destruct (foldl _ _ _) as [[[ags taken] tm] |] eqn:Hf; [| discriminate].
    cbn [mbind option_bind]. intros [= <-]. cbn [agents set_agents set_trace_map].
    destruct (foldl_move_one_claimed _ _ _ _ _ _ (claimed_start _ Hnd) Hf) as [[H _] Hl].
    split; [exact H | exact Hl].
Qed.

Lemma resolve_moves_total (decisions : list decision) (sim : Simulation) :
  (length (active_idx (agents sim)) <= length decisions)%nat ->
  Forall (fun d => 0 <= action d < 4) decisions ->
  is_Some (resolve_moves decisions sim).
Proof.
  intros Hlen Hact. unfold resolve_moves.
  destruct (active_idx (agents sim)) eqn:Ha; [eexists; reflexivity |].
  rewrite <- Ha in Hlen. unfold move_loop.
  destruct (foldl_move_one_total (knobs sim) (tick sim) decisions
              (active_idx (agents sim)) 0
              (agents sim, list_to_set (pos <$> agents sim), ∅)) as [[[ags taken] tm] Hf].
  - intros i Hi. apply active_idx_lt. exact Hi.
  - exact Hlen.
  - exact Hact.
  - change (fun i idx : nat => (i, idx))
      with (fun i idx : nat => ((0 + i)%nat, idx)).
    cbn [fst snd] in Hf. unfold move_state in *. rewrite Hf. eexists. reflexivity.
Qed.

(** C1 (as amended): when the agents stand on pairwise distinct cells at
    the start of the move resolution, and every active agent gets a decision
    of the action set, the move resolution completes and no two agents
    occupy the same cell after it; the number of agents is unchanged. *)
Theorem move_resolution_keeps_cells_distinct
    (decisions : list decision) (sim : Simulation) :
  NoDup (pos <$> agents sim) ->
  (length (active_idx (agents sim)) <= length decisions)%nat ->
  Forall (fun d => 0 <= action d < 4) decisions ->
  exists sim',
    resolve_moves decisions sim = Some sim' /\
    NoDup (pos <$> agents sim') /\
    length (agents sim') = length (agents sim).
Proof.
  intros Hnd Hlen Hact.
  destruct (resolve_moves_total decisions sim Hlen Hact) as [sim' H].
  exists sim'. split; [exact H |]. exact (resolve_moves_distinct _ _ _ Hnd H).
Qed.

Lemma move_resolution_keeps_cells_distinct_witness :
  exists sim',
    resolve_moves [go 3; go 2] two_neighbours = Some sim' /\
    NoDup (pos <$> agents sim') /\
    length (agents sim') = length (agents two_neighbours).
Proof.
  apply (move_resolution_keeps_cells_distinct [go 3; go 2] two_neighbours).
  - apply (bool_decide_unpack _). vm_compute. exact I.
  - vm_compute. lia.
  - repeat constructor; cbn; lia.
Defined.

(** C1 (counterexample): the initial population is seeded without looking
    at the cells already used, so two agents can start on the cell (0, 0);
    when both draw the action "up", both targets are clamped to their own
    cell, both idle, and the two agents still share the cell after the move
    resolution. *)
Lemma move_resolution_shared_cell :
  exists sim' a b,
    resolve_moves [go 0; go 0] seeded_on_one_cell = Some sim' /\
    agents sim' !! 0%nat = Some a /\ agents sim' !! 1%nat = Some b /\
    id (state a) <> id (state b) /\ pos a = pos b.
Proof.
  eexists _, _, _. split; [vm_compute; reflexivity |].
  split; [reflexivity |]. split; [reflexivity |].
  split; [| reflexivity]. cbn. discriminate.
Qed.

(** ** The end of the tick: cleanup *)

(** The cleanup keeps exactly the agents with positive energy. *)
Lemma cleanup_agents (sim : Simulation) :
  agents (cleanup sim) = filter (fun a => alive a = true) (agents sim).
Proof.
  unfold cleanup. cbn [agents set_agents].
  assert (H : forall l s, agents (foldl record_death s l) = agents s).
  { induction l as [| a l IH]; intros s; [reflexivity |].
    cbn [foldl]. rewrite IH. reflexivity. }
  rewrite H. reflexivity.
Qed.

(** Below [energy > 0] the ageing step is not called at all, and above it
    the step never takes its "energy" branch: the loop of lines 346-349
    assigns the cause "energy" to nobody. *)
Lemma eat_step_one_no_energy_cause (w : World) (done : list Agent)
    (food : gset cell) (a : Agent) :
  Forall (fun b => death_reason (state b) <> PyStr "energy") (done ++ [a]) ->
  Forall (fun b => death_reason (state b) <> PyStr "energy")
         (eat_step_one w (done, food) a).1.
Proof.
  intros H. unfold eat_step_one. cbn [fst snd].
  destruct (alive a) eqn:Ha; [| exact H].
  apply Forall_app in H as [Hd Hl]. apply Forall_cons in Hl as [Hl _].
  unfold alive in Ha. apply Qltb_lt in Ha.
  assert (Hfood : (0 <= inject_Z ENERGY_PER_FOOD)%Q) by discriminate.
  unfold eat. destruct (bool_decide _); cbn [fst snd];
    apply Forall_app; (split; [exact Hd |]);
    apply Forall_cons; (split; [| constructor]);
    unfold step; cbn [state age energy set_age set_energy].
  all: repeat match goal with
         | |- context [if ?b then _ else _] => destruct b eqn:?
         end; cbn; try discriminate; try exact Hl.
  all: exfalso;
    match goal with H : Qleb _ 0 = true |- _ => apply Qleb_le in H end; lra.
Qed.

(** C3 (the code at the failing input): an agent with energy 1.0 that
    commits a move at the cost 1.0 ends the move resolution at energy 0;
    the ageing step is then skipped for it, so it is in the live set before
    the cleanup with no death cause, the cleanup removes it, and the death
    record it leaves is [None]: the live set shrinks by one while no agent
    has a death cause set. *)
Theorem starved_agent_removed_without_cause :
  exists before after,
    before_cleanup [go 0] last_unit = Some before /\
    lifecycle [go 0] last_unit = Some after /\
    length (agents before) = 1%nat /\
    with_death_cause (agents before) = [] /\
    length (agents after) = 0%nat /\
    recent_deaths after = [PyNone].
Proof.
  eexists _, _. split; [vm_compute; reflexivity |].
  split; [vm_compute; reflexivity |].
  repeat split.
Qed.

(** ** The population balancer *)

Section Clamps.

Lemma py_min_spec (a b : Q) :
  (py_min a b <= a)%Q /\ (py_min a b <= b)%Q /\ (py_min a b = a \/ py_min a b = b).
Proof.
  unfold py_min. destruct (Qltb b a) eqn:E.
  - apply Qltb_lt in E. repeat split; try lra. right. reflexivity.
  - apply Qltb_ge in E. repeat split; try lra. left. reflexivity.
Qed.

Lemma py_max_spec (a b : Q) :
  (a <= py_max a b)%Q /\ (b <= py_max a b)%Q /\ (py_max a b = a \/ py_max a b = b).
Proof.
  unfold py_max. destruct (Qltb a b) eqn:E.
  - apply Qltb_lt in E. repeat split; try lra. right. reflexivity.
  - apply Qltb_ge in E. repeat split; try lra. left. reflexivity.
Qed.

(** [clamp] on floats lands in the interval, whatever the value. *)
Lemma clampQ_bounds (v lo hi : Q) :
  (lo <= hi)%Q -> (lo <= clampQ v lo hi <= hi)%Q.
Proof.
  intros H. unfold clampQ.
  destruct (py_min_spec hi v) as (H1 & H2 & H3).
  destruct (py_max_spec lo (py_min hi v)) as (H4 & H5 & [H6 | H6]);
    rewrite H6 in H4, H5 |- *; lra.
Qed.

(** [int] of a float between two non-negative ints lies between them. *)
Lemma py_int_bounds (a b : Z) (q : Q) :
  0 <= a -> (inject_Z a <= q <= inject_Z b)%Q -> a <= py_int q <= b.
Proof.
  intros Ha [H1 H2]. destruct q as [n d].
  unfold py_int, Qle in *. cbn [Qnum Qden inject_Z] in *.
  rewrite Z.mul_1_r in H1, H2.
  assert (Hn : 0 <= n) by nia.
  rewrite Z.quot_div_nonneg by lia. split.
  - apply Z.div_le_lower_bound; lia.
  - apply Z.div_le_upper_bound; lia.
Qed.

Lemma randint_range (lo hi raw : Z) : lo <= hi -> lo <= randint lo hi raw <= hi.
Proof.
  intros H. unfold randint.
  pose proof (Z.mod_pos_bound raw (hi - lo + 1)). lia.
Qed.

End Clamps.

Lemma apply_legal_limits (l : ResourceLimits) (sim : Simulation) :
  legal_limits l -> legal (knobs (apply_resource_limits l sim)).
Proof. intros H. exact H. Qed.

Lemma feedback_legal (sim : Simulation) : legal_limits (feedback sim).
Proof.
  unfold legal_limits, feedback.
  cbn [max_neighbors food_count move_cost idle_cost max_pop].
  split; [| split; [| split; [| split]]].
  - apply py_int_bounds; [lia | apply clampQ_bounds; discriminate].
  - apply py_int_bounds; [lia | apply clampQ_bounds; discriminate].
  - apply clampQ_bounds. discriminate.
  - apply py_int_bounds; [lia | apply clampQ_bounds; discriminate].
  - reflexivity.
Qed.

Lemma breaker_legal (raw_n raw_f : Z) : legal_limits (breaker_limits raw_n raw_f).
Proof.
  unfold legal_limits, breaker_limits.
  cbn [max_neighbors food_count move_cost idle_cost max_pop].
  pose proof (randint_range 20 MAXN_MAX raw_n ltac:(unfold MAXN_MAX; lia)).
  pose proof (randint_range (FOOD_MAX / 2) FOOD_MAX raw_f ltac:(discriminate)).
  change (FOOD_MAX / 2) with 600 in *. unfold MAXN_MAX, FOOD_MAX, POP_MAX in *.
  split; [lia |]. split; [lia |]. split; [split; discriminate |].
  split; [lia | reflexivity].
Qed.

Lemma adjust_legal (raw_n raw_f : Z) (sim : Simulation) :
  legal (knobs (adjust raw_n raw_f sim)).
Proof.
  unfold adjust. cbn zeta.
  destruct (DEADLOCK_LIMIT <=? _); apply apply_legal_limits.
  - apply breaker_legal.
  - apply feedback_legal.
Qed.

Lemma hard_cull_knobs (sim : Simulation) : knobs (hard_cull sim) = knobs sim.
Proof.
  unfold hard_cull, cull_agents.
  destruct (_ <? _); [| reflexivity]. destruct (_ <=? _); reflexivity.
Qed.

Lemma pop_control_legal (sim : Simulation) :
  legal (knobs sim) -> legal (knobs (pop_control sim)).
Proof.
  intros (H1 & H2 & H3 & H4 & H5). unfold pop_control. cbn zeta.
  destruct (_ <? _); [| unfold legal; tauto].
  apply apply_legal_limits. unfold legal_limits.
  cbn [max_neighbors food_count move_cost idle_cost max_pop].
  destruct (py_min_spec (MOVE_COST (knobs sim) + (5 # 100)) MOVE_MAX) as (A & B & C).
  unfold FOOD_MIN, MOVE_MAX in *.
  split; [exact H1 |]. split; [lia |]. split; [| split; [exact H4 | reflexivity]].
  split; [| exact B]. destruct C as [C | C]; rewrite C; lra.
Qed.

Lemma pop_recovery_legal (sim : Simulation) :
  legal (knobs sim) -> legal (knobs (pop_recovery sim)).
Proof.
  intros (H1 & H2 & H3 & H4 & H5). unfold pop_recovery. cbn zeta.
  destruct (_ <? _); [| unfold legal; tauto].
  apply apply_legal_limits. unfold legal_limits.
  cbn [max_neighbors food_count move_cost idle_cost max_pop].
  destruct (py_max_spec (MOVE_COST (knobs sim) - (5 # 100)) MOVE_MIN) as (A & B & C).
  unfold FOOD_MAX, MOVE_MIN in *.
  split; [exact H1 |]. split; [lia |]. split; [| split; [exact H4 | reflexivity]].
  split; [exact B |]. destruct C as [C | C]; rewrite C; lra.
Qed.

(** C4: a call of [balance] that gets past the data test and so writes the
    knobs leaves, for any moving averages and any previous knob values, the
    max-neighbour threshold in [8, 30], the food target in [300, 1200], the
    move cost in [0.8, 2.5] and the population cap in [200, 2000], with the
    idle cost equal to 0.6 times the move cost. *)
Theorem balance_knobs_legal (raw_n raw_f : Z) (sim : Simulation) :
  insufficient_data sim = false ->
  let k := knobs (balance raw_n raw_f sim) in
  8 <= MAX_NEIGHBORS k <= 30 /\
  300 <= FOOD_COUNT k <= 1200 /\
  (8 # 10 <= MOVE_COST k <= 25 # 10)%Q /\
  200 <= MAX_POP k <= 2000 /\
  IDLE_COST k = (MOVE_COST k * (6 # 10))%Q.
Proof.
  intros Hg. unfold balance. rewrite Hg.
  apply pop_recovery_legal, pop_control_legal.
  rewrite hard_cull_knobs. apply adjust_legal.
Qed.

Lemma balance_knobs_legal_witness :
  insufficient_data fifty_energy_deaths = false /\
  let k := knobs (balance 0 0 fifty_energy_deaths) in
  8 <= MAX_NEIGHBORS k <= 30 /\
  300 <= FOOD_COUNT k <= 1200 /\
  (8 # 10 <= MOVE_COST k <= 25 # 10)%Q /\
  200 <= MAX_POP k <= 2000 /\
  IDLE_COST k = (MOVE_COST k * (6 # 10))%Q.
Proof.
  split; [reflexivity |].
  apply (balance_knobs_legal 0 0 fifty_energy_deaths). reflexivity.
Defined.

Lemma hard_cull_controller (sim : Simulation) :
  controller (hard_cull sim) = controller sim.
Proof.
  unfold hard_cull, cull_agents.
  destruct (_ <? _); [| reflexivity]. destruct (_ <=? _); reflexivity.
Qed.

Lemma pop_control_controller (sim : Simulation) :
  controller (pop_control sim) = controller sim.
Proof. unfold pop_control. cbn zeta. destruct (_ <? _); reflexivity. Qed.

Lemma pop_recovery_controller (sim : Simulation) :
  controller (pop_recovery sim) = controller sim.
Proof. unfold pop_recovery. cbn zeta. destruct (_ <? _); reflexivity. Qed.

Lemma balance_controller (raw_n raw_f : Z) (sim : Simulation) :
  insufficient_data sim = false ->
  controller (balance raw_n raw_f sim) = controller (adjust raw_n raw_f sim).
Proof.
  intros Hg. unfold balance. rewrite Hg.
  rewrite pop_recovery_controller, pop_control_controller, hard_cull_controller.
  reflexivity.
Qed.

Lemma hard_cull_population (sim : Simulation) :
  population (hard_cull sim) = population sim.
Proof.
  unfold hard_cull, cull_agents.
  destruct (_ <? _); [| reflexivity]. destruct (_ <=? _); [reflexivity |].
  unfold population. cbn [agents set_agents]. rewrite length_imap. reflexivity.
Qed.

(** *** The death-cause ratios and the moving averages *)

Lemma count_eq_records (cause : string) (l : list pyval) :
  count_eq (PyStr cause) l = records_with cause l.
Proof.
  unfold count_eq, records_with. f_equal. f_equal.
  apply list_filter_iff. intros d. unfold py_eq.
  rewrite bool_decide_eq_true. reflexivity.
Qed.

(** No death record, [None] or a string, equals the tuple the crowd count
    compares it with. *)
Lemma crowd_count_strings (l : list pyval) :
  Forall (fun d => d = PyNone \/ exists s, d = PyStr s) l -> crowd_count l = 0.
Proof.
  intros H. unfold crowd_count, count_eq.
  induction H as [| d l Hd _ IH]; [reflexivity |].
  rewrite filter_cons. destruct (decide _) as [E | E]; [| exact IH].
  exfalso. unfold py_eq in E. apply bool_decide_eq_true in E.
  destruct Hd as [-> | [s ->]]; discriminate.
Qed.

(** C5 (counterexample): with fifty recent deaths, all of old age, the
    stated ratio is 50/50 = 1, but [balance] divides by one more than the
    total of its counts and computes 50/51, and the old-age average moves
    toward that value. *)
Lemma balance_ratio_counts_one_more :
  let l := recent_deaths fifty_old_age_deaths in
  insufficient_data fifty_old_age_deaths = false /\
  (stated_ratio "old_age" l == 1)%Q /\
  (current_old_age_ratio l == 50 # 51)%Q /\
  ~ (current_old_age_ratio l == stated_ratio "old_age" l)%Q /\
  ~ (ema_old_age (balance 0 0 fifty_old_age_deaths)
     == ema_old_age fifty_old_age_deaths
        + dynamic_alpha * (stated_ratio "old_age" l - ema_old_age fifty_old_age_deaths))%Q.
Proof.
  cbn zeta. split; [reflexivity |].
  split; [vm_compute; reflexivity |].
  split; [vm_compute; reflexivity |].
  split; vm_compute; discriminate.
Qed.

Lemma ratios_add_up (l : list pyval) :
  (current_crowd_ratio l + current_energy_ratio l + current_old_age_ratio l
   + 1 / inject_Z (total l) == 1)%Q.
Proof.
  unfold current_crowd_ratio, current_energy_ratio, current_old_age_ratio.
  assert (Hpos : 0 < total l).
  { unfold total, crowd_count, PopulationBalancer.energy_count, old_age_count, count_eq. lia. }
  assert (Hne : ~ (inject_Z (total l) == 0)%Q).
  { intros H. unfold Qeq, inject_Z in H. cbn [Qnum Qden] in H. lia. }
  assert (Ht : (inject_Z (total l)
                == inject_Z (crowd_count l) + inject_Z (PopulationBalancer.energy_count l)
                   + inject_Z (old_age_count l) + 1)%Q).
  { unfold total. rewrite !inject_Z_plus. reflexivity. }
  transitivity ((inject_Z (crowd_count l) + inject_Z (PopulationBalancer.energy_count l)
                 + inject_Z (old_age_count l) + 1) / inject_Z (total l))%Q.
  - field. exact Hne.
  - rewrite <- Ht. field. exact Hne.
Qed.

Lemma adjust_crowd_average (raw_n raw_f : Z) (sim : Simulation) :
  ema_crowd (adjust raw_n raw_f sim)
  = if deadlock_condition sim && (DEADLOCK_LIMIT <=? _deadlock_ticks sim + 1)
    then 3 # 10
    else ema_step (ema_crowd sim) (current_crowd_ratio (recent_deaths sim)).
Proof.
  unfold adjust, deadlock_condition. cbn zeta.
  destruct (is_deadlocked _ _); cbn [_deadlock_ticks set_deadlock_ticks update_ema set_emas andb].
  - destruct (DEADLOCK_LIMIT <=? _); reflexivity.
  - reflexivity.
Qed.

(** C5 (as amended): when [balance] runs with at least 50 recent death
    records and a non-empty live set, the energy and old-age counts are the
    numbers of records with cause "energy" and "old_age"; each of the three
    ratios is its count divided by one more than the total of the three
    counts that [balance] takes, so that the three ratios and the inverse
    of that denominator add up to 1; and each average is updated by
    [ema' = ema + 0.03 * (ratio - ema)]. That is the value the energy and
    old-age averages have when the call returns, and the value of the crowd
    average too, except on the call on which the deadlock breaker fires (the
    deadlock condition holds and the incremented counter reaches 80): then
    the crowd average is 0.3. *)
Theorem balance_ema_update (raw_n raw_f : Z) (sim : Simulation) :
  insufficient_data sim = false ->
  let l := recent_deaths sim in
  let sim' := balance raw_n raw_f sim in
  let denominator := inject_Z (crowd_count l + records_with "energy" l
                               + records_with "old_age" l + 1) in
  energy_count l = records_with "energy" l /\
  old_age_count l = records_with "old_age" l /\
  current_crowd_ratio l = (inject_Z (crowd_count l) / denominator)%Q /\
  current_energy_ratio l = (inject_Z (records_with "energy" l) / denominator)%Q /\
  current_old_age_ratio l = (inject_Z (records_with "old_age" l) / denominator)%Q /\
  (current_crowd_ratio l + current_energy_ratio l + current_old_age_ratio l
   + 1 / denominator == 1)%Q /\
  ema_energy sim' = (ema_energy sim + (3 # 100) * (current_energy_ratio l - ema_energy sim))%Q /\
  ema_old_age sim' = (ema_old_age sim + (3 # 100) * (current_old_age_ratio l - ema_old_age sim))%Q /\
  ema_crowd sim'
  = (if deadlock_condition sim && (80 <=? _deadlock_ticks sim + 1)
     then 3 # 10
     else (ema_crowd sim + (3 # 100) * (current_crowd_ratio l - ema_crowd sim))%Q).
Proof.
  intros Hg l sim' den.
  pose proof (balance_controller raw_n raw_f sim Hg) as Hc.
  fold sim' in Hc. unfold controller in Hc.
  injection Hc as Hcrowd Henergy Hold _.
  assert (He : energy_count l = records_with "energy" l) by apply count_eq_records.
  assert (Ho : old_age_count l = records_with "old_age" l) by apply count_eq_records.
  assert (Hden : den = inject_Z (total l)) by (unfold den, total; rewrite He, Ho; reflexivity).
  split; [exact He |]. split; [exact Ho |].
  split; [unfold current_crowd_ratio, total, den; rewrite He, Ho; reflexivity |].
  split; [unfold current_energy_ratio, total, den; rewrite He, Ho; reflexivity |].
  split; [unfold current_old_age_ratio, total, den; rewrite He, Ho; reflexivity |].
  split; [rewrite Hden; apply ratios_add_up |].
  rewrite Henergy, Hold, Hcrowd, adjust_crowd_average.
  split; [| split; [| reflexivity]].
  - unfold adjust. cbn zeta. destruct (DEADLOCK_LIMIT <=? _); reflexivity.
  - unfold adjust. cbn zeta. destruct (DEADLOCK_LIMIT <=? _); reflexivity.
Qed.

Lemma balance_ema_update_witness :
  insufficient_data fifty_old_age_deaths = false /\
  (ema_old_age (balance 0 0 fifty_old_age_deaths) == 1 # 34)%Q /\
  (ema_crowd (balance 0 0 fifty_old_age_deaths) == 0)%Q.
Proof.
  split; [reflexivity |].
  destruct (balance_ema_update 0 0 fifty_old_age_deaths)
    as (_ & _ & _ & _ & _ & _ & _ & H1 & H2); [reflexivity |].
  split.
  - rewrite H1. vm_compute. reflexivity.
  - rewrite H2. vm_compute. reflexivity.
Defined.

(** *** The deadlock counter and the breaker *)

Lemma adjust_ticks (raw_n raw_f : Z) (sim : Simulation) :
  _deadlock_ticks (adjust raw_n raw_f sim)
  = if deadlock_condition sim
    then (if DEADLOCK_LIMIT <=? _deadlock_ticks sim + 1 then 0 else _deadlock_ticks sim + 1)
    else 0.
Proof.
  unfold adjust, deadlock_condition. cbn zeta.
  destruct (is_deadlocked _ _); cbn [_deadlock_ticks set_deadlock_ticks update_ema set_emas].
  - destruct (DEADLOCK_LIMIT <=? _); reflexivity.
  - reflexivity.
Qed.

(** What the call does when the counter reaches the limit. *)
Lemma adjust_breaks (raw_n raw_f : Z) (sim : Simulation) :
  deadlock_condition sim = true ->
  DEADLOCK_LIMIT <= _deadlock_ticks sim + 1 ->
  adjust raw_n raw_f sim
  = apply_resource_limits (breaker_limits raw_n raw_f)
      (set_deadlock_ticks 0
         (set_emas (3 # 10) (ema_energy (update_ema sim)) (ema_old_age (update_ema sim))
            (set_deadlock_ticks (_deadlock_ticks sim + 1) (update_ema sim)))).
Proof.
  intros Hd Hl. unfold adjust, deadlock_condition in *. cbn zeta. rewrite Hd.
  cbn [_deadlock_ticks set_deadlock_ticks update_ema set_emas].
  apply Z.leb_le in Hl. rewrite Hl. reflexivity.
Qed.

Lemma deadlock_condition_crowd (sim : Simulation) :
  deadlock_condition sim = true -> (96 # 100 < ema_crowd (update_ema sim))%Q.
Proof.
  unfold deadlock_condition, is_deadlocked. rewrite !andb_true_iff.
  intros (_ & H). apply Qltb_lt. exact H.
Qed.

Lemma pop_control_fixed (sim : Simulation) :
  MAX_NEIGHBORS (knobs (pop_control sim)) = MAX_NEIGHBORS (knobs sim) /\
  MAX_POP (knobs (pop_control sim)) = MAX_POP (knobs sim) /\
  population (pop_control sim) = population sim /\
  (population sim <= MAX_POP (knobs sim) -> pop_control sim = sim).
Proof.
  unfold pop_control. cbn zeta. destruct (_ <? _) eqn:E.
  - repeat split. apply Z.ltb_lt in E. lia.
  - repeat split.
Qed.

Lemma pop_recovery_fixed (sim : Simulation) :
  MAX_NEIGHBORS (knobs (pop_recovery sim)) = MAX_NEIGHBORS (knobs sim) /\
  MAX_POP (knobs (pop_recovery sim)) = MAX_POP (knobs sim).
Proof.
  unfold pop_recovery. cbn zeta. destruct (_ <? _); repeat split.
Qed.

(** The gentle support keeps a generous food target generous and a minimal
    move cost minimal. *)
Lemma pop_recovery_generous (sim : Simulation) :
  600 <= FOOD_COUNT (knobs sim) <= 1200 ->
  MOVE_COST (knobs sim) = MOVE_MIN ->
  600 <= FOOD_COUNT (knobs (pop_recovery sim)) <= 1200 /\
  MOVE_COST (knobs (pop_recovery sim)) = MOVE_MIN.
Proof.
  intros Hf Hm. unfold pop_recovery. cbn zeta.
  destruct (_ <? _); [| split; assumption].
  cbn [knobs apply_resource_limits set_knobs FOOD_COUNT MOVE_COST food_count move_cost].
  rewrite Hm. unfold FOOD_MAX. split; [lia | reflexivity].
Qed.

(** Past the data test: the counter is reset when the deadlock condition
    does not hold and incremented when it holds; when the incremented
    counter reaches the limit of 80, the same call applies the recovery. *)
Lemma balance_counter_past_the_test (raw_n raw_f : Z) (sim : Simulation) :
  insufficient_data sim = false ->
  let sim' := balance raw_n raw_f sim in
  let recovered := knobs (adjust raw_n raw_f sim) in
  (deadlock_condition sim = false -> _deadlock_ticks sim' = 0) /\
  (deadlock_condition sim = true -> _deadlock_ticks sim + 1 < 80 ->
     _deadlock_ticks sim' = _deadlock_ticks sim + 1) /\
  (deadlock_condition sim = true -> 80 <= _deadlock_ticks sim + 1 ->
     _deadlock_ticks sim' = 0 /\
     ema_crowd sim' = 3 # 10 /\
     (ema_crowd sim' < ema_crowd (update_ema sim))%Q /\
     20 <= MAX_NEIGHBORS recovered <= 30 /\
     600 <= FOOD_COUNT recovered <= 1200 /\
     MOVE_COST recovered = 8 # 10 /\
     MAX_POP recovered = 2000 /\
     MAX_NEIGHBORS (knobs sim') = MAX_NEIGHBORS recovered /\
     MAX_POP (knobs sim') = 2000 /\
     (population sim <= 2000 ->
        600 <= FOOD_COUNT (knobs sim') <= 1200 /\ MOVE_COST (knobs sim') = 8 # 10)).
Proof.
  intros Hg sim' recovered.
  pose proof (balance_controller raw_n raw_f sim Hg) as Hc.
  fold sim' in Hc. unfold controller in Hc.
  injection Hc as Hcrowd _ _ Hticks.
  rewrite adjust_ticks in Hticks.
  split; [| split].
  - intros Hd. rewrite Hd in Hticks. exact Hticks.
  - intros Hd Hlt. rewrite Hd in Hticks.
    destruct (DEADLOCK_LIMIT <=? _) eqn:E; [| exact Hticks].
    apply Z.leb_le in E. unfold DEADLOCK_LIMIT in E. lia.
  - intros Hd Hge. rewrite Hd in Hticks.
    assert (E : (DEADLOCK_LIMIT <=? _deadlock_ticks sim + 1) = true)
      by (apply Z.leb_le; exact Hge).
    rewrite E in Hticks.
    pose proof (adjust_breaks raw_n raw_f sim Hd Hge) as Ha.
    pose proof (deadlock_condition_crowd sim Hd) as Hhigh.
    pose proof (randint_range 20 MAXN_MAX raw_n ltac:(unfold MAXN_MAX; lia)) as Hn.
    pose proof (randint_range (FOOD_MAX / 2) FOOD_MAX raw_f ltac:(discriminate)) as Hf.
    change (FOOD_MAX / 2) with 600 in Hf. unfold MAXN_MAX, FOOD_MAX in Hn, Hf.
    assert (Hrec : MAX_NEIGHBORS recovered = randint 20 30 raw_n /\
                   FOOD_COUNT recovered = randint 600 1200 raw_f /\
                   MOVE_COST recovered = MOVE_MIN /\
                   MAX_POP recovered = 2000).
    { unfold recovered. rewrite Ha. repeat split. }
    destruct Hrec as (R1 & R2 & R3 & R4).
    assert (Hcr : ema_crowd sim' = 3 # 10).
    { rewrite Hcrowd, Ha. reflexivity. }
    split; [exact Hticks |]. split; [exact Hcr |].
    split; [rewrite Hcr; lra |].
    split; [rewrite R1; exact Hn |]. split; [rewrite R2; exact Hf |].
    split; [exact R3 |]. split; [exact R4 |].
    unfold sim', balance. rewrite Hg.
    destruct (pop_recovery_fixed (pop_control (hard_cull (adjust raw_n raw_f sim))))
      as (P1 & P2).
    destruct (pop_control_fixed (hard_cull (adjust raw_n raw_f sim)))
      as (Q1 & Q2 & _ & Q4).
    rewrite P1, P2, Q1, Q2, hard_cull_knobs. fold recovered.
    split; [reflexivity |]. split; [exact R4 |].
    intros Hpop. apply pop_recovery_generous.
    + rewrite Q4.
      * rewrite hard_cull_knobs. fold recovered. rewrite R2. exact Hf.
      * rewrite hard_cull_population, hard_cull_knobs. fold recovered. rewrite R4.
        rewrite Ha. exact Hpop.
    + rewrite Q4.
      * rewrite hard_cull_knobs. exact R3.
      * rewrite hard_cull_population, hard_cull_knobs. fold recovered. rewrite R4.
        rewrite Ha. exact Hpop.
Qed.

(** ** The sensory scan *)

Section Scan.

Lemma elem_of_range (lo hi i : Z) : i ∈ range lo hi <-> lo <= i < hi.
Proof.
  unfold range. rewrite list_elem_of_fmap. split.
  - intros (n & -> & Hn). apply elem_of_seq in Hn. lia.
  - intros H. exists (Z.to_nat (i - lo)). split; [lia |].
    apply elem_of_seq. lia.
Qed.

Lemma NoDup_range (lo hi : Z) : NoDup (range lo hi).
Proof.
  unfold range. apply NoDup_fmap_2; [| apply NoDup_seq].
  intros a b H. lia.
Qed.

Lemma elem_of_offsets (fr dx dy : Z) :
  (dx, dy) ∈ offsets fr <-> (- fr <= dx <= fr /\ - fr <= dy <= fr).
Proof.
  unfold offsets. rewrite list_elem_of_bind. split.
  - intros (a & H & Ha). apply list_elem_of_bind in H as (b & H & Hb).
    apply list_elem_of_singleton in H. injection H as -> ->.
    apply elem_of_range in Ha, Hb. lia.
  - intros [Hx Hy]. exists dx. split; [| apply elem_of_range; lia].
    apply list_elem_of_bind. exists dy. split; [| apply elem_of_range; lia].
    apply list_elem_of_singleton. reflexivity.
Qed.

Lemma NoDup_offsets (fr : Z) : NoDup (offsets fr).
Proof.
  unfold offsets. apply NoDup_bind; [| | apply NoDup_range].
  - intros a1 a2 [u v] _ _ H1 H2.
    apply list_elem_of_bind in H1 as (b1 & H1 & _).
    apply list_elem_of_bind in H2 as (b2 & H2 & _).
    apply list_elem_of_singleton in H1, H2. congruence.
  - intros a _. apply NoDup_bind; [| | apply NoDup_range].
    + intros b1 b2 [u v] _ _ H1 H2.
      apply list_elem_of_singleton in H1, H2. congruence.
    + intros b _. apply NoDup_singleton.
Qed.

Lemma clamp_inside (v hi : Z) : 0 <= v <= hi -> clamp v 0 hi = v.
Proof. unfold clamp. lia. Qed.

End Scan.

Section ScanInterior.

Variable sim : World.
Variable me : AgentState.
Hypothesis Hin : away_from_edges sim me.

Lemma target_inside (dx dy : Z) :
  (dx, dy) ∈ offsets (food_radius me) ->
  target sim me dx dy = (x me + dx, y me + dy).
Proof.
  intros H. apply elem_of_offsets in H. destruct Hin as [Hx Hy].
  unfold target. rewrite !clamp_inside by lia. reflexivity.
Qed.

Lemma scanned_cells_inside :
  scanned_cells sim me
  = (fun d => (x me + d.1, y me + d.2)) <$> offsets (food_radius me).
Proof.
  unfold scanned_cells. apply list_fmap_ext. intros i [dx dy] H. cbn [fst snd].
  apply target_inside. eapply list_elem_of_lookup_2. exact H.
Qed.

(** Every cell of the square is read exactly once. *)
Lemma scanned_cells_once :
  NoDup (scanned_cells sim me) /\
  (forall c, c ∈ scanned_cells sim me <-> in_square me c).
Proof.
  rewrite scanned_cells_inside. split.
  - apply NoDup_fmap_2; [| apply NoDup_offsets].
    intros [a b] [c d] H. cbn in H. injection H as H1 H2. f_equal; lia.
  - intros [cx cy]. rewrite list_elem_of_fmap. unfold in_square. cbn [fst snd]. split.
    + intros ([dx dy] & H & Hd). cbn in H. injection H as -> ->.
      apply elem_of_offsets in Hd. lia.
    + intros H. exists (cx - x me, cy - y me). split.
      * cbn. f_equal; lia.
      * apply elem_of_offsets. lia.
Qed.

End ScanInterior.

(** *** What the scan counts *)

Section ScanCounts.

Variable sim : World.
Variable me : AgentState.
Variable food_grid : gset cell.
Variable grid : gmap cell (list AgentState).
Variable chemo_grid : option (Z -> Z -> Q).

Lemma see_agents_self (st : scan_state) (l : list AgentState) :
  self (foldl (see_agent me) st l) = self st.
Proof.
  revert st. induction l as [| a l IH]; intros st; [reflexivity |].
  cbn [foldl]. rewrite IH. reflexivity.
Qed.

Lemma update_direction_counts (dx dy : Z) (s : Senses) :
  sense_agents (_update_direction dx dy s) = sense_agents s /\
  sense_food (_update_direction dx dy s) = sense_food s.
Proof.
  unfold _update_direction.
  repeat match goal with
         | |- context [if ?b then _ else _] => destruct b
         end; split; reflexivity.
Qed.

Lemma update_distance_counts (dx dy : Z) (s : Senses) :
  sense_agents (_update_distance dx dy s) = sense_agents s /\
  sense_food (_update_distance dx dy s) = sense_food s.
Proof.
  unfold _update_distance.
  repeat match goal with
         | |- context [if ?b then _ else _] => destruct b
         end; split; reflexivity.
Qed.

(** One offset adds the agents of the cell it is read from, and the food
    of that cell, to the two counters. *)
Lemma scan_cell_counts (st : scan_state) (d : Z * Z) :
  let st' := scan_cell sim me food_grid grid chemo_grid st d in
  let t := target sim me d.1 d.2 in
  sense_agents (self st') = sense_agents (self st) + Z.of_nat (length (grid_at grid t)) /\
  sense_food (self st')
  = sense_food (self st) + (if bool_decide (t ∈ food_grid) then 1 else 0).
Proof.
  destruct d as [dx dy]. cbn zeta. unfold scan_cell. cbn [fst snd].
  fold (grid_at grid (target sim me dx dy)).
  destruct (bool_decide _); [destruct ((dx =? 0) && (dy =? 0)) |];
    destruct chemo_grid; cbn [self on_self];
    rewrite ?see_agents_self;
    cbn [self on_self sense_agents sense_food add_chemo];
    repeat first [ rewrite (proj1 (update_distance_counts _ _ _))
                 | rewrite (proj2 (update_distance_counts _ _ _))
                 | rewrite (proj1 (update_direction_counts _ _ _))
                 | rewrite (proj2 (update_direction_counts _ _ _)) ];
    cbn [self on_self sense_agents sense_food add_sense_agents add_sense_food];
    split; lia.
Qed.

Lemma scan_cells_counts (ds : list (Z * Z)) (st : scan_state) :
  let st' := foldl (scan_cell sim me food_grid grid chemo_grid) st ds in
  let cells := (fun d => target sim me d.1 d.2) <$> ds in
  sense_agents (self st')
  = sense_agents (self st)
    + Z.of_nat (sum_list_with (fun c => length (grid_at grid c)) cells) /\
  sense_food (self st')
  = sense_food (self st)
    + Z.of_nat (length (filter (fun c => c ∈ food_grid) cells)).
Proof.
  revert st. induction ds as [| d ds IH]; intros st; cbn zeta.
  - cbn. split; lia.
  - cbn [foldl fmap list_fmap sum_list_with]. rewrite filter_cons.
    destruct (IH (scan_cell sim me food_grid grid chemo_grid st d)) as [IH1 IH2].
    destruct (scan_cell_counts st d) as [H1 H2]. cbn zeta in *.
    rewrite IH1, IH2, H1, H2. rewrite Nat2Z.inj_add.
    destruct (decide _) as [E | E].
    + rewrite (bool_decide_eq_true_2 _ E). cbn [length]. split; lia.
    + rewrite (bool_decide_eq_false_2 _ E). split; lia.
Qed.

(** The two counters after the scan: a sum over the cells as they are
    read, with their repetitions. *)
Lemma scan_counts :
  let st := scan sim me food_grid grid chemo_grid in
  sense_agents (self st)
  = Z.of_nat (sum_list_with (fun c => length (grid_at grid c)) (scanned_cells sim me)) /\
  sense_food (self st)
  = Z.of_nat (length (filter (fun c => c ∈ food_grid) (scanned_cells sim me))).
Proof.
  cbn zeta. unfold scan, scanned_cells.
  destruct (scan_cells_counts (offsets (food_radius me)) scan_start) as [H1 H2].
  cbn zeta in *. rewrite H1, H2. cbn. split; reflexivity.
Qed.

End ScanCounts.

Section Occupancy.

(** The spatial index holds, at every cell, the agents that stand there. *)
Lemma agent_grid_at (l : list Agent) (c : cell) :
  grid_at (agent_grid l) c = state <$> filter (fun a => pos a = c) l.
Proof.
  unfold agent_grid.
  assert (H : forall g,
    grid_at (foldl (fun g a => <[pos a := default [] (g !! pos a) ++ [state a]]> g) g l) c
    = grid_at g c ++ (state <$> filter (fun a => pos a = c) l)).
  { induction l as [| a l IH]; intros g; cbn [foldl].
    - rewrite filter_nil. cbn. rewrite app_nil_r. reflexivity.
    - rewrite IH, filter_cons. unfold grid_at at 1. rewrite lookup_insert.
      destruct (decide (pos a = c)) as [-> | Hne].
      + cbn. fold (grid_at g c). rewrite <- app_assoc. reflexivity.
      + reflexivity. }
  rewrite H. unfold grid_at. rewrite lookup_empty. reflexivity.
Qed.

Lemma length_filter_either {A : Type} (P R : A -> Prop)
    `{!forall a, Decision (P a)} `{!forall a, Decision (R a)} (l : list A) :
  (forall a, P a -> R a -> False) ->
  length (filter (fun a => P a \/ R a) l)
  = (length (filter P l) + length (filter R l))%nat.
Proof.
  intros Hd. induction l as [| a l IH]; [reflexivity |].
  rewrite !filter_cons.
  destruct (decide (P a)) as [p | p], (decide (R a)) as [r | r],
    (decide (P a \/ R a)) as [o | o]; cbn [length]; try tauto; try lia.
  exfalso. exact (Hd a p r).
Qed.

(** Summing the per-cell counts over distinct cells counts the agents
    standing on one of them. *)
Lemma occupancy_sum (l : list Agent) (cells : list cell) :
  NoDup cells ->
  sum_list_with (fun c => length (filter (fun a => pos a = c) l)) cells
  = length (filter (fun a => pos a ∈ cells) l).
Proof.
  induction cells as [| c cs IH]; intros Hnd.
  - cbn. clear Hnd. induction l as [| a l IHl]; [reflexivity |].
    rewrite filter_cons. destruct (decide _) as [H | _]; [inversion H | exact IHl].
  - apply NoDup_cons in Hnd as [Hc Hcs]. cbn [sum_list_with].
    rewrite (IH Hcs).
    rewrite <- (length_filter_either (fun a => pos a = c) (fun a => pos a ∈ cs)).
    + f_equal. apply list_filter_iff. intros a. rewrite elem_of_cons. tauto.
    + intros a -> H. exact (Hc H).
Qed.

(** The food cells met along distinct cells are the food cells among
    them. *)
Lemma food_among (food : gset cell) (cells : list cell) (P : cell -> Prop)
    `{!forall c, Decision (P c)} :
  NoDup cells -> (forall c, c ∈ cells <-> P c) ->
  length (filter (fun c => c ∈ food) cells) = size (filter P food).
Proof.
  intros Hnd Hp. unfold size, set_size. cbn.
  apply Permutation_length. apply NoDup_Permutation.
  - apply NoDup_filter. exact Hnd.
  - apply NoDup_elements.
  - intros c. rewrite list_elem_of_filter, elem_of_elements, elem_of_filter, Hp.
    tauto.
Qed.

End Occupancy.

Lemma sum_list_with_pointwise {A : Type} (f g : A -> nat) (l : list A) :
  (forall a, f a = g a) -> sum_list_with f l = sum_list_with g l.
Proof.
  intros H. induction l as [| a l IH]; [reflexivity |].
  cbn. rewrite H, IH. reflexivity.
Qed.

(** [update] leaves the two counters of the scan in the object. *)
Lemma update_counts (sim : World) (me : AgentState) (food : gset cell)
    (grid : gmap cell (list AgentState)) (chemo : option (Z -> Z -> Q)) (s : Senses) :
  update sim me food grid chemo = Some s ->
  sense_agents s = sense_agents (self (scan sim me food grid chemo)) /\
  sense_food s = sense_food (self (scan sim me food grid chemo)).
Proof.
  unfold update, _normalize_distances. cbn zeta.
  destruct (food_radius me + 1 =? 0); [discriminate |]. cbn [mbind option_bind].
  destruct ((world_w sim - 1 =? 0) || (world_h sim - 1 =? 0)); [discriminate |].
  intros [= <-]. split; reflexivity.
Qed.

(** C10: the scan reads the cell at the clamped coordinates of every
    offset. For the agent in the corner (0, 0) with radius 1, its own cell
    is read four times and the cell of its right neighbour twice, so
    [sense_agents] is 6 with 2 agents in the square and [sense_food] is 2
    with 1 food cell in it. For every agent at least [food_radius] away
    from every edge, the cells read are the cells of the square, each once,
    and the two counters are the number of agents standing in the square and
    the number of food cells in it. *)
Theorem scan_clamps_at_edges :
  (let me := state corner_agent in
   let l := [corner_agent; right_neighbour] in
   let st := scan initial_world me corner_food (agent_grid l) None in
   ~ away_from_edges initial_world me /\
   ~ NoDup (scanned_cells initial_world me) /\
   length (filter (fun c => c = (0, 0)) (scanned_cells initial_world me)) = 4%nat /\
   length (filter (fun c => c = pos right_neighbour) (scanned_cells initial_world me)) = 2%nat /\
   length (filter (fun a => in_square me (pos a)) l) = 2%nat /\
   sense_agents (self st) = 6 /\
   size (filter (in_square me) corner_food) = 1%nat /\
   sense_food (self st) = 2) /\
  (forall (sim : World) (l : list Agent) (me : AgentState) (food : gset cell)
          (chemo : option (Z -> Z -> Q)),
     away_from_edges sim me ->
     let st := scan sim me food (agent_grid l) chemo in
     NoDup (scanned_cells sim me) /\
     (forall c, c ∈ scanned_cells sim me <-> in_square me c) /\
     sense_agents (self st)
     = Z.of_nat (length (filter (fun a => in_square me (pos a)) l)) /\
     sense_food (self st) = Z.of_nat (size (filter (in_square me) food)) /\
     (forall s, update sim me food (agent_grid l) chemo = Some s ->
        sense_agents s = Z.of_nat (length (filter (fun a => in_square me (pos a)) l)) /\
        sense_food s = Z.of_nat (size (filter (in_square me) food)))).
Proof.
  split.
  - cbn zeta. split.
    { unfold away_from_edges. cbn. lia. }
    split.
    { intros H. apply (bool_decide_eq_true_2 _) in H. vm_compute in H. discriminate H. }
    repeat split; vm_compute; reflexivity.
  - intros sim l me food chemo Hin st.
    destruct (scanned_cells_once sim me Hin) as [Hnd Hsq].
    destruct (scan_counts sim me food (agent_grid l) chemo) as [Ha Hf].
    cbn zeta in Ha, Hf. fold st in Ha, Hf.
    assert (Hagents : sense_agents (self st)
                      = Z.of_nat (length (filter (fun a => in_square me (pos a)) l))).
    { rewrite Ha. f_equal.
      rewrite (sum_list_with_pointwise _
                 (fun c => length (filter (fun a => pos a = c) l))).
      - rewrite (occupancy_sum l _ Hnd). f_equal.
        apply list_filter_iff. intros a. apply Hsq.
      - intros c. rewrite agent_grid_at, length_fmap. reflexivity. }
    assert (Hfood : sense_food (self st) = Z.of_nat (size (filter (in_square me) food))).
    { rewrite Hf. f_equal. apply food_among; assumption. }
    split; [exact Hnd |]. split; [exact Hsq |].
    split; [exact Hagents |]. split; [exact Hfood |].
    intros s Hs. apply update_counts in Hs as [-> ->].
    fold st. split; assumption.
Qed.

Lemma scan_clamps_at_edges_witness :
  let me := state (agent_at 5 5 45) in
  let l := [agent_at 5 5 45; agent_at 6 5 45; agent_at 20 20 45] in
  away_from_edges initial_world me /\
  sense_agents (self (scan initial_world me corner_food (agent_grid l) None))
  = Z.of_nat (length (filter (fun a => in_square me (pos a)) l)).
Proof.
  intros me l.
  assert (H : away_from_edges initial_world me).
  { unfold away_from_edges. change (world_w initial_world) with 107.
    change (world_h initial_world) with 82. cbn. lia. }
  split; [exact H |].
  destruct scan_clamps_at_edges as [_ Hall].
  destruct (Hall initial_world l me corner_food None H) as (_ & _ & Hc & _).
  exact Hc.
Defined.

(** *** The food cues *)

Section FoodCues.

Variable sim : World.
Variable me : AgentState.
Variable food_grid : gset cell.
Variable grid : gmap cell (list AgentState).
Variable chemo_grid : option (Z -> Z -> Q).

Lemma food_part_direction (dx dy : Z) (s : Senses) :
  food_part (_update_direction dx dy s) = _update_direction dx dy (food_part s).
Proof.
  unfold _update_direction.
  repeat match goal with
         | |- context [if ?b then _ else _] => destruct b
         end; reflexivity.
Qed.

Lemma food_part_distance (dx dy : Z) (s : Senses) :
  food_part (_update_distance dx dy s) = _update_distance dx dy (food_part s).
Proof.
  unfold _update_distance.
  repeat match goal with
         | |- context [if ?b then _ else _] => destruct b
         end; reflexivity.
Qed.

Lemma food_part_chemo (q : Q) (s : Senses) : food_part (add_chemo q s) = food_part s.
Proof. reflexivity. Qed.

Lemma food_part_add_agents (n : Z) (s : Senses) :
  food_part (add_sense_agents n s) = food_part s.
Proof. reflexivity. Qed.

Lemma food_part_add_food (n : Z) (s : Senses) :
  food_part (add_sense_food n s) = add_sense_food n (food_part s).
Proof. reflexivity. Qed.

Lemma scan_cell_food_part (st : scan_state) (d : Z * Z) :
  food_part (self (scan_cell sim me food_grid grid chemo_grid st d))
  = food_step (bool_decide (target sim me d.1 d.2 ∈ food_grid)) (food_part (self st)) d.
Proof.
  destruct d as [dx dy]. unfold scan_cell, food_step. cbn [fst snd].
  destruct (bool_decide _); [destruct ((dx =? 0) && (dy =? 0)) |];
    destruct chemo_grid; cbn [self on_self];
    rewrite ?food_part_chemo, ?food_part_distance, ?food_part_direction,
      ?food_part_add_food, ?see_agents_self;
    cbn [self on_self]; rewrite ?food_part_add_agents; reflexivity.
Qed.

Lemma scan_food_part (ds : list (Z * Z)) (st : scan_state) :
  food_part (self (foldl (scan_cell sim me food_grid grid chemo_grid) st ds))
  = foldl (fun s d => food_step (bool_decide (target sim me d.1 d.2 ∈ food_grid)) s d)
      (food_part (self st)) ds.
Proof.
  revert st. induction ds as [| d ds IH]; intros st; [reflexivity |].
  cbn [foldl]. rewrite IH, scan_cell_food_part. reflexivity.
Qed.

Lemma foldl_agree {A B : Type} (f g : A -> B -> A) (l : list B) (a : A) :
  (forall a b, b ∈ l -> f a b = g a b) -> foldl f a l = foldl g a l.
Proof.
  revert a. induction l as [| b l IH]; intros a H; [reflexivity |].
  cbn [foldl]. rewrite (H a b) by left. apply IH.
  intros a' b' Hb. apply H. right. exact Hb.
Qed.

End FoodCues.

(** C8 (as amended): an agent at (5, 5) with food radius 2, at least that
    far from every edge, and one food unit at (5, 3) with no other food in
    the square. After one sensory update the food is seen straight above at
    distance 2, so [food_up_dist] is 2/(radius+1) = 2/3; the counter
    [food_up] is 1 and the counters [food_down], [food_left] and
    [food_right] are 0. *)
Theorem food_above_scenario (sim : World) (me : AgentState) (food : gset cell)
    (grid : gmap cell (list AgentState)) (chemo : option (Z -> Z -> Q)) :
  x me = 5 -> y me = 5 -> food_radius me = 2 ->
  8 <= world_w sim -> 8 <= world_h sim ->
  (forall c, in_square me c -> (c ∈ food <-> c = (5, 3))) ->
  exists s,
    update sim me food grid chemo = Some s /\
    food_up_dist s = Some (2 # 3) /\
    food_up s = 1 /\ food_down s = 0 /\ food_left s = 0 /\ food_right s = 0.
Proof.
  intros Hx Hy Hfr Hw Hh Hfood.
  assert (Hhit : forall d, d ∈ offsets 2 ->
            bool_decide (target sim me d.1 d.2 ∈ food) = bool_decide (d = (0, -2))).
  { intros [dx dy] Hd. apply elem_of_offsets in Hd. cbn [fst snd].
    apply bool_decide_ext. unfold target. rewrite Hx, Hy.
    rewrite !clamp_inside by lia. rewrite Hfood.
    - split; intros [= ? ?]; f_equal; lia.
    - unfold in_square. rewrite Hx, Hy, Hfr. cbn [fst snd]. lia. }
  assert (Hpart : food_part (self (scan sim me food grid chemo))
                  = mkSenses 1 0 0 0 1 0 0 0 (Some (inject_Z 2)) None None None 0 0 0 0 0).
  { unfold scan. rewrite scan_food_part, Hfr.
    rewrite (foldl_agree _ (fun s d => food_step (bool_decide (d = (0, -2))) s d)).
    - vm_compute. reflexivity.
    - intros s d Hd. rewrite (Hhit d Hd). reflexivity. }
  unfold update, _normalize_distances. cbn zeta. rewrite Hfr.
  change (2 + 1 =? 0) with false. cbn [mbind option_bind].
  destruct ((world_w sim - 1 =? 0) || (world_h sim - 1 =? 0)) eqn:E.
  { apply orb_true_iff in E as [E | E]; apply Z.eqb_eq in E; lia. }
  eexists. split; [reflexivity |].
  set (st := scan sim me food grid chemo) in *.
  cbn [food_up_dist food_up food_down food_left food_right set_summary set_food_dists].
  change (food_up_dist (self st)) with (food_up_dist (food_part (self st))).
  change (food_up (self st)) with (food_up (food_part (self st))).
  change (food_down (self st)) with (food_down (food_part (self st))).
  change (food_left (self st)) with (food_left (food_part (self st))).
  change (food_right (self st)) with (food_right (food_part (self st))).
  rewrite Hpart. repeat split.
Qed.

Lemma food_above_scenario_witness :
  let me := state (agent_at 5 5 45) in
  exists s,
    update initial_world me {[ (5, 3) ]} (agent_grid [agent_at 5 5 45]) None = Some s /\
    food_up_dist s = Some (2 # 3) /\
    food_up s = 1 /\ food_down s = 0 /\ food_left s = 0 /\ food_right s = 0.
Proof.
  intros me.
  apply (food_above_scenario initial_world me {[ (5, 3) ]}); try reflexivity.
  - vm_compute. discriminate.
  - vm_compute. discriminate.
  - intros c _. apply elem_of_singleton.
Defined.

(** C8 (counterexample): in the scenario the food at (5, 3) is two cells
    above the agent at (5, 5), and the update leaves [food_up_dist] at 2/3,
    which is not 1/(radius+1) = 1/3. *)
Lemma food_up_dist_is_not_one_third :
  exists s q,
    update initial_world (state (agent_at 5 5 45)) {[ (5, 3) ]}
      (agent_grid [agent_at 5 5 45]) None = Some s /\
    food_radius (state (agent_at 5 5 45)) = 2 /\
    food_up_dist s = Some q /\ (q == 2 # 3)%Q /\
    ~ (q == 1 / inject_Z (food_radius (state (agent_at 5 5 45)) + 1))%Q.
Proof.
  eexists _, _. split; [vm_compute; reflexivity |].
  split; [reflexivity |]. split; [reflexivity |].
  split; [reflexivity |]. vm_compute. discriminate.
Qed.


(** * Further properties of the code *)

(** ** [utils.clamp] *)

(** X1: with [low <= high], [clamp] returns a value of the interval, leaves
    a value of the interval alone and is idempotent; with the bounds
    swapped ([high < low]) it returns [low] for every value. The float
    version lands in the interval as well. *)
Theorem clamp_range (val low high : Z) (q lo hi : Q) :
  (low <= high ->
     low <= clamp val low high <= high /\
     (low <= val <= high -> clamp val low high = val) /\
     clamp (clamp val low high) low high = clamp val low high) /\
  (high < low -> clamp val low high = low) /\
  ((lo <= hi)%Q -> (lo <= clampQ q lo hi <= hi)%Q).
Proof.
  unfold clamp. split; [| split].
  - intros H. repeat split; lia.
  - intros H. lia.
  - apply clampQ_bounds.
Qed.

Lemma clamp_range_witness :
  0 <= clamp 200 0 106 <= 106 /\ clamp 7 9 3 = 9.
Proof.
  destruct (clamp_range 200 0 106 0 0 1) as (H & _ & _).
  destruct (clamp_range 7 9 3 0 0 1) as (_ & H' & _).
  split; [apply H; lia | apply H'; lia].
Defined.

(** ** [AgentBody.apply_move] *)

Lemma decoded_unit_step (a dx dy : Z) :
  _decode_action a = Some (dx, dy) ->
  (dx = 0 /\ (dy = -1 \/ dy = 1)) \/ (dy = 0 /\ (dx = -1 \/ dx = 1)).
Proof.
  intros H.
  assert (Hin : In (dx, dy) directions).
  { unfold _decode_action, py_index in H.
    destruct (0 <=? a); [| destruct (_ <=? a); [| discriminate]];
      apply list_elem_of_lookup_2 in H; apply list_elem_of_In in H; exact H. }
  cbn in Hin. destruct Hin as [E | [E | [E | [E | []]]]];
    injection E as <- <-; lia.
Qed.

Lemma last_drop_lt {A : Type} (n : nat) (l : list A) :
  (n < length l)%nat -> last (drop n l) = last l.
Proof.
  revert l. induction n as [| n IH]; intros l H; [reflexivity |].
  destruct l as [| a l]; [cbn in H; lia |].
  cbn [drop]. rewrite IH by (cbn in H; lia).
  destruct l; [cbn in H; lia | reflexivity].
Qed.

(** The deque keeps at most [maxlen] entries, and the appended one is the
    newest. *)
Lemma deque_append_spec {A : Type} (maxlen : nat) (d : list A) (a : A) :
  length (deque_append maxlen d a) = Nat.min maxlen (length d + 1) /\
  ((0 < maxlen)%nat -> last (deque_append maxlen d a) = Some a).
Proof.
  unfold deque_append. cbn zeta. split.
  - rewrite length_drop, length_app. cbn. lia.
  - intros H. rewrite last_drop_lt by (rewrite length_app; cbn; lia).
    apply last_snoc.
Qed.

(** A step of at most one cell is kept by [clamp], or clamped back onto
    the cell it starts from. *)
Lemma clamp_step (v hi d : Z) :
  0 <= v <= hi -> -1 <= d <= 1 ->
  clamp (v + d) 0 hi = v + d \/ (clamp (v + d) 0 hi = v /\ d <> 0).
Proof. unfold clamp. lia. Qed.

(** X2: for an agent inside the world, [apply_move] either idles (same
    cell, same trace map, same history and last move, energy less the idle
    cost) or commits a move to a cell that is inside the world, one step
    away along one axis, different from the old cell and not claimed; then
    the energy is less the move cost, the old cell is in the trace map
    under the current tick and is the newest entry of the history, and the
    last move is the step taken. The new recurrent state is stored in both
    cases. *)
Theorem apply_move_inside (w : World) (s s' : AgentState) (a : Z)
    (h c : list Q) (taken : gset cell) (tm tm' : gmap cell Z) (now : Z) :
  0 <= x s < world_w w -> 0 <= y s < world_h w ->
  apply_move w s a h c taken tm now = Some (s', tm') ->
  lstm_hidden s' = h /\ lstm_cell s' = c /\
  (((x s', y s') = (x s, y s) /\
    energy s' = (energy s - IDLE_COST w)%Q /\
    tm' = tm /\ visited_last_10 s' = visited_last_10 s /\
    last_move s' = last_move s)
   \/
   ((x s', y s') <> (x s, y s) /\ ((x s', y s') ∉ taken) /\
    0 <= x s' < world_w w /\ 0 <= y s' < world_h w /\
    Z.abs (x s' - x s) + Z.abs (y s' - y s) = 1 /\
    energy s' = (energy s - MOVE_COST w)%Q /\
    tm' = <[(x s, y s) := now]> tm /\
    last (visited_last_10 s') = Some (x s, y s) /\
    last_move s' = (x s' - x s, y s' - y s))).
Proof.
  intros Hx Hy. unfold apply_move.
  destruct (_decode_action a) as [[dx dy] |] eqn:Hd; [| discriminate].
  apply decoded_unit_step in Hd.
  cbn zeta. cbn [x y set_lstm].
  destruct (bool_decide _ || bool_decide _) eqn:E; intros [= <- <-].
  - cbn. split; [reflexivity |]. split; [reflexivity |]. left. repeat split.
  - apply orb_false_iff in E as [E1 E2].
    apply bool_decide_eq_false in E1, E2.
    cbn [x y energy lstm_hidden lstm_cell set_energy set_moved set_lstm
         visited_last_10 last_move].
    split; [reflexivity |]. split; [reflexivity |]. right.
    assert (Hc : clamp (x s + dx) 0 (world_w w - 1) = x s + dx /\
                 clamp (y s + dy) 0 (world_h w - 1) = y s + dy).
    { destruct (clamp_step (x s) (world_w w - 1) dx) as [Hcx | [Hcx Hdx]];
        [lia | lia | |];
        (destruct (clamp_step (y s) (world_h w - 1) dy) as [Hcy | [Hcy Hdy]];
         [lia | lia | |]);
        try (split; assumption);
        exfalso; apply E1; rewrite Hcx, Hcy; f_equal; lia. }
    destruct Hc as [Hcx Hcy].
    split; [exact E1 |]. split; [exact E2 |].
    rewrite Hcx, Hcy in *.
    assert (Hb : 0 <= x s + dx < world_w w /\ 0 <= y s + dy < world_h w).
    { unfold clamp in Hcx, Hcy. lia. }
    split; [tauto |]. split; [tauto |].
    split; [destruct Hd as [[-> [-> | ->]] | [-> [-> | ->]]]; lia |].
    split; [reflexivity |]. split; [reflexivity |].
    split.
    + apply deque_append_spec. lia.
    + f_equal; lia.
Qed.

Lemma apply_move_inside_witness :
  let s := state (agent_at 5 5 45) in
  exists s' tm',
    apply_move initial_world s 3 [] [] ∅ ∅ 7 = Some (s', tm') /\
    lstm_hidden s' = [] /\ lstm_cell s' = [].
Proof.
  intros s.
  assert (Hx : 0 <= x s < world_w initial_world)
    by (vm_compute; split; [discriminate | reflexivity]).
  assert (Hy : 0 <= y s < world_h initial_world)
    by (vm_compute; split; [discriminate | reflexivity]).
  destruct (apply_move initial_world s 3 [] [] ∅ ∅ 7) as [[s' tm'] |] eqn:E;
    [| vm_compute in E; discriminate E].
  exists s', tm'. split; [reflexivity |].
  destruct (apply_move_inside initial_world s s' 3 [] [] ∅ ∅ tm' 7 Hx Hy E)
    as (H1 & H2 & _).
  split; assumption.
Defined.

(** X3: the history of visited cells never grows beyond ten entries:
    whatever the move, a history of at most ten entries stays so. *)
Theorem visited_history_bounded (w : World) (s s' : AgentState) (a : Z)
    (h c : list Q) (taken : gset cell) (tm tm' : gmap cell Z) (now : Z) :
  (length (visited_last_10 s) <= 10)%nat ->
  apply_move w s a h c taken tm now = Some (s', tm') ->
  (length (visited_last_10 s') <= 10)%nat.
Proof.
  intros Hlen. unfold apply_move.
  destruct (_decode_action a) as [[dx dy] |]; [| discriminate].
  cbn zeta. destruct (bool_decide _ || bool_decide _); intros [= <- _].
  - exact Hlen.
  - cbn [visited_last_10 set_energy set_moved set_lstm].
    rewrite (proj1 (deque_append_spec _ _ _)). lia.
Qed.

Lemma visited_history_bounded_witness :
  let s := state (agent_at 5 5 45) in
  exists s' tm',
    apply_move initial_world s 3 [] [] ∅ ∅ 7 = Some (s', tm') /\
    (length (visited_last_10 s') <= 10)%nat.
Proof.
  intros s.
  destruct (apply_move initial_world s 3 [] [] ∅ ∅ 7) as [[s' tm'] |] eqn:E;
    [| vm_compute in E; discriminate E].
  exists s', tm'. split; [reflexivity |].
  apply (visited_history_bounded initial_world s s' 3 [] [] ∅ ∅ tm' 7);
    [cbn; lia | exact E].
Defined.

(** ** [AgentBody.eat] *)

(** X4: after [eat] the agent's cell holds no food and every other cell
    holds food exactly as before. If the cell held food, the energy has
    grown by the fixed gain of 60 and the food set has lost exactly that
    one cell; if not, nothing has changed. A second [eat] right after the
    first changes nothing. *)
Theorem eat_takes_the_food_of_the_cell (s : AgentState) (food : gset cell) :
  let s' := (eat s food).1 in
  let food' := (eat s food).2 in
  ((x s, y s) ∉ food') /\
  (forall c, c <> (x s, y s) -> (c ∈ food' <-> c ∈ food)) /\
  ((x s, y s) ∈ food ->
     energy s' = (energy s + 60)%Q /\ (size food' + 1 = size food)%nat) /\
  ((x s, y s) ∉ food -> s' = s /\ food' = food) /\
  eat s' food' = (s', food').
Proof.
  unfold eat. cbn zeta.
  destruct (bool_decide ((x s, y s) ∈ food)) eqn:E; cbn [fst snd].
  - apply bool_decide_eq_true in E.
    split; [apply not_elem_of_difference; right; apply elem_of_singleton; reflexivity |].
    split.
    { intros c Hc. rewrite elem_of_difference, elem_of_singleton. tauto. }
    split.
    { intros _. split; [reflexivity |].
      pose proof (size_union (C := gset (Z * Z)) {[(x s, y s)]}
                    (food ∖ {[(x s, y s)]})) as Hs.
      rewrite <- (union_difference_L (C := gset (Z * Z)) {[(x s, y s)]} food) in Hs
        by (apply singleton_subseteq_l; exact E).
      rewrite size_singleton in Hs.
      rewrite Nat.add_comm. symmetry.
      apply Hs. apply disjoint_difference_r1. reflexivity. }
    split; [intros H; contradiction |].
    cbn [x y set_energy].
    rewrite bool_decide_eq_false_2; [reflexivity |].
    apply not_elem_of_difference. right. apply elem_of_singleton. reflexivity.
  - apply bool_decide_eq_false in E.
    split; [exact E |]. split; [tauto |].
    split; [intros H; contradiction |]. split; [tauto |].
    rewrite bool_decide_eq_false_2 by exact E. reflexivity.
Qed.

Lemma eat_takes_the_food_of_the_cell_witness :
  let s := state (agent_at 5 5 45) in
  energy (eat s {[ (5, 5); (5, 6) ]}).1 = (energy s + 60)%Q.
Proof.
  intros s.
  destruct (eat_takes_the_food_of_the_cell s {[ (5, 5); (5, 6) ]}) as (_ & _ & H & _).
  apply H. apply (bool_decide_unpack _). vm_compute. exact I.
Defined.

(** ** [AgentBody.reproduce] *)

Lemma mutate_radius_spec (value raw : Z) :
  0 <= mutate_radius value raw <= 20 /\
  (0 <= value <= 20 -> Z.abs (mutate_radius value raw - value) <= 1).
Proof.
  unfold mutate_radius, clamp, SENSOR_RADIUS_RANGE. cbn [fst snd].
  pose proof (randint_range (-1) 1 raw ltac:(lia)). lia.
Qed.

Lemma mutate_channel_spec (c raw : Z) :
  0 <= mutate_channel c raw <= 255 /\
  (0 <= c <= 255 -> Z.abs (mutate_channel c raw - c) <= 16).
Proof.
  unfold mutate_channel, clamp, MUTATION_RANGE.
  change (- (16)) with (-16).
  pose proof (randint_range (-16) 16 raw ltac:(lia)). lia.
Qed.

Lemma random_personality_known (k : nat) : random_personality k ∈ PERSONALITY_TYPES.
Proof.
  unfold random_personality. apply list_elem_of_In, nth_In.
  apply Nat.mod_upper_bound. discriminate.
Qed.

(** X5: whatever the random draws, the child of [reproduce] stands on the
    parent's cell with age 0, no offspring, no death cause, the parent's id
    as parent id and a zero recurrent state; its two radii lie in [0, 20]
    and its colour channels in [0, 255]; a radius or channel of the parent
    that is in range changes by at most 1, respectively 16; its personality
    is the parent's or one of the five known ones. The parent keeps its
    cell, colour, age, id, radii and personality. *)
Theorem reproduce_child_is_a_bounded_mutation (s : AgentState) (d : repro_draws) :
  let child := state (reproduce s d).1 in
  let parent := (reproduce s d).2 in
  (x child, y child) = (x s, y s) /\
  age child = 0 /\ offspring_count child = 0 /\ death_reason child = PyNone /\
  parent_id child = Some (id s) /\
  lstm_hidden child = zeros_state /\ lstm_cell child = zeros_state /\
  0 <= food_radius child <= 20 /\ 0 <= agent_radius child <= 20 /\
  (0 <= food_radius s <= 20 -> Z.abs (food_radius child - food_radius s) <= 1) /\
  (0 <= agent_radius s <= 20 -> Z.abs (agent_radius child - agent_radius s) <= 1) /\
  (let '(r, g, b) := color child in
   0 <= r <= 255 /\ 0 <= g <= 255 /\ 0 <= b <= 255) /\
  (let '(r, g, b) := color child in
   let '(r0, g0, b0) := color s in
   (0 <= r0 <= 255 -> Z.abs (r - r0) <= 16) /\
   (0 <= g0 <= 255 -> Z.abs (g - g0) <= 16) /\
   (0 <= b0 <= 255 -> Z.abs (b - b0) <= 16)) /\
  (personality child = personality s \/ personality child ∈ PERSONALITY_TYPES) /\
  (x parent, y parent, color parent, age parent, id parent)
  = (x s, y s, color s, age s, id s) /\
  (food_radius parent, agent_radius parent, personality parent)
  = (food_radius s, agent_radius s, personality s).
Proof.
  unfold reproduce. destruct (color s) as [[r0 g0] b0] eqn:Hcol.
  destruct (d_color d) as [[dr dg] db]. cbn zeta.
  cbn [fst snd state with_state new_agent new_state set_parent_id set_energy
       set_offspring_count x y age offspring_count death_reason parent_id
       lstm_hidden lstm_cell food_radius agent_radius color personality id].
  pose proof (mutate_radius_spec (food_radius s) (d_food_radius d)) as [F1 F2].
  pose proof (mutate_radius_spec (agent_radius s) (d_agent_radius d)) as [A1 A2].
  pose proof (mutate_channel_spec r0 dr) as [R1 R2].
  pose proof (mutate_channel_spec g0 dg) as [G1 G2].
  pose proof (mutate_channel_spec b0 db) as [B1 B2].
  rewrite Hcol.
  repeat (split; [first [reflexivity | assumption | tauto] |]).
  split.
  { unfold mutate_personality. destruct (Qltb _ _); [right | left; reflexivity].
    apply random_personality_known. }
  split; reflexivity.
Qed.

Lemma reproduce_child_is_a_bounded_mutation_witness :
  let s := state (agent_at 5 5 130) in
  let d := mkDraws (40, 5, 16) 2 0 1 0%nat 9 in
  Z.abs (food_radius (state (reproduce s d).1) - food_radius s) <= 1.
Proof.
  intros s d.
  destruct (reproduce_child_is_a_bounded_mutation s d)
    as (_ & _ & _ & _ & _ & _ & _ & _ & _ & H & _).
  apply H. cbn. lia.
Defined.

(** ** [AgentSenses.update]: friends, others and energies *)

Lemma see_agent_tally (me : AgentState) (st : scan_state) (a : AgentState) :
  let st' := see_agent me st a in
  friends st' + others st' = friends st + others st + 1 /\
  AgentSenses.energy_count st' = AgentSenses.energy_count st + 1 /\
  friends st <= friends st' /\ others st <= others st' /\
  (energy_max st <= energy_max st')%Q /\ (energy a <= energy_max st')%Q.
Proof.
  unfold see_agent. cbn [friends others AgentSenses.energy_count energy_max].
  assert (Hm : (energy_max st <= (if Qltb (energy_max st) (energy a)
                                  then energy a else energy_max st))%Q /\
               (energy a <= (if Qltb (energy_max st) (energy a)
                             then energy a else energy_max st))%Q).
  { destruct (Qltb _ _) eqn:E.
    - apply Qltb_lt in E. split; lra.
    - apply Qltb_ge in E. split; lra. }
  destruct (bool_decide (color a = color me)); repeat split; try lia; tauto.
Qed.

Lemma see_agents_tally (me : AgentState) (l : list AgentState) (st : scan_state) :
  let st' := foldl (see_agent me) st l in
  friends st' + others st' = friends st + others st + Z.of_nat (length l) /\
  AgentSenses.energy_count st' = AgentSenses.energy_count st + Z.of_nat (length l) /\
  friends st <= friends st' /\ others st <= others st' /\
  (energy_max st <= energy_max st')%Q /\
  Forall (fun ag => (energy ag <= energy_max st')%Q) l.
Proof.
  revert st. induction l as [| a l IH]; intros st; cbn zeta.
  - cbn. repeat split; try lia; try apply Qle_refl. constructor.
  - cbn [foldl length].
    destruct (IH (see_agent me st a)) as (H1 & H2 & H3 & H4 & H5 & H6).
    destruct (see_agent_tally me st a) as (S1 & S2 & S3 & S4 & S5 & S6).
    cbn zeta in *.
    repeat split; try lia; try lra.
    constructor; [lra | exact H6].
Qed.

Lemma scan_cell_tally (sim : World) (me : AgentState) (food : gset cell)
    (grid : gmap cell (list AgentState)) (chemo : option (Z -> Z -> Q))
    (st : scan_state) (d : Z * Z) :
  friends st + others st = sense_agents (self st) ->
  AgentSenses.energy_count st = sense_agents (self st) ->
  let st' := scan_cell sim me food grid chemo st d in
  friends st' + others st' = sense_agents (self st') /\
  AgentSenses.energy_count st' = sense_agents (self st').
Proof.
  intros Hf He. cbn zeta.
  destruct (scan_cell_counts sim me food grid chemo st d) as [Hc _].
  cbn zeta in Hc. rewrite Hc. clear Hc.
  destruct d as [dx dy]. unfold scan_cell. cbn [fst snd].
  fold (grid_at grid (target sim me dx dy)).
  set (l := grid_at grid (target sim me dx dy)).
  set (st1 := on_self (add_sense_agents (Z.of_nat (length l))) st).
  destruct (see_agents_tally me l st1) as (H1 & H2 & _).
  cbn zeta in H1, H2.
  assert (Hfr : forall f st0, friends (on_self f st0) = friends st0) by reflexivity.
  assert (Hot : forall f st0, others (on_self f st0) = others st0) by reflexivity.
  assert (Hec : forall f st0, AgentSenses.energy_count (on_self f st0)
                              = AgentSenses.energy_count st0) by reflexivity.
  destruct (bool_decide _); [destruct ((dx =? 0) && (dy =? 0)) |];
    destruct chemo; rewrite ?Hfr, ?Hot, ?Hec, H1, H2;
    subst st1; rewrite ?Hfr, ?Hot, ?Hec; split; lia.
Qed.

Lemma scan_tally (sim : World) (me : AgentState) (food : gset cell)
    (grid : gmap cell (list AgentState)) (chemo : option (Z -> Z -> Q)) :
  let st := scan sim me food grid chemo in
  friends st + others st = sense_agents (self st) /\
  AgentSenses.energy_count st = sense_agents (self st) /\
  0 <= friends st /\ 0 <= others st.
Proof.
  cbn zeta. unfold scan.
  assert (H : forall ds st,
    friends st + others st = sense_agents (self st) ->
    AgentSenses.energy_count st = sense_agents (self st) ->
    0 <= friends st -> 0 <= others st ->
    let st' := foldl (scan_cell sim me food grid chemo) st ds in
    friends st' + others st' = sense_agents (self st') /\
    AgentSenses.energy_count st' = sense_agents (self st') /\
    0 <= friends st' /\ 0 <= others st').
  { induction ds as [| d ds IH]; intros st H1 H2 H3 H4; cbn zeta.
    - cbn. tauto.
    - cbn [foldl]. destruct (scan_cell_tally sim me food grid chemo st d H1 H2) as [A B].
      apply IH; try assumption.
      + destruct d as [dx dy]. unfold scan_cell. cbn [fst snd].
        destruct (see_agents_tally me (default [] (grid !! target sim me dx dy))
                    (on_self (add_sense_agents
                       (Z.of_nat (length (default [] (grid !! target sim me dx dy))))) st))
          as (_ & _ & F & _).
        cbn zeta in F.
        destruct (bool_decide _); [destruct ((dx =? 0) && (dy =? 0)) |];
          destruct chemo; cbn [friends on_self] in *; lia.
      + destruct d as [dx dy]. unfold scan_cell. cbn [fst snd].
        destruct (see_agents_tally me (default [] (grid !! target sim me dx dy))
                    (on_self (add_sense_agents
                       (Z.of_nat (length (default [] (grid !! target sim me dx dy))))) st))
          as (_ & _ & _ & O & _).
        cbn zeta in O.
        destruct (bool_decide _); [destruct ((dx =? 0) && (dy =? 0)) |];
          destruct chemo; cbn [others on_self] in *; lia. }
  apply H; cbn; lia.
Qed.

(** X6: after a sensory update every agent read by the scan has been
    counted as a friend (same colour) or as an other, never both and never
    neither: [sense_friends + sense_others = sense_agents], with both parts
    non-negative; and when no agent was read the average energy is 0. *)
Theorem update_friends_and_others (sim : World) (me : AgentState) (food : gset cell)
    (grid : gmap cell (list AgentState)) (chemo : option (Z -> Z -> Q)) (s : Senses) :
  update sim me food grid chemo = Some s ->
  sense_friends s + sense_others s = sense_agents s /\
  0 <= sense_friends s /\ 0 <= sense_others s /\
  (sense_agents s = 0 -> avg_energy s = 0%Q).
Proof.
  intros H. destruct (scan_tally sim me food grid chemo) as (T1 & T2 & T3 & T4).
  cbn zeta in *. revert H.
  unfold update, _normalize_distances. cbn zeta.
  destruct (food_radius me + 1 =? 0); [discriminate |]. cbn [mbind option_bind].
  destruct ((world_w sim - 1 =? 0) || (world_h sim - 1 =? 0)); [discriminate |].
  intros [= <-].
  cbn [sense_friends sense_others sense_agents avg_energy set_summary set_food_dists].
  split; [exact T1 |]. split; [exact T3 |]. split; [exact T4 |].
  intros H0. rewrite T2, H0. reflexivity.
Qed.

Lemma update_friends_and_others_witness :
  let l := [agent_at 5 5 45; agent_at 6 5 45; new_agent 4 4 (1, 2, 3) 45 2 3 "loner" 3] in
  exists s,
    update initial_world (state (agent_at 5 5 45)) ∅ (agent_grid l) None = Some s /\
    sense_friends s + sense_others s = sense_agents s.
Proof.
  intros l.
  destruct (update initial_world (state (agent_at 5 5 45)) ∅ (agent_grid l) None)
    as [s |] eqn:E; [| vm_compute in E; discriminate E].
  exists s. split; [reflexivity |].
  exact (proj1 (update_friends_and_others _ _ _ _ _ _ E)).
Defined.

(** ** [AgentSenses.update]: the normalised distances *)

Lemma ratio_range (d r : Z) :
  1 <= d <= r -> (1 / inject_Z r <= inject_Z d / inject_Z r <= 1)%Q.
Proof.
  intros H. destruct r as [| p | p]; try lia.
  unfold Qle, Qdiv, Qmult, Qinv, inject_Z. cbn. split; nia.
Qed.

Lemma half_range (m n : Z) :
  0 <= m -> 2 * m <= n -> 0 < n ->
  (0 <= inject_Z m / inject_Z n <= 1 # 2)%Q /\
  ((inject_Z m / inject_Z n == 0)%Q <-> m = 0).
Proof.
  intros H1 H2 H3. destruct n as [| p | p]; try lia.
  unfold Qle, Qeq, Qdiv, Qmult, Qinv, inject_Z. cbn. repeat split; try nia.
Qed.

Section Distances.

Variable sim : World.
Variable me : AgentState.
Variable food : gset cell.
Variable grid : gmap cell (list AgentState).
Variable chemo : option (Z -> Z -> Q).

Lemma min_dist_ok (fr : Z) (old : option Q) (d : Z) :
  dist_ok fr old -> 1 <= d <= fr -> dist_ok fr (_min_dist old (inject_Z d)).
Proof.
  intros Ho Hd. unfold _min_dist. destruct old as [o |].
  - destruct (Qltb _ _); [exists d; tauto | exact Ho].
  - exists d. tauto.
Qed.

Lemma update_direction_dists (fr dx dy : Z) (s : Senses) :
  dists_ok fr s -> dists_ok fr (_update_direction dx dy s).
Proof.
  unfold _update_direction, dists_ok.
  repeat match goal with
         | |- context [if ?b then _ else _] => destruct b
         end; cbn; tauto.
Qed.

Lemma update_distance_dists (fr dx dy : Z) (s : Senses) :
  - fr <= dx <= fr -> - fr <= dy <= fr ->
  dists_ok fr s -> dists_ok fr (_update_distance dx dy s).
Proof.
  intros Hx Hy (H1 & H2 & H3 & H4). unfold _update_distance, dists_ok.
  destruct ((dx =? 0) && (dy <? 0)) eqn:E1;
    destruct ((dx =? 0) && (0 <? dy)) eqn:E2;
    destruct ((dy =? 0) && (dx <? 0)) eqn:E3;
    destruct ((dy =? 0) && (0 <? dx)) eqn:E4;
    cbn [food_up_dist food_down_dist food_left_dist food_right_dist set_food_dists];
    repeat split; try assumption;
    apply min_dist_ok; try assumption;
    repeat match goal with
           | H : _ && _ = true |- _ => apply andb_true_iff in H as [? ?]
           end; lia.
Qed.

Lemma scan_cell_dists (st : scan_state) (d : Z * Z) :
  d ∈ offsets (food_radius me) ->
  dists_ok (food_radius me) (self st) ->
  dists_ok (food_radius me) (self (scan_cell sim me food grid chemo st d)).
Proof.
  intros Hd Hok. destruct d as [dx dy]. apply elem_of_offsets in Hd as [Hx Hy].
  assert (Hf : dists_ok (food_radius me) (food_part (self st))) by exact Hok.
  assert (Hgoal : dists_ok (food_radius me)
            (food_part (self (scan_cell sim me food grid chemo st (dx, dy))))).
  { rewrite scan_cell_food_part. unfold food_step. cbn [fst snd].
    destruct (bool_decide _); [| exact Hf].
    destruct ((dx =? 0) && (dy =? 0)); [exact Hf |].
    apply update_distance_dists; [exact Hx | exact Hy |].
    apply update_direction_dists. exact Hf. }
  exact Hgoal.
Qed.

Lemma scan_dists : dists_ok (food_radius me) (self (scan sim me food grid chemo)).
Proof.
  unfold scan.
  assert (H : forall ds st,
    (forall d, d ∈ ds -> d ∈ offsets (food_radius me)) ->
    dists_ok (food_radius me) (self st) ->
    dists_ok (food_radius me) (self (foldl (scan_cell sim me food grid chemo) st ds))).
  { induction ds as [| d ds IH]; intros st Hds Hok; [exact Hok |].
    cbn [foldl]. apply IH.
    - intros d' Hd'. apply Hds. right. exact Hd'.
    - apply scan_cell_dists; [apply Hds; left | exact Hok]. }
  apply H; [intros d Hd; exact Hd |]. repeat split.
Qed.

End Distances.

(** X7: with a non-negative food radius, after a sensory update each of the
    four food distances is a number between 1/(radius+1) and 1: the
    distance in cells, 1 to radius, divided by radius+1 when food was seen
    straight in that direction, and exactly (radius+1)/(radius+1) when none
    was. *)
Theorem update_distances_normalised (sim : World) (me : AgentState)
    (food : gset cell) (grid : gmap cell (list AgentState))
    (chemo : option (Z -> Z -> Q)) (s : Senses) :
  0 <= food_radius me ->
  update sim me food grid chemo = Some s ->
  Forall (fun o => exists q, o = Some q /\
            (1 / inject_Z (food_radius me + 1) <= q <= 1)%Q /\
            exists d, 1 <= d <= food_radius me + 1 /\
                      q = (inject_Z d / inject_Z (food_radius me + 1))%Q)
    [food_up_dist s; food_down_dist s; food_left_dist s; food_right_dist s].
Proof.
  intros Hfr H.
  destruct (scan_dists sim me food grid chemo) as (D1 & D2 & D3 & D4).
  revert H. unfold update, _normalize_distances. cbn zeta.
  destruct (food_radius me + 1 =? 0); [discriminate |]. cbn [mbind option_bind].
  destruct ((world_w sim - 1 =? 0) || (world_h sim - 1 =? 0)); [discriminate |].
  intros [= <-].
  cbn [food_up_dist food_down_dist food_left_dist food_right_dist
       set_summary set_food_dists].
  assert (Hn : forall o, dist_ok (food_radius me) o ->
            exists q, Some (py_or o (inject_Z (food_radius me + 1))
                            / inject_Z (food_radius me + 1))%Q = Some q /\
              (1 / inject_Z (food_radius me + 1) <= q <= 1)%Q /\
              exists d, 1 <= d <= food_radius me + 1 /\
                        q = (inject_Z d / inject_Z (food_radius me + 1))%Q).
  { intros o Ho. eexists. split; [reflexivity |].
    destruct o as [q |]; cbn [py_or].
    - destruct Ho as (d & -> & Hd).
      assert (E : Qeq_bool (inject_Z d) 0 = false).
      { destruct (Qeq_bool (inject_Z d) 0) eqn:E; [| reflexivity].
        apply Qeq_bool_eq in E. unfold Qeq in E. cbn in E. lia. }
      rewrite E. split; [apply ratio_range; lia |]. exists d. split; [lia | reflexivity].
    - split; [apply ratio_range; lia |].
      exists (food_radius me + 1). split; [lia | reflexivity]. }
  repeat constructor; apply Hn; assumption.
Qed.

Lemma update_distances_normalised_witness :
  let me := state (agent_at 5 5 45) in
  exists s,
    update initial_world me {[ (5, 3) ]} (agent_grid [agent_at 5 5 45]) None = Some s /\
    exists q, food_up_dist s = Some q /\ (1 / inject_Z (food_radius me + 1) <= q <= 1)%Q.
Proof.
  intros me.
  destruct (update initial_world me {[ (5, 3) ]} (agent_grid [agent_at 5 5 45]) None)
    as [s |] eqn:E; [| vm_compute in E; discriminate E].
  exists s. split; [reflexivity |].
  assert (Hfr : 0 <= food_radius me) by (vm_compute; discriminate).
  pose proof (update_distances_normalised _ _ _ _ _ _ Hfr E) as H.
  apply Forall_cons in H as [(q & Hq & Hr & _) _].
  exists q. split; assumption.
Defined.

(** X8: for an agent inside a world at least two cells wide and high, the
    two edge distances left by a sensory update lie between 0 and 1/2, and
    one is 0 exactly when the agent stands on an edge of that axis. *)
Theorem update_edge_distances (sim : World) (me : AgentState)
    (food : gset cell) (grid : gmap cell (list AgentState))
    (chemo : option (Z -> Z -> Q)) (s : Senses) :
  0 <= x me <= world_w sim - 1 -> 0 <= y me <= world_h sim - 1 ->
  update sim me food grid chemo = Some s ->
  (0 <= edge_distance_x s <= 1 # 2)%Q /\
  (0 <= edge_distance_y s <= 1 # 2)%Q /\
  ((edge_distance_x s == 0)%Q <-> x me = 0 \/ x me = world_w sim - 1) /\
  ((edge_distance_y s == 0)%Q <-> y me = 0 \/ y me = world_h sim - 1).
Proof.
  intros Hx Hy. unfold update, _normalize_distances. cbn zeta.
  destruct (food_radius me + 1 =? 0); [discriminate |]. cbn [mbind option_bind].
  destruct ((world_w sim - 1 =? 0) || (world_h sim - 1 =? 0)) eqn:E; [discriminate |].
  apply orb_false_iff in E as [Ew Eh]. apply Z.eqb_neq in Ew, Eh.
  intros [= <-]. cbn [edge_distance_x edge_distance_y set_summary].
  destruct (half_range (Z.min (x me) (world_w sim - 1 - x me)) (world_w sim - 1))
    as [A1 A2]; [lia | lia | lia |].
  destruct (half_range (Z.min (y me) (world_h sim - 1 - y me)) (world_h sim - 1))
    as [B1 B2]; [lia | lia | lia |].
  split; [exact A1 |]. split; [exact B1 |].
  split; [rewrite A2 | rewrite B2]; lia.
Qed.

Lemma update_edge_distances_witness :
  let me := state (agent_at 0 5 45) in
  exists s,
    update initial_world me ∅ (agent_grid [agent_at 0 5 45]) None = Some s /\
    (edge_distance_x s == 0)%Q.
Proof.
  intros me.
  destruct (update initial_world me ∅ (agent_grid [agent_at 0 5 45]) None)
    as [s |] eqn:E; [| vm_compute in E; discriminate E].
  exists s. split; [reflexivity |].
  destruct (update_edge_distances initial_world me ∅ (agent_grid [agent_at 0 5 45]) None s)
    as (_ & _ & H & _);
    [vm_compute; split; discriminate | vm_compute; split; discriminate | exact E |].
  apply H. left. reflexivity.
Defined.

(** ** [AgentSenses.update]: the directional counters *)

Ltac to_Z_facts :=
  repeat match goal with
         | H : (_ <=? _) = true |- _ => apply Z.leb_le in H
         | H : (_ <=? _) = false |- _ => apply Z.leb_gt in H
         | H : (_ <? _) = true |- _ => apply Z.ltb_lt in H
         | H : (_ <? _) = false |- _ => apply Z.ltb_ge in H
         | H : (_ =? _) = true |- _ => apply Z.eqb_eq in H
         | H : (_ =? _) = false |- _ => apply Z.eqb_neq in H
         | H : _ && _ = true |- _ => apply andb_true_iff in H as [? ?]
         | H : _ && _ = false |- _ => apply andb_false_iff in H
         end.

Lemma update_direction_cues (dx dy : Z) (s : Senses) :
  food_cues (_update_direction dx dy s)
  = food_cues s + Z.of_nat (direction_hits (dx, dy)).
Proof.
  unfold _update_direction, direction_hits, food_cues. cbn [fst snd].
  repeat match goal with
         | |- context [if ?b then _ else _] => destruct b eqn:?
         end;
    cbn [food_up food_down food_left food_right set_food_counters];
    to_Z_facts; lia.
Qed.

Lemma update_distance_cues (dx dy : Z) (s : Senses) :
  food_cues (_update_distance dx dy s) = food_cues s.
Proof.
  unfold _update_distance, food_cues.
  repeat match goal with
         | |- context [if ?b then _ else _] => destruct b
         end; reflexivity.
Qed.

Lemma food_step_cues (hit : bool) (s : Senses) (d : Z * Z) :
  food_cues (food_step hit s d)
  = food_cues s + Z.of_nat (if hit then direction_hits d else 0%nat).
Proof.
  unfold food_step. destruct hit; [| lia].
  destruct ((d.1 =? 0) && (d.2 =? 0)) eqn:E.
  - unfold direction_hits. rewrite E. unfold food_cues. cbn. lia.
  - rewrite update_distance_cues, update_direction_cues.
    destruct d as [dx dy]. unfold food_cues. cbn. lia.
Qed.

(** X9: the four directional food counters left by the scan add up to the
    number of food cells read away from the agent's own cell, each counted
    once, plus one more for every such cell on a diagonal ([|dx| = |dy|]),
    which feeds a horizontal and a vertical counter at once; food under the
    agent feeds none. [update] leaves the same counters in the object. *)
Theorem scan_direction_counters (sim : World) (me : AgentState) (food : gset cell)
    (grid : gmap cell (list AgentState)) (chemo : option (Z -> Z -> Q)) :
  let hits :=
    sum_list_with
      (fun d => if bool_decide (target sim me d.1 d.2 ∈ food)
                then direction_hits d else 0%nat)
      (offsets (food_radius me)) in
  food_cues (self (scan sim me food grid chemo)) = Z.of_nat hits /\
  (forall s, update sim me food grid chemo = Some s -> food_cues s = Z.of_nat hits).
Proof.
  cbn zeta.
  assert (H : forall ds st,
    food_cues (self (foldl (scan_cell sim me food grid chemo) st ds))
    = food_cues (self st)
      + Z.of_nat (sum_list_with
          (fun d => if bool_decide (target sim me d.1 d.2 ∈ food)
                    then direction_hits d else 0%nat) ds)).
  { intros ds st.
    change (food_cues (self (foldl (scan_cell sim me food grid chemo) st ds)))
      with (food_cues (food_part (self (foldl (scan_cell sim me food grid chemo) st ds)))).
    rewrite scan_food_part.
    change (food_cues (self st)) with (food_cues (food_part (self st))).
    generalize (food_part (self st)). clear st.
    induction ds as [| d ds IH]; intros s0; cbn [foldl sum_list_with]; [lia |].
    rewrite IH, food_step_cues. lia. }
  assert (Hscan : food_cues (self (scan sim me food grid chemo))
                  = Z.of_nat (sum_list_with
                      (fun d => if bool_decide (target sim me d.1 d.2 ∈ food)
                                then direction_hits d else 0%nat)
                      (offsets (food_radius me)))).
  { unfold scan. rewrite H. cbn. reflexivity. }
  split; [exact Hscan |].
  intros s. unfold update, _normalize_distances. cbn zeta.
  destruct (food_radius me + 1 =? 0); [discriminate |]. cbn [mbind option_bind].
  destruct ((world_w sim - 1 =? 0) || (world_h sim - 1 =? 0)); [discriminate |].
  intros [= <-]. rewrite <- Hscan. reflexivity.
Qed.

Lemma scan_direction_counters_witness :
  let me := state (agent_at 5 5 45) in
  exists s,
    update initial_world me {[ (5, 3); (6, 6) ]} (agent_grid [agent_at 5 5 45]) None
    = Some s /\ food_cues s = 3.
Proof.
  intros me.
  destruct (update initial_world me {[ (5, 3); (6, 6) ]} (agent_grid [agent_at 5 5 45]) None)
    as [s |] eqn:E; [| vm_compute in E; discriminate E].
  exists s. split; [reflexivity |].
  destruct (scan_direction_counters initial_world me {[ (5, 3); (6, 6) ]}
              (agent_grid [agent_at 5 5 45]) None) as [_ H].
  rewrite (H s E). vm_compute. reflexivity.
Defined.

(** ** Move resolution: who is moved, and where *)

Lemma apply_move_stays_inside (w : World) (s s' : AgentState) (a : Z)
    (h c : list Q) (taken : gset cell) (tm tm' : gmap cell Z) (now : Z) :
  inside w s ->
  apply_move w s a h c taken tm now = Some (s', tm') ->
  inside w s' /\ charged w s s'.
Proof.
  intros [Hx Hy]. unfold apply_move.
  destruct (_decode_action a) as [[dx dy] |]; [| discriminate].
  cbn zeta. destruct (bool_decide _ || bool_decide _); intros [= <- _].
  - split; [split; assumption |]. unfold charged. cbn. repeat split. left. reflexivity.
  - split.
    + unfold inside, clamp. cbn. lia.
    + unfold charged. cbn. repeat split. right. reflexivity.
Qed.

Lemma elem_of_active_idx (l : list Agent) (i : nat) :
  i ∈ active_idx l <-> exists a, l !! i = Some a /\ alive a = true.
Proof.
  unfold active_idx. rewrite list_elem_of_fmap. split.
  - intros ([j a] & -> & H). apply list_elem_of_filter in H as [Ha H].
    apply list_elem_of_lookup in H as [k Hk]. rewrite list_lookup_imap in Hk.
    destruct (l !! k) as [b |] eqn:Hb; [| discriminate].
    cbn in Hk. injection Hk as <- <-. exists b. split; assumption.
  - intros (a & Hl & Ha). exists (i, a). split; [reflexivity |].
    apply list_elem_of_filter. split; [exact Ha |].
    apply list_elem_of_lookup. exists i. rewrite list_lookup_imap, Hl. reflexivity.
Qed.

Lemma NoDup_active_idx (l : list Agent) : NoDup (active_idx l).
Proof.
  unfold active_idx. apply NoDup_fmap_2_strong.
  - intros [i a] [j b] Hi Hj E. cbn in E. subst j.
    apply list_elem_of_filter in Hi as [_ Hi], Hj as [_ Hj].
    apply list_elem_of_lookup in Hi as [k Hk], Hj as [k' Hk'].
    rewrite list_lookup_imap in Hk, Hk'.
    destruct (l !! k) eqn:E1; [| discriminate].
    destruct (l !! k') eqn:E2; [| discriminate].
    cbn in Hk, Hk'. injection Hk as <- <-. injection Hk' as E3 <-.
    subst k'. congruence.
  - apply NoDup_filter. apply NoDup_alt. intros i j [k a] Hi Hj.
    rewrite list_lookup_imap in Hi, Hj.
    destruct (l !! i) eqn:E1; [| discriminate].
    destruct (l !! j) eqn:E2; [| discriminate].
    cbn in Hi, Hj. congruence.
Qed.

Lemma snd_imap_indexed {A B : Type} (f : nat -> B) (l : list A) :
  snd <$> imap (fun i a => (f i, a)) l = l.
Proof.
  revert f. induction l as [| a l IH]; intros f; [reflexivity |].
  cbn. f_equal. apply (IH (f ∘ S)).
Qed.

Section MoveLoop.

Variable w : World.
Variable now : Z.
Variable decisions : list decision.

Lemma move_one_effect (st st' : move_state) (p : nat * nat) :
  Forall (fun a => inside w (state a)) st.1.1 ->
  move_one w now decisions (Some st) p = Some st' ->
  Forall (fun a => inside w (state a)) st'.1.1 /\
  (forall i, i <> p.2 -> st'.1.1 !! i = st.1.1 !! i) /\
  (exists a a', st.1.1 !! p.2 = Some a /\ st'.1.1 !! p.2 = Some a' /\
                senses a' = senses a /\ charged w (state a) (state a')).
Proof.
  destruct st as [[ags taken] tm]. intros Hin.
  unfold move_one. cbn [mbind option_bind fst snd].
  destruct (ags !! p.2) as [a |] eqn:Ha; [| discriminate]. cbn [mbind option_bind].
  destruct (decisions !! p.1) as [d |]; [| discriminate]. cbn [mbind option_bind].
  destruct (apply_move _ _ _ _ _ _ _ _) as [[s' tm'] |] eqn:Hm; [| discriminate].
  cbn [mbind option_bind]. intros [= <-]. cbn [fst snd].
  assert (Ha_in : inside w (state a)).
  { eapply (proj1 (Forall_forall _ _) Hin). eapply list_elem_of_lookup_2. exact Ha. }
  destruct (apply_move_stays_inside _ _ _ _ _ _ _ _ _ _ Ha_in Hm) as [Hi Hc].
  split; [| split].
  - apply Forall_insert; [exact Hin | exact Hi].
  - intros i Hne. apply list_lookup_insert_ne. congruence.
  - exists a, (mkAgent s' (senses a)). split; [first [exact Ha | reflexivity] |]. split.
    + apply list_lookup_insert_eq. eapply lookup_lt_Some. exact Ha.
    + split; [reflexivity | exact Hc].
Qed.

Lemma move_loop_effect (ps : list (nat * nat)) (st st' : move_state) :
  NoDup (snd <$> ps) ->
  Forall (fun a => inside w (state a)) st.1.1 ->
  foldl (move_one w now decisions) (Some st) ps = Some st' ->
  Forall (fun a => inside w (state a)) st'.1.1 /\
  (forall i, i ∉ (snd <$> ps) -> st'.1.1 !! i = st.1.1 !! i) /\
  (forall i, i ∈ (snd <$> ps) ->
     exists a a', st.1.1 !! i = Some a /\ st'.1.1 !! i = Some a' /\
                  senses a' = senses a /\ charged w (state a) (state a')).
Proof.
  revert st. induction ps as [| p ps IH]; intros st Hnd Hin; cbn [foldl].
  - intros [= <-]. split; [exact Hin |]. split; [reflexivity |].
    intros i Hi. cbn in Hi. inversion Hi.
  - cbn [fmap list_fmap] in Hnd. apply NoDup_cons in Hnd as [Hp Hnd].
    destruct (move_one w now decisions (Some st) p) as [st1 |] eqn:H1;
      [| rewrite foldl_move_one_None; discriminate].
    intros H. destruct (move_one_effect _ _ _ Hin H1) as (I1 & O1 & a & a' & A1 & A2 & A3 & A4).
    destruct (IH st1 Hnd I1 H) as (I2 & O2 & C2).
    split; [exact I2 |]. split.
    + intros i Hi. cbn [fmap list_fmap] in Hi. apply not_elem_of_cons in Hi as [Hne Hi].
      rewrite (O2 i Hi). apply O1. exact Hne.
    + intros i Hi. cbn [fmap list_fmap] in Hi. apply elem_of_cons in Hi as [-> | Hi].
      * exists a, a'. split; [exact A1 |]. split; [| split; assumption].
        rewrite (O2 _ Hp). exact A2.
      * destruct (C2 i Hi) as (b & b' & B1 & B2 & B3 & B4).
        exists b, b'. split; [| split; [exact B2 | split; assumption]].
        rewrite <- B1. symmetry. apply O1. intros ->. exact (Hp Hi).
Qed.

End MoveLoop.

(** X10: when the move resolution completes on agents that are inside the
    world, every agent is still inside the world; an agent whose energy is
    not positive is left exactly as it was; and every agent with positive
    energy is charged exactly once, the idle cost or the move cost, with
    its age, colour, id, radii, offspring counter and death cause
    untouched. *)
Theorem move_resolution_charges_each_live_agent_once
    (decisions : list decision) (sim sim' : Simulation) :
  Forall (fun a => inside (knobs sim) (state a)) (agents sim) ->
  resolve_moves decisions sim = Some sim' ->
  Forall (fun a => inside (knobs sim) (state a)) (agents sim') /\
  (forall i a, agents sim !! i = Some a -> alive a = false ->
     agents sim' !! i = Some a) /\
  (forall i a, agents sim !! i = Some a -> alive a = true ->
     exists a', agents sim' !! i = Some a' /\ senses a' = senses a /\
                charged (knobs sim) (state a) (state a')).
Proof.
  intros Hin. unfold resolve_moves.
  destruct (active_idx (agents sim)) eqn:Hact.
  - intros [= <-]. split; [exact Hin |]. split; [tauto |].
    intros i a Ha Hal. exfalso.
    assert (Hi : i ∈ active_idx (agents sim))
      by (apply elem_of_active_idx; exists a; tauto).
    rewrite Hact in Hi. inversion Hi.
  - clear Hact. unfold move_loop.
    destruct (foldl _ _ _) as [[[ags taken] tm] |] eqn:Hf; [| discriminate].
    cbn [mbind option_bind]. intros [= <-]. cbn [agents set_agents set_trace_map].
    assert (Hsnd : snd <$> imap (fun i idx : nat => (i, idx)) (active_idx (agents sim))
                   = active_idx (agents sim)).
    { apply (snd_imap_indexed (fun i : nat => i)). }
    assert (Hnd : NoDup (snd <$> imap (fun i idx : nat => (i, idx))
                                   (active_idx (agents sim))))
      by (rewrite Hsnd; apply NoDup_active_idx).
    destruct (move_loop_effect (knobs sim) (tick sim) decisions _
                (agents sim, list_to_set (pos <$> agents sim), ∅) (ags, taken, tm)
                Hnd Hin Hf) as (I & O & C).
    cbn [fst snd] in *. rewrite Hsnd in O, C.
    split; [exact I |]. split.
    + intros i a Ha Hal. rewrite O; [exact Ha |].
      intros Hi. apply elem_of_active_idx in Hi as (b & Hb & Hbl). congruence.
    + intros i a Ha Hal.
      destruct (C i) as (b & b' & B1 & B2 & B3 & B4).
      { apply elem_of_active_idx. exists a. tauto. }
      exists b'. assert (b = a) by congruence. subst b. tauto.
Qed.

Lemma move_resolution_charges_each_live_agent_once_witness :
  exists sim',
    resolve_moves [go 3; go 2] two_neighbours = Some sim' /\
    Forall (fun a => inside initial_world (state a)) (agents sim').
Proof.
  destruct (resolve_moves [go 3; go 2] two_neighbours) as [sim' |] eqn:E;
    [| vm_compute in E; discriminate E].
  exists sim'. split; [reflexivity |].
  apply (move_resolution_charges_each_live_agent_once [go 3; go 2] two_neighbours sim');
    [| exact E].
  repeat constructor; vm_compute; discriminate.
Defined.

(** ** Eating and ageing *)

Lemma eat_step_one_spec (w : World) (done : list Agent) (F : gset cell) (a : Agent) :
  exists a',
    eat_step_one w (done, F) a
    = (done ++ [a'], if alive a then F ∖ {[pos a]} else F) /\
    stepped a a'.
Proof.
  unfold eat_step_one, stepped. cbn [fst snd].
  destruct (alive a) eqn:Ha; [| exists a; split; reflexivity].
  unfold eat. destruct (bool_decide _) eqn:E;
    change (x (state a), y (state a)) with (pos a) in *.
  - eexists. split; [reflexivity |].
    unfold step. cbn [state age energy set_age set_energy senses].
    repeat match goal with
           | |- context [if ?b then _ else _] => destruct b
           end; cbn; repeat split; tauto.
  - apply bool_decide_eq_false in E.
    eexists. split.
    + f_equal. symmetry. apply (difference_disjoint_L (C := gset (Z * Z))).
      apply disjoint_singleton_r. exact E.
    + unfold step. cbn [state age energy set_age set_energy senses].
      repeat match goal with
             | |- context [if ?b then _ else _] => destruct b
             end; cbn; repeat split; tauto.
Qed.

Lemma eat_step_loop_spec (w : World) (l done : list Agent) (F : gset cell) :
  exists l',
    foldl (eat_step_one w) (done, F) l
    = (done ++ l', F ∖ list_to_set (pos <$> filter (fun a => alive a = true) l)) /\
    Forall2 stepped l l'.
Proof.
  revert done F. induction l as [| a l IH]; intros done F.
  - exists []. split; [| constructor]. cbn. rewrite app_nil_r. f_equal.
    symmetry. apply (difference_disjoint_L (C := gset (Z * Z))).
    apply disjoint_empty_r.
  - cbn [foldl]. destruct (eat_step_one_spec w done F a) as (a' & -> & Ha).
    destruct (IH (done ++ [a']) (if alive a then F ∖ {[pos a]} else F)) as (l' & -> & Hl).
    exists (a' :: l'). split; [| constructor; assumption].
    rewrite <- app_assoc. cbn [app]. f_equal.
    rewrite filter_cons. destruct (alive a) eqn:E.
    + rewrite decide_True by reflexivity. cbn [fmap list_fmap].
      rewrite list_to_set_cons.
      apply (difference_difference_l_L (C := gset (Z * Z))).
    + rewrite decide_False by discriminate. reflexivity.
Qed.

Lemma stepped_pos (l l' : list Agent) : Forall2 stepped l l' -> pos <$> l' = pos <$> l.
Proof.
  induction 1 as [| a a' l l' H _ IH]; [reflexivity |].
  cbn. f_equal; [| exact IH].
  unfold stepped in H. destruct (alive a); [tauto | congruence].
Qed.

(** X11: the eat-and-age loop leaves every agent on its cell and the list
    as long as it was; the food that remains is the food there was less the
    cells of the agents with positive energy, so no such agent is left
    standing on food; an agent without positive energy is untouched, and
    every other agent has aged by exactly one tick. *)
Theorem eat_and_step_clears_occupied_food (sim : Simulation) :
  let sim' := eat_and_step sim in
  pos <$> agents sim' = pos <$> agents sim /\
  length (agents sim') = length (agents sim) /\
  food_set sim'
  = food_set sim ∖ list_to_set (pos <$> filter (fun a => alive a = true) (agents sim)) /\
  (forall a, a ∈ agents sim -> alive a = true -> pos a ∉ food_set sim') /\
  (forall i a, agents sim !! i = Some a ->
     exists a', agents sim' !! i = Some a' /\ stepped a a') /\
  knobs sim' = knobs sim.
Proof.
  cbn zeta. unfold eat_and_step.
  destruct (eat_step_loop_spec (knobs sim) (agents sim) [] (food_set sim))
    as (l' & -> & Hl).
  cbn [app agents food_set knobs set_agents set_food_set].
  pose proof (stepped_pos _ _ Hl) as Hpos.
  split; [exact Hpos |]. split.
  { rewrite <- (length_fmap pos l'), Hpos, length_fmap. reflexivity. }
  split; [reflexivity |]. split.
  { intros a Ha Hal Hin. apply elem_of_difference in Hin as [_ Hin]. apply Hin.
    apply elem_of_list_to_set. apply list_elem_of_fmap. exists a. split; [reflexivity |].
    apply list_elem_of_filter. split; assumption. }
  split; [| reflexivity].
  intros i a Ha. exact (Forall2_lookup_l _ _ _ _ _ Hl Ha).
Qed.

Lemma eat_and_step_clears_occupied_food_witness :
  let sim := simulation_with [agent_at 5 5 45] {[ (5, 5); (6, 6) ]} in
  (5, 5) ∉ food_set (eat_and_step sim).
Proof.
  intros sim.
  destruct (eat_and_step_clears_occupied_food sim) as (_ & _ & _ & H & _).
  apply (H (agent_at 5 5 45)); [left | reflexivity].
Defined.

(** ** The cleanup *)

Lemma deque_appends {A : Type} (n : nat) (xs d : list A) :
  (length d <= n)%nat ->
  foldl (deque_append n) d xs = last_n n (d ++ xs) /\
  (length (foldl (deque_append n) d xs) <= n)%nat.
Proof.
  unfold last_n. revert d. induction xs as [| x xs IH]; intros d Hd.
  - cbn [foldl]. rewrite app_nil_r.
    replace (length d - n)%nat with 0%nat by lia. split; [reflexivity | exact Hd].
  - cbn [foldl].
    assert (H1 : (length (deque_append n d x) <= n)%nat).
    { unfold deque_append. cbn zeta. rewrite length_drop, length_app. cbn. lia. }
    destruct (IH _ H1) as [-> Hlen]. split.
    + unfold deque_append. cbn zeta.
      rewrite <- (drop_app_le (d ++ [x]) xs)
        by (rewrite length_app; cbn; lia).
      rewrite drop_drop. rewrite <- app_assoc. cbn [app].
      f_equal. rewrite length_drop, !length_app. cbn [length]. lia.
    + rewrite length_drop. rewrite length_drop in Hlen. exact Hlen.
Qed.

Lemma record_deaths_log (l : list Agent) (sim : Simulation) :
  let sim' := foldl record_death sim l in
  recent_deaths sim' = foldl (deque_append 2000) (recent_deaths sim) (reason <$> l) /\
  agents sim' = agents sim /\ knobs sim' = knobs sim /\ food_set sim' = food_set sim /\
  (forall k, k <> PyStr "all" ->
     deaths sim' k
     = deaths sim k ++ (age ∘ state <$> filter (fun a => reason a = k) l)).
Proof.
  revert sim. induction l as [| a l IH]; intros sim; cbn zeta.
  - cbn. repeat split. intros k _. rewrite app_nil_r. reflexivity.
  - cbn [foldl fmap list_fmap]. destruct (IH (record_death sim a)) as (H1 & H2 & H3 & H4 & H5).
    cbn zeta in *. rewrite H1, H2, H3, H4.
    split; [reflexivity |]. split; [reflexivity |].
    split; [reflexivity |]. split; [reflexivity |].
    intros k Hk. rewrite (H5 k Hk), filter_cons.
    assert (Hd : deaths (record_death sim a) k
                 = if decide (k = reason a)
                   then deaths sim k ++ [age (state a)] else deaths sim k).
    { unfold record_death, dict_append, reason. cbn [deaths set_stats].
      rewrite decide_False by exact Hk.
      destruct (decide _) as [-> |]; reflexivity. }
    rewrite Hd. destruct (decide (reason a = k)) as [E | E].
    + rewrite decide_True by (symmetry; exact E).
      cbn [fmap list_fmap compose]. rewrite <- app_assoc. reflexivity.
    + rewrite decide_False by congruence. reflexivity.
Qed.

(** X12: the cleanup keeps exactly the agents with positive energy, in
    their order, and the others are the dead: together they are the agents
    there were. With a death log within its bound of 2000, the new log is
    the last 2000 entries of the old log followed by the death reasons of
    the dead in list order, and stays within the bound; under every cause
    other than "all" the ages of the dead with that cause are appended. The
    knobs and the food are not touched. *)
Theorem cleanup_partitions_the_population (sim : Simulation) :
  (length (recent_deaths sim) <= 2000)%nat ->
  let sim' := cleanup sim in
  agents sim' = filter (fun a => alive a = true) (agents sim) /\
  Forall (fun a => (0 < energy (state a))%Q) (agents sim') /\
  Forall (fun a => (energy (state a) <= 0)%Q) (dead sim) /\
  agents sim' ++ dead sim ≡ₚ agents sim /\
  recent_deaths sim' = last_n 2000 (recent_deaths sim ++ (reason <$> dead sim)) /\
  (length (recent_deaths sim') <= 2000)%nat /\
  (forall k, k <> PyStr "all" ->
     deaths sim' k
     = deaths sim k ++ (age ∘ state <$> filter (fun a => reason a = k) (dead sim))) /\
  knobs sim' = knobs sim /\ food_set sim' = food_set sim.
Proof.
  intros Hlog. cbn zeta.
  destruct (record_deaths_log (dead sim) sim) as (H1 & H2 & H3 & H4 & H5).
  cbn zeta in *.
  destruct (deque_appends 2000 (reason <$> dead sim) (recent_deaths sim) Hlog) as [D1 D2].
  rewrite cleanup_agents. unfold cleanup.
  cbn [recent_deaths deaths knobs food_set set_agents].
  rewrite H1, H3, H4, D1.
  split; [reflexivity |]. split.
  { apply Forall_forall. intros a Ha. apply list_elem_of_filter in Ha as [Ha _].
    apply Qltb_lt. exact Ha. }
  split.
  { apply Forall_forall. intros a Ha. unfold dead in Ha.
    apply list_elem_of_filter in Ha as [Ha _]. apply Qleb_le. exact Ha. }
  split.
  { unfold dead.
    rewrite (list_filter_iff (fun a => Qleb (energy (state a)) 0 = true)
                             (fun a => ~ alive a = true)).
    - apply filter_app_complement.
    - intros a. unfold alive, Qltb, Qleb. destruct (Qle_bool _ _); cbn; split;
        intros; try discriminate; try reflexivity; try congruence; exfalso; auto. }
  split; [reflexivity |]. split; [rewrite <- D1; exact D2 |].
  split; [exact H5 |]. split; reflexivity.
Qed.

Lemma cleanup_partitions_the_population_witness :
  let sim := simulation_with [agent_at 5 5 45; agent_at 6 5 0; agent_at 7 5 3] ∅ in
  agents (cleanup sim) = [agent_at 5 5 45; agent_at 7 5 3] /\
  recent_deaths (cleanup sim) = [PyNone].
Proof.
  intros sim.
  destruct (cleanup_partitions_the_population sim) as (H1 & _ & _ & _ & H2 & _);
    [cbn; lia |].
  split; [rewrite H1 | rewrite H2]; reflexivity.
Defined.

(** ** [Simulation.cull_agents] *)

Section Sorting.

Context {A : Type} (key : A -> Z).

Lemma insert_by_perm (a : A) (l : list A) : insert_by key a l ≡ₚ a :: l.
Proof.
  induction l as [| b l IH]; [reflexivity |].
  cbn. destruct (key a <=? key b); [reflexivity |].
  rewrite IH. apply Permutation_swap.
Qed.

Lemma sorted_by_perm (l : list A) : sorted_by key l ≡ₚ l.
Proof.
  unfold sorted_by. induction l as [| a l IH]; [reflexivity |].
  cbn [foldr]. rewrite insert_by_perm, IH. reflexivity.
Qed.

Lemma insert_by_sorted (a : A) (l : list A) :
  StronglySorted (fun p q => key p <= key q) l ->
  StronglySorted (fun p q => key p <= key q) (insert_by key a l).
Proof.
  induction 1 as [| b l Hs IH Hb]; cbn.
  - repeat constructor.
  - destruct (key a <=? key b) eqn:E.
    + apply Z.leb_le in E. constructor; [constructor; assumption |].
      constructor; [exact E |].
      eapply Forall_impl; [exact Hb |]. cbn. intros c Hc. lia.
    + apply Z.leb_gt in E. constructor; [exact IH |].
      rewrite insert_by_perm. constructor; [lia | exact Hb].
Qed.

Lemma sorted_by_sorted (l : list A) :
  StronglySorted (fun p q => key p <= key q) (sorted_by key l).
Proof.
  unfold sorted_by. induction l as [| a l IH]; [constructor |].
  cbn [foldr]. apply insert_by_sorted. exact IH.
Qed.

End Sorting.

Lemma fst_imap_indexed {A : Type} (l : list A) (k : nat) :
  fst <$> imap (fun i a => ((k + i)%nat, a)) l = seq k (length l).
Proof.
  revert k. induction l as [| a l IH]; intros k; [reflexivity |].
  cbn. f_equal; [lia |]. rewrite <- (IH (S k)). f_equal.
  apply imap_ext. intros i b _. cbn. f_equal. lia.
Qed.

Lemma elem_of_imap_indexed {A : Type} (l : list A) (i : nat) (a : A) :
  (i, a) ∈ imap (fun i a => (i, a)) l <-> l !! i = Some a.
Proof.
  rewrite list_elem_of_lookup. split.
  - intros [j Hj]. rewrite list_lookup_imap in Hj.
    destruct (l !! j) as [b |] eqn:E; [| discriminate].
    cbn in Hj. injection Hj as <- <-. exact E.
  - intros H. exists i. rewrite list_lookup_imap, H. reflexivity.
Qed.

(** X13: [cull_agents] with a count that is not positive changes nothing.
    With a positive [count] it marks min(count, population) agents, each
    with energy -1 and death cause "cull", and leaves every other agent, the
    order of the list and the knobs as they were; the marked agents are the
    oldest: none of the others is older than a marked one. *)
Theorem cull_agents_marks_the_oldest (count : Z) (sim : Simulation) :
  (count <= 0 -> cull_agents count sim = sim) /\
  (0 < count ->
   exists kill : list nat,
     NoDup kill /\
     length kill = Nat.min (Z.to_nat count) (length (agents sim)) /\
     (forall i a, agents sim !! i = Some a ->
        agents (cull_agents count sim) !! i
        = Some (if bool_decide (i ∈ kill) then culled a else a)) /\
     (forall i, i ∈ kill -> (i < length (agents sim))%nat) /\
     (forall i j a b, i ∈ kill -> j ∉ kill ->
        agents sim !! i = Some a -> agents sim !! j = Some b ->
        age (state b) <= age (state a)) /\
     length (agents (cull_agents count sim)) = length (agents sim) /\
     knobs (cull_agents count sim) = knobs sim).
Proof.
  unfold cull_agents. split.
  - intros H. apply Z.leb_le in H. rewrite H. reflexivity.
  - intros H. apply Z.leb_gt in H. rewrite H. clear H.
    set (indexed := imap (fun i a => (i, a)) (agents sim)).
    set (key := fun ia : nat * Agent => - age (state ia.2)).
    set (sorted := sorted_by key indexed).
    set (k := Z.to_nat count).
    assert (Hperm : sorted ≡ₚ indexed) by apply sorted_by_perm.
    assert (Hsorted : StronglySorted (fun p q => key p <= key q) sorted)
      by apply sorted_by_sorted.
    assert (Hidx : fst <$> indexed = seq 0 (length (agents sim))).
    { apply (fst_imap_indexed (agents sim) 0). }
    assert (Hnd : NoDup (fst <$> sorted)).
    { rewrite Hperm, Hidx. apply NoDup_seq. }
    assert (Hsplit : sorted = take k sorted ++ drop k sorted)
      by (symmetry; apply take_drop).
    exists (fst <$> take k sorted).
    split.
    { rewrite Hsplit, fmap_app in Hnd. apply NoDup_app in Hnd. tauto. }
    split.
    { rewrite length_fmap, length_take. f_equal.
      rewrite Hperm. unfold indexed. apply length_imap. }
    split.
    { intros i a Ha. cbn [agents set_agents].
      rewrite list_lookup_imap, Ha. reflexivity. }
    split.
    { intros i Hi. apply list_elem_of_fmap in Hi as ([j a] & -> & Hi).
      apply elem_of_take in Hi as (n & Hn & _).
      apply list_elem_of_lookup_2 in Hn. rewrite Hperm in Hn.
      apply elem_of_imap_indexed in Hn. cbn. eapply lookup_lt_Some. exact Hn. }
    split.
    { intros i j a b Hi Hj Ha Hb.
      apply list_elem_of_fmap in Hi as ([i' a'] & Ei & Hi). cbn in Ei. subst i'.
      assert (Ha' : a' = a).
      { assert (Hin : (i, a') ∈ sorted)
          by (rewrite Hsplit; apply elem_of_app; left; exact Hi).
        rewrite Hperm in Hin. apply elem_of_imap_indexed in Hin. congruence. }
      subst a'.
      assert (Hjb : (j, b) ∈ drop k sorted).
      { assert (Hin : (j, b) ∈ sorted)
          by (rewrite Hperm; apply elem_of_imap_indexed; exact Hb).
        rewrite Hsplit in Hin. apply elem_of_app in Hin as [Hin | Hin]; [| exact Hin].
        exfalso. apply Hj. apply list_elem_of_fmap. exists (j, b). split; [reflexivity | exact Hin]. }
      rewrite Hsplit in Hsorted.
      pose proof (StronglySorted_app_1_elem_of _ _ _ _ _ Hsorted Hi Hjb) as Hle.
      unfold key in Hle. cbn in Hle. lia. }
    split; [cbn [agents set_agents]; apply length_imap | reflexivity].
Qed.

Lemma cull_agents_marks_the_oldest_witness :
  let sim := simulation_with
               [with_state (set_age 3) (agent_at 1 1 45);
                with_state (set_age 9) (agent_at 2 2 45);
                with_state (set_age 5) (agent_at 3 3 45)] ∅ in
  exists kill : list nat,
    length kill = Nat.min (Z.to_nat 2) (length (agents sim)) /\
    (forall i, i ∈ kill -> (i < length (agents sim))%nat).
Proof.
  intros sim.
  destruct (cull_agents_marks_the_oldest 2 sim) as [_ H].
  destruct (H ltac:(lia)) as (kill & _ & H1 & _ & H2 & _).
  exists kill. split; assumption.
Defined.

(** ** The balancer: what the averages can do *)

Lemma count_eq_nonneg (v : pyval) (l : list pyval) : 0 <= count_eq v l.
Proof. unfold count_eq. lia. Qed.

Lemma ratio_unit (c t : Z) :
  0 <= c <= t -> 0 < t -> unit_interval (inject_Z c / inject_Z t).
Proof.
  intros H Ht. destruct t as [| p | p]; try lia.
  unfold unit_interval, Qle, Qdiv, Qmult, Qinv, inject_Z. cbn. split; nia.
Qed.

Lemma current_ratios_unit (l : list pyval) :
  unit_interval (current_crowd_ratio l) /\
  unit_interval (current_energy_ratio l) /\
  unit_interval (current_old_age_ratio l).
Proof.
  pose proof (count_eq_nonneg (PyTuple ["crowd"; "cull"]%string) l).
  pose proof (count_eq_nonneg (PyStr "energy") l).
  pose proof (count_eq_nonneg (PyStr "old_age") l).
  unfold current_crowd_ratio, current_energy_ratio, current_old_age_ratio, total,
    crowd_count, PopulationBalancer.energy_count, old_age_count.
  repeat split; apply ratio_unit; lia.
Qed.

Lemma ema_step_unit (ema ratio : Q) :
  unit_interval ema -> unit_interval ratio -> unit_interval (ema_step ema ratio).
Proof.
  unfold unit_interval, ema_step, dynamic_alpha. intros [H1 H2] [H3 H4]. split; lra.
Qed.

Lemma adjust_emas (raw_n raw_f : Z) (sim : Simulation) :
  (ema_crowd (adjust raw_n raw_f sim) = ema_crowd (update_ema sim) \/
   ema_crowd (adjust raw_n raw_f sim) = 3 # 10) /\
  ema_energy (adjust raw_n raw_f sim) = ema_energy (update_ema sim) /\
  ema_old_age (adjust raw_n raw_f sim) = ema_old_age (update_ema sim).
Proof.
  unfold adjust. cbn zeta. destruct (DEADLOCK_LIMIT <=? _).
  - split; [right; reflexivity |]. split; reflexivity.
  - split; [left; reflexivity |]. split; reflexivity.
Qed.

(** X14: the three moving averages are ratios and stay so: if each lies
    between 0 and 1 before [balance], each lies between 0 and 1 after it,
    for any death log, any knobs and any draws. *)
Theorem balance_keeps_averages_in_unit_interval (raw_n raw_f : Z) (sim : Simulation) :
  unit_interval (ema_crowd sim) -> unit_interval (ema_energy sim) ->
  unit_interval (ema_old_age sim) ->
  let sim' := balance raw_n raw_f sim in
  unit_interval (ema_crowd sim') /\ unit_interval (ema_energy sim') /\
  unit_interval (ema_old_age sim').
Proof.
  intros Hc He Ho. cbn zeta.
  destruct (insufficient_data sim) eqn:Hg.
  - unfold balance. rewrite Hg. tauto.
  - pose proof (balance_controller raw_n raw_f sim Hg) as Hctl.
    unfold controller in Hctl. injection Hctl as -> -> -> _.
    destruct (adjust_emas raw_n raw_f sim) as (A1 & -> & ->).
    destruct (current_ratios_unit (recent_deaths sim)) as (R1 & R2 & R3).
    cbn [ema_energy ema_old_age ema_crowd update_ema set_emas] in *.
    split; [| split; apply ema_step_unit; assumption].
    destruct A1 as [-> | ->].
    + apply ema_step_unit; assumption.
    + unfold unit_interval. split; discriminate.
Qed.

Lemma balance_keeps_averages_in_unit_interval_witness :
  unit_interval (ema_crowd (balance 0 0 fifty_energy_deaths)) /\
  unit_interval (ema_energy (balance 0 0 fifty_energy_deaths)).
Proof.
  destruct (balance_keeps_averages_in_unit_interval 0 0 fifty_energy_deaths)
    as (H1 & H2 & _); try (split; discriminate).
  split; assumption.
Defined.

(** X15: on a death log as the tick engine writes it ([None] or a string
    per record) the crowd count of [balance] is 0, so a call only lets the
    crowd average decay: from a crowd average between 0 and 0.96 the
    deadlock condition is false, the average after the call is between 0
    and its old value, and a call that gets past the data test multiplies
    it by 0.97 and leaves the deadlock counter at 0. The deadlock breaker
    does not fire on such a call. *)
Theorem balance_crowd_average_only_decays (raw_n raw_f : Z) (sim : Simulation) :
  written_log (recent_deaths sim) ->
  (0 <= ema_crowd sim <= 96 # 100)%Q ->
  let sim' := balance raw_n raw_f sim in
  deadlock_condition sim = false /\
  (0 <= ema_crowd sim' <= ema_crowd sim)%Q /\
  (ema_crowd sim' <= 96 # 100)%Q /\
  (insufficient_data sim = false ->
     _deadlock_ticks sim' = 0 /\
     (ema_crowd sim' == (97 # 100) * ema_crowd sim)%Q /\
     knobs (adjust raw_n raw_f sim)
     = knobs (apply_resource_limits (feedback (update_ema sim)) sim)).
Proof.
  intros Hlog [H0 H1]. cbn zeta.
  pose proof (crowd_count_strings _ Hlog) as Hzero.
  assert (Hema : (ema_crowd (update_ema sim) == (97 # 100) * ema_crowd sim)%Q).
  { cbn [ema_crowd update_ema set_emas]. unfold ema_step, current_crowd_ratio.
    rewrite Hzero. unfold dynamic_alpha.
    assert (Hz : (inject_Z 0 / inject_Z (total (recent_deaths sim)) == 0)%Q)
      by (unfold Qdiv; apply Qmult_0_l).
    rewrite Hz. ring. }
  assert (Hd : deadlock_condition sim = false).
  { unfold deadlock_condition, is_deadlocked.
    rewrite !andb_false_iff. right. apply Qltb_ge. rewrite Hema. lra. }
  assert (Hadj : adjust raw_n raw_f sim
                 = apply_resource_limits (feedback (update_ema sim))
                     (set_deadlock_ticks 0 (update_ema sim))).
  { unfold adjust. unfold deadlock_condition in Hd. cbn zeta. rewrite Hd.
    cbn [_deadlock_ticks set_deadlock_ticks]. reflexivity. }
  split; [exact Hd |].
  destruct (insufficient_data sim) eqn:Hg.
  - unfold balance. rewrite Hg. split; [lra |]. split; [lra | discriminate].
  - pose proof (balance_controller raw_n raw_f sim Hg) as Hctl.
    unfold controller in Hctl. injection Hctl as Hc _ _ Ht.
    rewrite Hc, Ht, Hadj.
    cbn [ema_crowd _deadlock_ticks apply_resource_limits set_knobs set_deadlock_ticks].
    split; [rewrite Hema; lra |]. split; [rewrite Hema; lra |].
    intros _. split; [reflexivity |]. split; [exact Hema | reflexivity].
Qed.

Lemma balance_crowd_average_only_decays_witness :
  let sim := with_deaths (replicate 50 (PyStr "crowd")) 0 (90 # 100) initial_world
               [agent_at 5 5 45] in
  deadlock_condition sim = false /\
  (ema_crowd (balance 0 0 sim) <= ema_crowd sim)%Q.
Proof.
  intros sim.
  destruct (balance_crowd_average_only_decays 0 0 sim) as (H1 & [_ H2] & _).
  - apply Forall_forall. intros d Hd. apply elem_of_replicate in Hd as [-> _].
    right. eexists. reflexivity.
  - split; discriminate.
  - split; assumption.
Defined.

(** ** [AgentBrain.get_inputs] *)

Lemma normalize_raw (sim : Simulation) (st : AgentState) (s : Senses) :
  exists base,
    normalize (raw_inputs sim st s) = Some base /\
    length base = 23%nat /\
    base !! 0%nat = Some (Num (inject_Z (sense_food s) / 10)) /\
    base !! 13%nat = Some (of_dist (food_up_dist s)) /\
    base !! 14%nat = Some (of_dist (food_down_dist s)) /\
    base !! 15%nat = Some (of_dist (food_left_dist s)) /\
    base !! 16%nat = Some (of_dist (food_right_dist s)).
Proof. eexists. split; [reflexivity |]. repeat split. Qed.

Lemma concat_length_history (h : list (list entry)) :
  Forall (fun e => length e = n_base_inputs) h ->
  length (concat h) = (23 * length h)%nat.
Proof.
  induction 1 as [| e h He _ IH]; [reflexivity |].
  cbn [concat]. rewrite length_app, IH, He. unfold n_base_inputs. cbn [length]. lia.
Qed.

Lemma flat_hist_length (h : list (list entry)) :
  history_ok h -> length (flat_hist h) = 460%nat.
Proof.
  intros [Hl Hf]. unfold flat_hist. cbn zeta.
  rewrite length_app, length_replicate, (concat_length_history h Hf).
  unfold n_history, N_HISTORY, n_base_inputs in *. lia.
Qed.

Lemma push_history_last (h : list (list entry)) (base : list entry) :
  push_history h base = last_n 20 (h ++ [base]).
Proof.
  unfold push_history, last_n, n_history, N_HISTORY. cbn zeta.
  destruct (20 <? length (h ++ [base]))%nat eqn:E; [reflexivity |].
  apply Nat.ltb_ge in E.
  replace (length (h ++ [base]) - 20)%nat with 0%nat by lia. reflexivity.
Qed.

Lemma push_history_ok (h : list (list entry)) (base : list entry) :
  Forall (fun e => length e = n_base_inputs) h -> length base = n_base_inputs ->
  history_ok (push_history h base).
Proof.
  intros Hf Hb. rewrite push_history_last. unfold last_n, history_ok. split.
  - rewrite length_drop. unfold n_history, N_HISTORY. lia.
  - apply Forall_drop. apply Forall_app. split; [exact Hf |].
    apply Forall_singleton. exact Hb.
Qed.

Section Brain.

Variable round32 : Q -> Q.
Variable scale32 : f32 -> Q -> f32.


Lemma bias_elsewhere (p : string) (l : list f32) (i : nat) :
  i ∉ weighed -> bias scale32 p l !! i = l !! i.
Proof.
  intros Hi. unfold bias, mul_at.
  assert (H13 : 13%nat <> i) by (intros <-; apply Hi; unfold weighed; set_solver).
  assert (H4 : 4%nat <> i) by (intros <-; apply Hi; unfold weighed; set_solver).
  assert (H0 : 0%nat <> i) by (intros <-; apply Hi; unfold weighed; set_solver).
  assert (H1 : 1%nat <> i) by (intros <-; apply Hi; unfold weighed; set_solver).
  repeat (destruct (String.eqb _ _);
          [apply list_lookup_alter_ne; assumption |]).
  reflexivity.
Qed.

Lemma bias_history (p : string) (base hist : list f32) :
  length base = 23%nat -> drop 23 (bias scale32 p (base ++ hist)) = hist.
Proof.
  intros Hb. apply list_eq. intros i.
  rewrite lookup_drop, bias_elsewhere.
  - rewrite lookup_app_r by lia. f_equal. lia.
  - unfold weighed. intros Hin.
    repeat (apply elem_of_cons in Hin as [Hin | Hin]; [lia |]).
    apply elem_of_nil in Hin. exact Hin.
Qed.

Lemma get_inputs_spec (sim : Simulation) (st : AgentState) (s : Senses)
    (hist : list (list entry)) :
  history_ok hist ->
  exists base,
    normalize (raw_inputs sim st s) = Some base /\ length base = 23%nat /\
    get_inputs round32 scale32 sim st s hist
    = Some (bias scale32 (personality st) (cast round32 <$> (base ++ flat_hist hist)),
            push_history hist base).
Proof.
  intros Hh. destruct (normalize_raw sim st s) as (base & En & Hl & _).
  exists base. split; [exact En |]. split; [exact Hl |].
  unfold get_inputs. rewrite En. cbn [mbind option_bind].
  pose proof (flat_hist_length _ Hh) as Hf.
  rewrite Hl. change (23 =? n_base_inputs)%nat with true. cbn [negb].
  rewrite length_fmap, length_app, Hl, Hf.
  change (23 + 460 =? n_inputs)%nat with true. reflexivity.
Qed.


(** X17: the history feeds the next call. After a call of [get_inputs] on
    a history of at most 20 records of 23 entries, the newest record of the
    history is the one of that call: the vector the call returned is its
    [float32] copy, features 0, 1, 4 and 13 apart. In the vector of the
    next call the [float32] copy of that record is the last history block,
    at offset 23 times the number of records kept, and only the copies of
    the padding zeros follow it. *)
Theorem get_inputs_feeds_the_next_call (sim sim' : Simulation) (st st' : AgentState)
    (s s' : Senses) (hist h1 h2 : list (list entry)) (in1 in2 : list f32) :
  history_ok hist ->
  get_inputs round32 scale32 sim st s hist = Some (in1, h1) ->
  get_inputs round32 scale32 sim' st' s' h1 = Some (in2, h2) ->
  exists base,
    last h1 = Some base /\
    (forall i, i ∉ weighed -> (i < 23)%nat -> in1 !! i = cast round32 <$> base !! i) /\
    take 23 (drop (23 * length h1) in2) = cast round32 <$> base /\
    drop (23 * (1 + length h1)) in2
    = replicate (460 - 23 * length h1) (cast round32 (Num (0 # 1))).
Proof.
  intros Hh H1 H2.
  destruct (get_inputs_spec sim st s hist Hh) as (base & _ & Hb & E1).
  rewrite E1 in H1. injection H1 as <- <-.
  assert (Hok : history_ok (push_history hist base))
    by (apply push_history_ok; [apply Hh | exact Hb]).
  destruct (get_inputs_spec sim' st' s' _ Hok) as (base' & _ & Hb' & E2).
  rewrite E2 in H2. injection H2 as <- _.
  assert (Hlast : last (push_history hist base) = Some base).
  { rewrite push_history_last. unfold last_n.
    rewrite last_drop_lt by (rewrite length_app; cbn [length]; lia).
    apply last_snoc. }
  exists base. split; [exact Hlast |].
  split.
  { intros i Hi Hlt. rewrite (bias_elsewhere _ _ _ Hi), list_lookup_fmap.
    rewrite lookup_app_l by lia. reflexivity. }
  apply last_Some in Hlast as [h' Eh]. revert Hok. rewrite Eh. intros [Hlen Hall].
  apply Forall_app in Hall as [Hall _].
  pose proof (concat_length_history h' Hall) as Hc.
  rewrite length_app in *. cbn [length] in *.
  assert (Hdrop : drop (23 * (length h' + 1))
                    (bias scale32 (personality st')
                       (cast round32 <$> (base' ++ flat_hist (h' ++ [base]))))
                  = (cast round32 <$> base)
                    ++ replicate (460 - 23 * (length h' + 1)) (cast round32 (Num (0 # 1)))).
  { replace (23 * (length h' + 1))%nat with (23 + 23 * length h')%nat by lia.
    rewrite <- drop_drop, fmap_app, bias_history by (rewrite length_fmap; exact Hb').
    unfold flat_hist. cbn zeta.
    rewrite concat_app, <- !app_assoc, !fmap_app.
    rewrite drop_app_length' by (rewrite length_fmap; symmetry; exact Hc).
    cbn [concat]. rewrite app_nil_r, !length_app, Hc, Hb, fmap_replicate.
    unfold n_base_inputs, n_history, N_HISTORY. f_equal. f_equal. lia. }
  split.
  - rewrite Hdrop. apply take_app_length'. rewrite length_fmap. symmetry. exact Hb.
  - replace (23 * (1 + (length h' + 1)))%nat with (23 * (length h' + 1) + 23)%nat by lia.
    rewrite <- drop_drop, Hdrop. apply drop_app_length'.
    rewrite length_fmap. symmetry. exact Hb.
Qed.

End Brain.


Lemma get_inputs_feeds_the_next_call_witness :
  let exact32 := fun q : Q => q in
  let times32 := fun (v : f32) (f : Q) =>
                   match v with NaN => NaN | F32 q => F32 (q * f) end in
  let s := set_food_dists (Some (1 # 1)%Q) (Some (1 # 3)%Q) (Some (1 # 1)%Q)
             (Some (2 # 3)%Q) reset in
  let sim := simulation_with [] ∅ in
  let st := state (agent_at 5 5 45) in
  exists in1 h1 in2 h2,
    get_inputs exact32 times32 sim st s [] = Some (in1, h1) /\
    get_inputs exact32 times32 sim st s h1 = Some (in2, h2) /\
    take 23 (drop (23 * length h1) in2) = cast exact32 <$> default [] (last h1).
Proof.
  intros exact32 times32 s sim st.
  destruct (get_inputs exact32 times32 sim st s []) as [[in1 h1] |] eqn:E1;
    [| vm_compute in E1; discriminate E1].
  destruct (get_inputs exact32 times32 sim st s h1) as [[in2 h2] |] eqn:E2;
    [| vm_compute in E1; injection E1 as <- <-; vm_compute in E2; discriminate E2].
  exists in1, h1, in2, h2. split; [reflexivity |]. split; [exact E2 |].
  destruct (get_inputs_feeds_the_next_call exact32 times32 sim sim st st s s [] h1 h2 in1 in2)
    as (base & Hl & _ & Ht & _).
  - split; [cbn; lia | constructor].
  - exact E1.
  - exact E2.
  - rewrite Hl. exact Ht.
Defined.

(** ** [utils.spawn_food] *)

Lemma random_pos_in (zone : Z * Z * Z * Z) (raw : Z * Z) :
  zone_has_cells zone ->
  exists p, random_pos zone raw = Some p /\ in_zone zone p.
Proof.
  destruct zone as [[[x0 x1] y0] y1]. intros [Hx Hy]. unfold random_pos.
  destruct ((x1 - 1 <? x0) || (y1 - 1 <? y0)) eqn:E.
  - apply orb_true_iff in E as [E | E]; apply Z.ltb_lt in E; lia.
  - eexists. split; [reflexivity |]. unfold random_pos_in_zone, in_zone. cbn [fst snd].
    pose proof (randint_range x0 (x1 - 1) raw.1). pose proof (randint_range y0 (y1 - 1) raw.2).
    lia.
Qed.

Lemma random_pos_raises (zone : Z * Z * Z * Z) (raw : Z * Z) :
  ~ zone_has_cells zone -> random_pos zone raw = None.
Proof.
  destruct zone as [[[x0 x1] y0] y1]. intros Hz. unfold random_pos, zone_has_cells in *.
  destruct ((x1 - 1 <? x0) || (y1 - 1 <? y0)) eqn:E; [reflexivity |].
  apply orb_false_iff in E as [E1 E2]. apply Z.ltb_ge in E1, E2. lia.
Qed.

Lemma size_add_fresh (p : cell) (food : gset cell) :
  p ∉ food -> size ({[p]} ∪ food) = S (size food).
Proof.
  intros Hp. etrans; [apply (size_union (C := gset (Z * Z))); set_solver |].
  change (S (size food)) with (1 + size food)%nat. f_equal.
  apply (size_singleton (C := gset (Z * Z))).
Qed.

Lemma spawn_loop_spec (desired : Z) (zone : Z * Z * Z * Z) (taken : gset cell)
    (draws : nat -> Z * Z) (fuel tries : nat) (food : gset cell) :
  zone_has_cells zone ->
  exists food',
    spawn_loop fuel desired zone taken draws tries food = Some food' /\
    food ⊆ food' /\
    (forall c, c ∈ food' -> c ∉ food -> (c ∉ taken) /\ in_zone zone c) /\
    food_len food' <= Z.max (food_len food) desired.
Proof.
  intros Hz. revert tries food. induction fuel as [| fuel IH]; intros tries food.
  { exists food. cbn. split; [reflexivity |]. split; [set_solver |].
    split; [intros c H1 H2; contradiction | lia]. }
  cbn [spawn_loop].
  destruct ((Z.of_nat (size food) <? desired) && (Z.of_nat tries <? desired * 10)) eqn:E.
  2:{ exists food. split; [reflexivity |]. split; [set_solver |].
      split; [intros c H1 H2; contradiction | lia]. }
  apply andb_true_iff in E as [E1 _]. apply Z.ltb_lt in E1.
  destruct (random_pos_in zone (draws tries) Hz) as (p & -> & Hp). cbn [mbind option_bind].
  destruct (bool_decide (p ∈ food) || bool_decide (p ∈ taken)) eqn:Ef.
  - apply IH.
  - apply orb_false_iff in Ef as [Ef1 Ef2].
    apply bool_decide_eq_false in Ef1, Ef2.
    destruct (IH (S tries) ({[p]} ∪ food)) as (food' & -> & Hsub & Hnew & Hsize).
    exists food'. split; [reflexivity |]. split.
    { intros c Hc. apply Hsub. apply elem_of_union. right. exact Hc. }
    split.
    + intros c Hc Hnc. destruct (decide (c = p)) as [-> | Hne]; [tauto |].
      apply Hnew; [exact Hc |]. intros Hin.
      apply elem_of_union in Hin as [Hin | Hin]; [| contradiction].
      apply elem_of_singleton in Hin. contradiction.
    + unfold food_len in *. rewrite (size_add_fresh p food Ef1) in Hsize. lia.
Qed.

Lemma spawn_loop_empty_zone (desired : Z) (zone : Z * Z * Z * Z) (taken : gset cell)
    (draws : nat -> Z * Z) (fuel tries : nat) (food : gset cell) :
  ~ zone_has_cells zone -> food_len food < desired -> Z.of_nat tries < desired * 10 ->
  spawn_loop (S fuel) desired zone taken draws tries food = None.
Proof.
  intros Hz H1 H2. cbn [spawn_loop]. unfold food_len in H1.
  apply Z.ltb_lt in H1, H2. rewrite H1, H2. cbn [andb].
  rewrite (random_pos_raises zone _ Hz). reflexivity.
Qed.

Lemma spawn_loop_fuel (desired : Z) (zone : Z * Z * Z * Z) (taken : gset cell)
    (draws : nat -> Z * Z) (extra fuel tries : nat) (food : gset cell) :
  desired * 10 <= Z.of_nat (tries + fuel) ->
  spawn_loop (fuel + extra) desired zone taken draws tries food
  = spawn_loop fuel desired zone taken draws tries food.
Proof.
  revert tries food. induction fuel as [| fuel IH]; intros tries food H.
  - cbn [Nat.add]. destruct extra as [| extra]; [reflexivity |]. cbn [spawn_loop].
    assert (E : (Z.of_nat tries <? desired * 10) = false) by (apply Z.ltb_ge; lia).
    rewrite E, andb_false_r. reflexivity.
  - cbn [Nat.add spawn_loop].
    destruct ((Z.of_nat (size food) <? desired) && (Z.of_nat tries <? desired * 10));
      [| reflexivity].
    destruct (random_pos zone (draws tries)) as [p |]; [| reflexivity].
    cbn [mbind option_bind].
    destruct (bool_decide (p ∈ food) || bool_decide (p ∈ taken)); apply IH; lia.
Qed.

(** X18: [spawn_food] with enough food already ([len(food_set) >=
    desired_count]) changes nothing, whatever the zone. Below the desired
    count, a zone without cells makes it raise; a zone with cells makes it
    return a food set that holds the old food, whose new cells all lie in
    the zone and on no taken cell, and whose size does not exceed the
    desired count. The loop stops by its own test: running it longer than
    [desired_count * 10] iterations gives the same set. *)
Theorem spawn_food_fills_free_cells_of_the_zone (food taken : gset cell)
    (desired : Z) (zone : Z * Z * Z * Z) (draws : nat -> Z * Z) :
  (desired <= food_len food -> spawn_food food desired zone taken draws = Some food) /\
  (food_len food < desired -> ~ zone_has_cells zone ->
   spawn_food food desired zone taken draws = None) /\
  (food_len food < desired -> zone_has_cells zone ->
   exists food',
     spawn_food food desired zone taken draws = Some food' /\
     food ⊆ food' /\
     (forall c, c ∈ food' -> c ∉ food -> (c ∉ taken) /\ in_zone zone c) /\
     food_len food' <= desired) /\
  (forall extra,
     spawn_loop (Z.to_nat (desired * 10) + extra) desired zone taken draws 0 food
     = spawn_food food desired zone taken draws).
Proof.
  unfold spawn_food. split; [| split; [| split]].
  - intros H. unfold food_len in H.
    destruct (Z.to_nat (desired * 10)) as [| fuel]; [reflexivity |]. cbn [spawn_loop].
    assert (E : (Z.of_nat (size food) <? desired) = false) by (apply Z.ltb_ge; lia).
    rewrite E. reflexivity.
  - intros H Hz. assert (Hd : 0 < desired) by (unfold food_len in H; lia).
    destruct (Z.to_nat (desired * 10)) as [| fuel] eqn:Ef; [lia |].
    apply spawn_loop_empty_zone; [exact Hz | exact H | lia].
  - intros H Hz.
    destruct (spawn_loop_spec desired zone taken draws (Z.to_nat (desired * 10)) 0 food Hz)
      as (food' & E & Hsub & Hnew & Hsize).
    exists food'. split; [exact E |]. split; [exact Hsub |]. split; [exact Hnew | lia].
  - intros extra. apply spawn_loop_fuel. lia.
Qed.

Lemma spawn_food_fills_free_cells_of_the_zone_witness :
  exists food',
    spawn_food {[ (0, 0) ]} 3 (0, 2, 0, 2) {[ (1, 1) ]} (fun n => (Z.of_nat n, 0))
    = Some food' /\
    food_len food' <= 3.
Proof.
  destruct (proj1 (proj2 (proj2
              (spawn_food_fills_free_cells_of_the_zone {[ (0, 0) ]} {[ (1, 1) ]} 3
                 (0, 2, 0, 2) (fun n => (Z.of_nat n, 0))))))
    as (food' & E & _ & _ & Hs).
  - vm_compute. reflexivity.
  - split; lia.
  - exists food'. split; assumption.
Defined.

(** ** [Simulation._current_food_zone] and [Simulation._spawn_food] *)

Lemma current_food_zone_spec (idx : nat) (w : World) :
  2 <= world_w w -> 2 <= world_h w -> (idx < 4)%nat ->
  exists zone,
    _current_food_zone idx w = Some zone /\ zone_has_cells zone /\ zone_in_world w zone.
Proof.
  intros Hw Hh Hi. unfold _current_food_zone, food_zones.
  destruct idx as [| [| [| [| idx]]]]; [| | | | lia];
    cbn [lookup list_lookup mbind option_bind];
    eexists; (split; [reflexivity |]);
    unfold zone_has_cells, zone_in_world, py_int, Qmult, inject_Z;
    cbn [Qnum Qden Pos.mul]; rewrite ?Z.mul_1_l, ?Z.mul_0_l;
    rewrite ?Z.quot_div_nonneg by lia;
    Z.to_euclidean_division_equations; lia.
Qed.

Lemma current_food_zone_raises (idx : nat) (w : World) :
  (4 <= idx)%nat -> _current_food_zone idx w = None.
Proof.
  intros Hi. unfold _current_food_zone, food_zones.
  do 4 (destruct idx as [| idx]; [lia |]). reflexivity.
Qed.

Lemma in_zone_inside (w : World) (zone : Z * Z * Z * Z) (c : cell) :
  zone_in_world w zone -> in_zone zone c ->
  (0 <= c.1 < world_w w) /\ (0 <= c.2 < world_h w).
Proof.
  destruct zone as [[[x0 x1] y0] y1]. unfold zone_in_world, in_zone. lia.
Qed.

Lemma not_taken_unoccupied (l : list Agent) (c : cell) :
  c ∉ (list_to_set (pos <$> l) : gset cell) -> unoccupied l c.
Proof.
  intros Hc a Ha E. apply Hc. apply elem_of_list_to_set.
  apply list_elem_of_fmap. exists a. split; [symmetry; exact E | exact Ha].
Qed.

Lemma spawn_food_sim_spec (idx : nat) (draws : nat -> Z * Z) (sim : Simulation) :
  2 <= world_w (knobs sim) -> 2 <= world_h (knobs sim) -> (idx < 4)%nat ->
  exists zone sim',
    _current_food_zone idx (knobs sim) = Some zone /\
    zone_has_cells zone /\ zone_in_world (knobs sim) zone /\
    _spawn_food idx draws sim = Some sim' /\
    agents sim' = agents sim /\ knobs sim' = knobs sim /\
    food_set sim ⊆ food_set sim' /\
    (forall c, c ∈ food_set sim' -> c ∉ food_set sim ->
       in_zone zone c /\ unoccupied (agents sim) c) /\
    food_len (food_set sim') <= Z.max (food_len (food_set sim)) (FOOD_COUNT (knobs sim)).
Proof.
  intros Hw Hh Hi.
  destruct (current_food_zone_spec idx (knobs sim) Hw Hh Hi) as (zone & Ez & Hz & Hzw).
  destruct (spawn_loop_spec (FOOD_COUNT (knobs sim)) zone
              (list_to_set (pos <$> agents sim)) draws
              (Z.to_nat (FOOD_COUNT (knobs sim) * 10)) 0 (food_set sim) Hz)
    as (food' & Ef & Hsub & Hnew & Hsize).
  exists zone, (set_food_set food' sim).
  split; [exact Ez |]. split; [exact Hz |]. split; [exact Hzw |].
  split.
  { unfold _spawn_food, spawn_food. rewrite Ez. cbn [mbind option_bind].
    rewrite Ef. reflexivity. }
  cbn [agents knobs food_set set_food_set].
  split; [reflexivity |]. split; [reflexivity |]. split; [exact Hsub |].
  split; [| exact Hsize].
  intros c Hc Hn. destruct (Hnew c Hc Hn) as [Ht Hin].
  split; [exact Hin | apply not_taken_unoccupied; exact Ht].
Qed.

(** X19: in a world at least two cells wide and high, each of the four
    food zones has cells and lies in the world, and an index past the four
    zones raises. So [_spawn_food] with a valid index returns: it leaves
    agents and knobs alone, keeps the old food, puts new food only on
    cells of the current zone where no agent stands, keeps food that was
    inside the world inside it, and does not exceed what is larger, the
    old amount or [FOOD_COUNT]. *)
Theorem spawn_food_keeps_food_in_the_world (idx : nat) (draws : nat -> Z * Z)
    (sim : Simulation) :
  2 <= world_w (knobs sim) -> 2 <= world_h (knobs sim) ->
  ((4 <= idx)%nat -> _spawn_food idx draws sim = None) /\
  ((idx < 4)%nat ->
   exists zone sim',
     _current_food_zone idx (knobs sim) = Some zone /\
     zone_has_cells zone /\ zone_in_world (knobs sim) zone /\
     _spawn_food idx draws sim = Some sim' /\
     agents sim' = agents sim /\ knobs sim' = knobs sim /\
     food_set sim ⊆ food_set sim' /\
     (forall c, c ∈ food_set sim' -> c ∉ food_set sim ->
        in_zone zone c /\ unoccupied (agents sim) c) /\
     (food_inside (knobs sim) (food_set sim) ->
      food_inside (knobs sim) (food_set sim')) /\
     food_len (food_set sim') <= Z.max (food_len (food_set sim)) (FOOD_COUNT (knobs sim))).
Proof.
  intros Hw Hh. split.
  - intros Hi. unfold _spawn_food. rewrite (current_food_zone_raises _ _ Hi). reflexivity.
  - intros Hi.
    destruct (spawn_food_sim_spec idx draws sim Hw Hh Hi)
      as (zone & sim' & Ez & Hz & Hzw & E & Ha & Hk & Hsub & Hnew & Hsize).
    exists zone, sim'. repeat (split; [assumption |]).
    split; [| exact Hsize].
    intros Hin c Hc. destruct (decide (c ∈ food_set sim)) as [Ho | Hn].
    + apply Hin. exact Ho.
    + apply (in_zone_inside _ zone); [exact Hzw | apply (Hnew c Hc Hn)].
Qed.

Lemma spawn_food_keeps_food_in_the_world_witness :
  exists sim',
    _spawn_food 3 (fun n => (Z.of_nat n, 7)) (simulation_with [agent_at 30 30 45] ∅)
    = Some sim' /\
    food_inside initial_world (food_set sim').
Proof.
  destruct (proj2 (spawn_food_keeps_food_in_the_world 3 (fun n => (Z.of_nat n, 7))
                     (simulation_with [agent_at 30 30 45] ∅)
                     ltac:(vm_compute; discriminate) ltac:(vm_compute; discriminate))
              ltac:(lia))
    as (zone & sim' & _ & _ & _ & E & _ & _ & _ & _ & Hin & _).
  exists sim'. split; [exact E |]. apply Hin.
  intros c Hc. apply elem_of_empty in Hc. contradiction.
Defined.

(** ** The start of a tick: zone rotation and food *)

(** X20: at a tick that is a multiple of 1000 (tick 0 included, so the
    first food never comes from zone 0) the start of the tick moves to the
    next of the four zones, whatever the index was, and replaces the food:
    in a world at least two cells wide and high it returns, and every food
    cell there is then lies in the new zone, inside the world, on a cell
    where no agent stands, with at most [FOOD_COUNT] cells in all. At any
    other tick the index stays and the food is only replenished. *)
Theorem start_of_tick_rotates_the_zone (idx : nat) (draws : nat -> Z * Z)
    (sim : Simulation) :
  2 <= world_w (knobs sim) -> 2 <= world_h (knobs sim) ->
  (tick sim mod 1000 = 0 ->
   exists zone sim',
     start_of_tick idx draws sim = Some (((idx + 1) mod 4)%nat, sim') /\
     _current_food_zone ((idx + 1) mod 4) (knobs sim) = Some zone /\
     agents sim' = agents sim /\
     (forall c, c ∈ food_set sim' ->
        in_zone zone c /\ unoccupied (agents sim) c /\
        (0 <= c.1 < world_w (knobs sim)) /\ (0 <= c.2 < world_h (knobs sim))) /\
     food_len (food_set sim') <= Z.max 0 (FOOD_COUNT (knobs sim))) /\
  (tick sim mod 1000 <> 0 ->
   start_of_tick idx draws sim = (fun s => (idx, s)) <$> _spawn_food idx draws sim).
Proof.
  intros Hw Hh. unfold start_of_tick, rotate_zone. split.
  - intros Ht. apply Z.eqb_eq in Ht. rewrite Ht.
    change (length food_zones) with 4%nat.
    assert (Hi : ((idx + 1) mod 4 < 4)%nat) by (apply Nat.mod_upper_bound; lia).
    destruct (spawn_food_sim_spec ((idx + 1) mod 4) draws (set_food_set ∅ sim) Hw Hh Hi)
      as (zone & sim' & Ez & Hz & Hzw & E & Ha & Hk & Hsub & Hnew & Hsize).
    exists zone, sim'. rewrite E. cbn [mbind option_bind].
    split; [reflexivity |]. split; [exact Ez |]. split; [exact Ha |].
    split; [| exact Hsize].
    intros c Hc.
    assert (Hn : c ∉ food_set (set_food_set ∅ sim))
      by (cbn [food_set set_food_set]; apply not_elem_of_empty).
    destruct (Hnew c Hc Hn) as [Hin Hu].
    split; [exact Hin |]. split; [exact Hu |].
    apply (in_zone_inside _ zone); [exact Hzw | exact Hin].
  - intros Ht. apply Z.eqb_neq in Ht. rewrite Ht.
    destruct (_spawn_food idx draws sim); reflexivity.
Qed.

Lemma start_of_tick_rotates_the_zone_witness :
  exists sim',
    start_of_tick 0 (fun n => (Z.of_nat n, 7)) (simulation_with [agent_at 30 30 45] ∅)
    = Some (1%nat, sim') /\
    food_len (food_set sim') <= 600.
Proof.
  destruct (proj1 (start_of_tick_rotates_the_zone 0 (fun n => (Z.of_nat n, 7))
                     (simulation_with [agent_at 30 30 45] ∅)
                     ltac:(vm_compute; discriminate) ltac:(vm_compute; discriminate))
              ltac:(reflexivity))
    as (zone & sim' & E & _ & _ & _ & Hs).
  exists sim'. split; [exact E | exact Hs].
Defined.

(** ** The reproduction phase of [Simulation.run] *)

Lemma empty_cells_spec (w : World) (a : Agent) (taken food : gset cell) (c : cell) :
  inside w (state a) -> pos a ∈ taken -> c ∈ empty_cells w a taken food ->
  (c ∉ taken) /\ (c ∉ food) /\
  (0 <= c.1 < world_w w) /\ (0 <= c.2 < world_h w) /\
  Z.abs (c.1 - x (state a)) + Z.abs (c.2 - y (state a)) = 1.
Proof.
  intros [Hx Hy] Hpos Hc. unfold empty_cells in Hc.
  apply list_elem_of_filter in Hc as [[Ht Hf] Hc].
  split; [exact Ht |]. split; [exact Hf |].
  assert (Hne : c <> pos a) by (intros ->; contradiction).
  unfold neighbour_offsets in Hc. cbn [fmap list_fmap fst snd] in Hc.
  unfold pos in Hne.
  repeat (apply elem_of_cons in Hc as [-> | Hc];
          [cbn [fst snd]; unfold clamp in *;
           assert (Hq : forall p q r s : Z, (p, q) <> (r, s) -> p <> r \/ q <> s)
             by (intros p q r s Hpq;
                 destruct (decide (p = r)) as [-> |]; [right; congruence | left; assumption]);
           apply Hq in Hne; lia |]).
  apply elem_of_nil in Hc. contradiction.
Qed.

Lemma reproduce_one_spec (w : World) (food : gset cell) (st : repro_state)
    (a : Agent) (d : nat * repro_draws) :
  inside w (state a) -> pos a ∈ taken_cells st ->
  exists p,
    parents (reproduce_one w food st a d) = parents st ++ [p] /\ after_birth a p /\
    ((new_agents (reproduce_one w food st a d) = new_agents st /\
      taken_cells (reproduce_one w food st a d) = taken_cells st) \/
     (exists c,
        new_agents (reproduce_one w food st a d) = new_agents st ++ [c] /\
        taken_cells (reproduce_one w food st a d) = taken_cells st ∪ {[ pos c ]} /\
        (pos c ∉ taken_cells st) /\ (pos c ∉ food) /\ inside w (state c) /\
        can_reproduce (state a) = true /\ born_next_to a c)).
Proof.
  intros Hin Hpos. unfold reproduce_one.
  destruct (can_reproduce (state a)) eqn:Hcan; cbn [negb].
  2:{ exists a. cbn [parents new_agents taken_cells].
      split; [reflexivity |]. split; [| left; split; reflexivity].
      unfold after_birth. repeat (split; [reflexivity |]). left. reflexivity. }
  destruct (choice (empty_cells w a (taken_cells st) food) d.1) as [[nx ny] |] eqn:Hch.
  2:{ exists a. cbn [parents new_agents taken_cells].
      split; [reflexivity |]. split; [| left; split; reflexivity].
      unfold after_birth. repeat (split; [reflexivity |]). left. reflexivity. }
  unfold choice in Hch. apply list_elem_of_lookup_2 in Hch.
  destruct (empty_cells_spec w a _ food _ Hin Hpos Hch) as (Ht & Hf & Hx & Hy & Hadj).
  cbn [fst snd] in Hx, Hy, Hadj.
  unfold reproduce. destruct (color (state a)) as [[r g] b].
  destruct (d_color d.2) as [[dr dg] db].
  eexists. cbn [parents new_agents taken_cells].
  split; [reflexivity |]. split.
  { unfold after_birth. repeat (split; [reflexivity |]). right.
    split; [exact Hcan |]. split; reflexivity. }
  right. eexists. split; [reflexivity |].
  split; [reflexivity |]. split; [exact Ht |]. split; [exact Hf |].
  split; [split; [exact Hx | exact Hy] |]. split; [reflexivity |].
  unfold born_next_to.
  split; [reflexivity |]. split; [reflexivity |]. split; [reflexivity | exact Hadj].
Qed.

Lemma reproduce_fold_spec (w : World) (food : gset cell)
    (draws : nat -> nat * repro_draws) (T0 : gset cell) (ias : list (nat * Agent)) :
  Forall (fun ia => inside w (state ia.2) /\ pos ia.2 ∈ T0) ias ->
  forall st, T0 ⊆ taken_cells st ->
  exists ps cs,
    parents (foldl (fun st ia => reproduce_one w food st ia.2 (draws ia.1)) st ias)
    = parents st ++ ps /\
    new_agents (foldl (fun st ia => reproduce_one w food st ia.2 (draws ia.1)) st ias)
    = new_agents st ++ cs /\
    Forall2 after_birth (snd <$> ias) ps /\
    NoDup (pos <$> cs) /\
    Forall (fun c => (pos c ∉ taken_cells st) /\ (pos c ∉ food) /\ inside w (state c) /\
                     exists a, a ∈ snd <$> ias /\ can_reproduce (state a) = true /\
                               born_next_to a c) cs /\
    (length cs <= length (fertile (snd <$> ias)))%nat.
Proof.
  induction 1 as [| [i a] ias [Hin Hpos] _ IH]; intros st HT.
  { exists [], []. cbn [foldl]. rewrite !app_nil_r.
    split; [reflexivity |]. split; [reflexivity |]. split; [constructor |].
    split; [constructor |]. split; [constructor |]. cbn. lia. }
  cbn [foldl fst snd]. cbn [fst snd] in Hin, Hpos.
  destruct (reproduce_one_spec w food st a (draws i) Hin (HT _ Hpos))
    as (p & Ep & Hp & Hcase).
  set (st1 := reproduce_one w food st a (draws i)) in *.
  assert (HT1 : T0 ⊆ taken_cells st1).
  { destruct Hcase as [[_ ->] | (c & _ & -> & _)]; [exact HT |].
    intros t Ht. apply elem_of_union. left. apply HT. exact Ht. }
  destruct (IH st1 HT1) as (ps & cs & Eps & Ecs & Hab & Hnd & Hall & Hlen).
  rewrite Eps, Ecs, Ep, <- app_assoc. cbn [app fmap list_fmap snd].
  destruct Hcase as [[En Et] | (c & En & Et & Hct & Hcf & Hcin & Hcan & Hborn)].
  - exists (p :: ps), cs. rewrite En, Et in *.
    split; [reflexivity |]. split; [reflexivity |].
    split; [constructor; assumption |]. split; [exact Hnd |].
    split.
    + eapply Forall_impl; [exact Hall |]. cbn beta.
      intros c (H1 & H2 & H3 & b & Hb & H4). repeat (split; [assumption |]).
      exists b. split; [apply elem_of_cons; right; exact Hb | exact H4].
    + unfold fertile in *. rewrite filter_cons. destruct (decide _); cbn [length]; lia.
  - exists (p :: ps), (c :: cs). rewrite En, <- app_assoc. cbn [app].
    split; [reflexivity |]. split; [reflexivity |].
    split; [constructor; assumption |].
    rewrite Et in Hall.
    split; [| split].
    + cbn [fmap list_fmap]. apply NoDup_cons. split; [| exact Hnd].
      intros Hc. apply list_elem_of_fmap in Hc as (c' & Epos & Hc').
      rewrite Forall_forall in Hall. destruct (Hall c' Hc') as (Hn & _).
      apply Hn. apply elem_of_union. right. apply elem_of_singleton. symmetry. exact Epos.
    + constructor.
      * repeat (split; [assumption |]). exists a.
        split; [apply elem_of_cons; left; reflexivity |]. split; assumption.
      * eapply Forall_impl; [exact Hall |]. cbn beta.
        intros c' (H1 & H2 & H3 & b & Hb & H4).
        split; [intros Hc'; apply H1; apply elem_of_union; left; exact Hc' |].
        repeat (split; [assumption |]).
        exists b. split; [apply elem_of_cons; right; exact Hb | exact H4].
    + unfold fertile in *. rewrite filter_cons.
      destruct (decide _) as [_ | Hn]; [cbn [length]; lia | contradiction].
Qed.

(** X21: the reproduction phase on agents that stand inside the world. The
    agents of the list stay in place and in order, each one untouched or
    reset by [reproduce]; the children are appended after them. Every
    child is the new-born of an agent that could reproduce, stands inside
    the world one step from that parent, on a cell without food where no
    agent of the list stands, and no two children share a cell; there is at
    most one child per agent that could reproduce. So if no two agents
    shared a cell before the phase, none do after it. Food and knobs are
    untouched. *)
Theorem reproduction_places_children_on_free_cells
    (draws : nat -> nat * repro_draws) (sim : Simulation) :
  Forall (fun a => inside (knobs sim) (state a)) (agents sim) ->
  exists ps cs,
    agents (reproduction draws sim) = ps ++ cs /\
    Forall2 after_birth (agents sim) ps /\
    NoDup (pos <$> cs) /\
    Forall (fun c => inside (knobs sim) (state c) /\ (pos c ∉ food_set sim) /\
                     unoccupied (agents sim) (pos c) /\
                     exists a, a ∈ agents sim /\ can_reproduce (state a) = true /\
                               born_next_to a c) cs /\
    (length cs <= length (fertile (agents sim)))%nat /\
    (NoDup (pos <$> agents sim) -> NoDup (pos <$> agents (reproduction draws sim))) /\
    food_set (reproduction draws sim) = food_set sim /\
    knobs (reproduction draws sim) = knobs sim.
Proof.
  intros Hin.
  set (T0 := list_to_set (pos <$> agents sim) : gset cell).
  assert (Hias : Forall (fun ia : nat * Agent =>
                           inside (knobs sim) (state ia.2) /\ pos ia.2 ∈ T0)
                   (imap (fun i a => (i, a)) (agents sim))).
  { apply Forall_forall. intros [i a] Hia. cbn [snd].
    apply elem_of_imap_indexed in Hia. apply list_elem_of_lookup_2 in Hia.
    split; [exact (proj1 (Forall_forall _ _) Hin a Hia) |].
    apply elem_of_list_to_set. apply list_elem_of_fmap. exists a. split; [reflexivity | exact Hia]. }
  destruct (reproduce_fold_spec (knobs sim) (food_set sim) draws T0 _ Hias
              (mkRepro [] [] T0) (reflexivity _))
    as (ps & cs & Eps & Ecs & Hab & Hnd & Hall & Hlen).
  rewrite (snd_imap_indexed (fun i => i)) in Hab, Hall, Hlen.
  cbn [parents new_agents taken_cells app] in Eps, Ecs, Hall.
  assert (Hocc : Forall (fun c => unoccupied (agents sim) (pos c)) cs).
  { eapply Forall_impl; [exact Hall |]. cbn beta. intros c (Hc & _).
    apply not_taken_unoccupied. exact Hc. }
  assert (Hpos : pos <$> ps = pos <$> agents sim).
  { clear -Hab. induction Hab as [| a p l ps Hap _ IH]; [reflexivity |].
    cbn [fmap list_fmap]. f_equal; [apply Hap | exact IH]. }
  exists ps, cs.
  split.
  { unfold reproduction, reproduce_loop. cbn zeta. cbn [agents set_agents].
    fold T0. rewrite Eps, Ecs. reflexivity. }
  split; [exact Hab |]. split; [exact Hnd |].
  split.
  { apply Forall_forall. intros c Hc.
    destruct (proj1 (Forall_forall _ _) Hall c Hc) as (_ & Hf & Hi & Hex).
    split; [exact Hi |]. split; [exact Hf |].
    split; [exact (proj1 (Forall_forall _ _) Hocc c Hc) | exact Hex]. }
  split; [exact Hlen |].
  split; [| split; reflexivity].
  intros Hnd0. unfold reproduction, reproduce_loop. cbn zeta. cbn [agents set_agents].
  fold T0. rewrite Eps, Ecs, fmap_app, Hpos.
  apply NoDup_app. split; [exact Hnd0 |]. split; [| exact Hnd].
  intros c Hc1 Hc2.
  apply list_elem_of_fmap in Hc1 as (a & -> & Ha).
  apply list_elem_of_fmap in Hc2 as (k & Ek & Hk).
  apply (proj1 (Forall_forall _ _) Hocc k Hk a Ha). exact Ek.
Qed.

Lemma reproduction_places_children_on_free_cells_witness :
  let sim := simulation_with [agent_at 5 5 130; agent_at 6 5 45] {[ (4, 5) ]} in
  let draws := fun _ : nat => (0%nat, mkDraws (0, 0, 0) 0 0 (1 # 1)%Q 0 7) in
  exists ps cs,
    agents (reproduction draws sim) = ps ++ cs /\
    NoDup (pos <$> agents (reproduction draws sim)).
Proof.
  intros sim draws.
  destruct (reproduction_places_children_on_free_cells draws sim)
    as (ps & cs & E & _ & _ & _ & _ & Hnd & _).
  - repeat constructor; cbn; lia.
  - exists ps, cs. split; [exact E |]. apply Hnd.
    vm_compute. repeat constructor; rewrite ?elem_of_cons, ?elem_of_nil;
      intros H; repeat destruct H as [H | H]; try discriminate H; exact H.
Defined.

(** ** The initial population of [Simulation.__init__] *)

Lemma seed_agent_spec (w : World) (d : seed_draws) :
  2 <= world_w w -> 1 <= world_h w ->
  inside w (state (seed_agent w d)) /\
  2 * (x (state (seed_agent w d)) + 1) <= world_w w.
Proof.
  intros Hw Hh. unfold seed_agent, seeding_zone, random_pos_in_zone.
  destruct (raw_color d) as [[r g] b].
  unfold inside, py_int, Qmult, inject_Z. cbn [Qnum Qden Pos.mul x y state new_agent new_state].
  rewrite ?Z.mul_1_l, ?Z.mul_0_l.
  rewrite !Z.quot_div_nonneg by lia.
  change (Z.pos (2 * 1)) with 2. change (Z.pos (1 * 1)) with 1.
  change (0 / 1) with 0. rewrite Z.div_1_r.
  pose proof (randint_range 0 (world_w w / 2 - 1) (raw_x d)) as Hx.
  pose proof (randint_range 0 (world_h w - 1) (raw_y d)) as Hy.
  assert (H2 : 1 <= world_w w / 2 /\ 2 * (world_w w / 2) <= world_w w)
    by (Z.to_euclidean_division_equations; lia).
  lia.
Qed.

(** X22: in a world at least two cells wide and one cell high, every agent
    of the initial population stands inside the world, in its left half;
    its two radii lie in [0, 20], its colour channels in [0, 254] and its
    id in [0, 1000000]; it starts with energy 45, age 0, no offspring, no
    parent, no death cause, one of the five personalities, and senses that
    are reset. *)
Theorem seed_agent_starts_in_the_left_half (w : World) (ds : list seed_draws) :
  2 <= world_w w -> 1 <= world_h w ->
  Forall (fun a =>
            inside w (state a) /\ 2 * (x (state a) + 1) <= world_w w /\
            (0 <= food_radius (state a) <= 20) /\ (0 <= agent_radius (state a) <= 20) /\
            (0 <= (color (state a)).1.1 <= 254) /\ (0 <= (color (state a)).1.2 <= 254) /\
            (0 <= (color (state a)).2 <= 254) /\
            (0 <= id (state a) <= 1000000) /\
            energy (state a) = inject_Z ENERGY_START /\ age (state a) = 0 /\
            offspring_count (state a) = 0 /\ parent_id (state a) = None /\
            death_reason (state a) = PyNone /\
            personality (state a) ∈ PERSONALITY_TYPES /\ senses a = reset)
         (seed_agent w <$> ds).
Proof.
  intros Hw Hh. apply Forall_fmap, Forall_forall. intros d _. cbn [compose].
  destruct (seed_agent_spec w d Hw Hh) as [Hin Hleft].
  split; [exact Hin |]. split; [exact Hleft |].
  unfold seed_agent, seeding_zone, random_pos_in_zone.
  destruct (raw_color d) as [[r g] b].
  cbn [state senses new_agent new_state food_radius agent_radius color id energy age
         offspring_count parent_id death_reason personality fst snd].
  unfold SENSOR_RADIUS_RANGE. cbn [fst snd].
  pose proof (randint_range 0 20 (raw_food_radius d)).
  pose proof (randint_range 0 20 (raw_agent_radius d)).
  pose proof (randint_range 0 254 r). pose proof (randint_range 0 254 g).
  pose proof (randint_range 0 254 b).
  pose proof (randint_range 0 1000000 (raw_id d)).
  repeat (split; [first [reflexivity | lia] |]).
  split; [apply random_personality_known | reflexivity].
Qed.

Lemma seed_agent_starts_in_the_left_half_witness :
  Forall (fun a => inside initial_world (state a))
    (seed_agent initial_world <$> [mkSeed 60 90 (300, 2, 1) 25 3 7 42]).
Proof.
  eapply Forall_impl.
  - apply (seed_agent_starts_in_the_left_half initial_world
             [mkSeed 60 90 (300, 2, 1) 25 3 7 42]); vm_compute; discriminate.
  - cbn beta. intros a H. apply H.
Defined.

(** ** A whole lifecycle step *)

Lemma sense_all_spec (sim : Simulation) :
  2 <= world_w (knobs sim) -> 2 <= world_h (knobs sim) ->
  Forall (fun a => food_radius (state a) <> -1) (agents sim) ->
  exists ags,
    sense_all sim = Some ags /\
    Forall2 (fun a a' => state a' = state a) (agents sim) ags.
Proof.
  intros Hw Hh Hr. unfold sense_all. cbn zeta.
  match goal with |- context [mapM ?f ?l] => destruct (mapM f l) as [ags |] eqn:E end.
  - exists ags. split; [reflexivity |]. apply mapM_Some in E.
    eapply Forall2_impl; [exact E |]. cbn beta. intros a a' H.
    destruct (AgentSenses.update _ _ _ _ _); [| discriminate H].
    cbn in H. injection H as <-. reflexivity.
  - exfalso. eapply is_Some_None. rewrite <- E. apply mapM_is_Some_2.
    apply Forall_forall. intros a Ha. cbn [compose].
    pose proof (proj1 (Forall_forall _ _) Hr a Ha) as Hra. cbn beta in Hra.
    unfold AgentSenses.update, _normalize_distances. cbn zeta.
    assert (E1 : (food_radius (state a) + 1 =? 0) = false) by (apply Z.eqb_neq; lia).
    assert (E2 : (world_w (knobs sim) - 1 =? 0) = false) by (apply Z.eqb_neq; lia).
    assert (E3 : (world_h (knobs sim) - 1 =? 0) = false) by (apply Z.eqb_neq; lia).
    rewrite E1. cbn [mbind option_bind]. rewrite E2, E3. cbn [orb mbind option_bind].
    eexists. reflexivity.
Qed.

Lemma active_idx_same_states (l l' : list Agent) :
  Forall2 (fun a a' => state a' = state a) l l' -> active_idx l' = active_idx l.
Proof.
  intros H. unfold active_idx.
  enough (G : forall f : nat -> nat,
             fst <$> filter (fun ia : nat * Agent => alive ia.2 = true)
                       (imap (fun i a => (f i, a)) l')
             = fst <$> filter (fun ia : nat * Agent => alive ia.2 = true)
                         (imap (fun i a => (f i, a)) l))
    by exact (G (fun i => i)).
  induction H as [| a a' l l' Ha _ IH]; intros f; [reflexivity |].
  cbn [imap]. rewrite !filter_cons. cbn [snd].
  assert (Eal : alive a' = alive a) by (unfold alive; rewrite Ha; reflexivity).
  rewrite Eal.
  destruct (decide (alive a = true)); cbn [fmap list_fmap fst];
    [f_equal |]; exact (IH (f ∘ S)).
Qed.

Lemma move_loop_length (w : World) (now : Z) (decisions : list decision)
    (ps : list (nat * nat)) (st st' : move_state) :
  foldl (move_one w now decisions) (Some st) ps = Some st' ->
  length st'.1.1 = length st.1.1.
Proof.
  revert st. induction ps as [| p ps IH]; intros st H.
  - cbn in H. injection H as <-. reflexivity.
  - cbn [foldl] in H.
    destruct (move_one w now decisions (Some st) p) as [st1 |] eqn:E;
      [| rewrite foldl_move_one_None in H; discriminate H].
    rewrite (IH _ H). destruct st as [[ags taken] tm]. unfold move_one in E.
    cbn [mbind option_bind] in E.
    destruct (ags !! p.2) as [a |]; [| discriminate E]. cbn [mbind option_bind] in E.
    destruct (decisions !! p.1) as [d |]; [| discriminate E]. cbn [mbind option_bind] in E.
    destruct (apply_move _ _ _ _ _ _ _ _) as [[s' tm'] |]; [| discriminate E].
    cbn [mbind option_bind] in E. injection E as <-. cbn [fst snd].
    apply length_insert.
Qed.

Lemma resolve_moves_effect (decisions : list decision) (sim sim' : Simulation) :
  Forall (fun a => inside (knobs sim) (state a)) (agents sim) ->
  resolve_moves decisions sim = Some sim' ->
  Forall (fun a => inside (knobs sim) (state a)) (agents sim') /\
  length (agents sim') = length (agents sim) /\
  (forall i a', agents sim' !! i = Some a' ->
     exists a, agents sim !! i = Some a /\
               (a' = a \/ charged (knobs sim) (state a) (state a'))) /\
  knobs sim' = knobs sim /\ food_set sim' = food_set sim /\ tick sim' = tick sim /\
  recent_deaths sim' = recent_deaths sim.
Proof.
  intros Hin. unfold resolve_moves.
  destruct (active_idx (agents sim)) eqn:Hact.
  - intros [= <-]. split; [exact Hin |]. split; [reflexivity |].
    split; [| repeat split].
    intros i a' Ha. exists a'. split; [exact Ha | left; reflexivity].
  - clear Hact. unfold move_loop.
    destruct (foldl _ _ _) as [[[ags taken] tm] |] eqn:Hf; [| discriminate].
    cbn [mbind option_bind]. intros [= <-].
    cbn [agents set_agents set_trace_map knobs food_set tick recent_deaths].
    assert (Hsnd : snd <$> imap (fun i idx : nat => (i, idx)) (active_idx (agents sim))
                   = active_idx (agents sim)).
    { apply (snd_imap_indexed (fun i : nat => i)). }
    assert (Hnd : NoDup (snd <$> imap (fun i idx : nat => (i, idx))
                                   (active_idx (agents sim))))
      by (rewrite Hsnd; apply NoDup_active_idx).
    destruct (move_loop_effect (knobs sim) (tick sim) decisions _
                (agents sim, list_to_set (pos <$> agents sim), ∅) (ags, taken, tm)
                Hnd Hin Hf) as (I & O & C).
    pose proof (move_loop_length _ _ _ _ _ _ Hf) as Hlen.
    cbn [fst snd] in *. rewrite Hsnd in O, C.
    split; [exact I |]. split; [exact Hlen |]. split; [| repeat split].
    intros i a' Ha.
    destruct (decide (i ∈ active_idx (agents sim))) as [Hi | Hi].
    + destruct (C i Hi) as (b & b' & B1 & B2 & _ & B4).
      exists b. split; [exact B1 |]. right. congruence.
    + exists a'. rewrite <- (O i Hi). split; [exact Ha | left; reflexivity].
Qed.

Lemma NoDup_fmap_filter {A B : Type} (f : A -> B) (P : A -> Prop)
    `{forall x, Decision (P x)} (l : list A) :
  NoDup (f <$> l) -> NoDup (f <$> filter P l).
Proof.
  induction l as [| a l IH]; [intros _; constructor |].
  cbn [fmap list_fmap]. rewrite NoDup_cons. intros [Ha Hl].
  rewrite filter_cons. destruct (decide (P a)); [| exact (IH Hl)].
  cbn [fmap list_fmap]. apply NoDup_cons. split; [| exact (IH Hl)].
  intros Hin. apply Ha. apply list_elem_of_fmap in Hin as (b & -> & Hb).
  apply list_elem_of_filter in Hb as [_ Hb].
  apply list_elem_of_fmap. exists b. split; [reflexivity | exact Hb].
Qed.



Lemma stepped_radius (l l' : list Agent) (w : World) (done : list Agent) (F : gset cell) :
  (foldl (eat_step_one w) (done, F) l).1 = done ++ l' ->
  Forall2 (fun a a' => food_radius (state a') = food_radius (state a)) l l'.
Proof.
  revert done F l'. induction l as [| a l IH]; intros done F l' H.
  - cbn [foldl fst] in H.
    rewrite <- (app_nil_r done) in H at 1.
    apply app_inv_head in H. subst l'. constructor.
  - cbn [foldl] in H.
    destruct (eat_step_one_spec w done F a) as (a' & E & _).
    assert (Hr : food_radius (state a') = food_radius (state a)).
    { apply (f_equal fst) in E. unfold eat_step_one in E. cbn [fst snd] in E.
      destruct (alive a).
      - unfold AgentBody.eat in E.
        destruct (bool_decide _) in E; cbn [fst] in E;
          apply app_inv_head in E; injection E as <-;
          cbn [state]; unfold AgentBody.step; cbn zeta;
          repeat (match goal with |- context [if ?c then _ else _] => destruct c end);
          reflexivity.
      - cbn [fst] in E. apply app_inv_head in E. injection E as <-. reflexivity. }
    rewrite E in H.
    destruct (eat_step_loop_spec w l (done ++ [a'])
                (if alive a then F ∖ {[pos a]} else F)) as (l1 & E1 & _).
    pose proof H as H'. rewrite E1 in H'. cbn [fst] in H'.
    rewrite <- app_assoc in H'.
    apply app_inv_head in H'. subst l'. cbn [app]. constructor; [exact Hr |].
    apply (IH (done ++ [a']) (if alive a then F ∖ {[pos a]} else F)).
    rewrite E1. reflexivity.
Qed.

Lemma eat_and_step_spec (sim : Simulation) :
  exists l',
    agents (eat_and_step sim) = l' /\ Forall2 stepped (agents sim) l' /\
    Forall2 (fun a a' => food_radius (state a') = food_radius (state a)) (agents sim) l' /\
    food_set (eat_and_step sim)
    = food_set sim ∖ list_to_set (pos <$> filter (fun a => alive a = true) (agents sim)) /\
    knobs (eat_and_step sim) = knobs sim.
Proof.
  unfold eat_and_step.
  destruct (eat_step_loop_spec (knobs sim) (agents sim) [] (food_set sim)) as (l' & E & Hs).
  pose proof (stepped_radius (agents sim) l' (knobs sim) [] (food_set sim)) as Hr.
  rewrite E in *. cbn [app fst] in *. exists l'.
  cbn [agents food_set knobs set_food_set set_agents].
  split; [reflexivity |]. split; [exact Hs |]. split; [exact (Hr eq_refl) |].
  split; reflexivity.
Qed.

Lemma cleanup_keeps (sim : Simulation) :
  food_set (cleanup sim) = food_set sim /\ knobs (cleanup sim) = knobs sim.
Proof.
  unfold cleanup. cbn zeta. cbn [food_set knobs set_agents].
  destruct (record_deaths_log (dead sim) sim) as (_ & _ & Hk & Hf & _).
  split; assumption.
Qed.

(** X23: a lifecycle step (sensing, moves, eating and ageing, cleanup) in
    a world at least two cells wide and high, on agents that stand inside
    the world with a food radius other than -1, given a decision with an
    action of 0..3 for every agent with positive energy, does not raise.
    Afterwards every agent left stands inside the world, has positive
    energy and stands on no food, and it is one of the agents of before,
    with the id and the food radius it had (so a radius other than -1) and
    one tick older; there are no more agents than before, agents on
    pairwise distinct cells stay on pairwise distinct cells, no food has
    appeared and the knobs are untouched. *)
Theorem lifecycle_keeps_the_population_well_formed
    (decisions : list decision) (sim : Simulation) :
  2 <= world_w (knobs sim) -> 2 <= world_h (knobs sim) ->
  Forall (fun a => inside (knobs sim) (state a) /\ food_radius (state a) <> -1)
    (agents sim) ->
  (length (active_idx (agents sim)) <= length decisions)%nat ->
  Forall (fun d => 0 <= action d < 4) decisions ->
  exists sim',
    lifecycle decisions sim = Some sim' /\
    Forall (fun a => inside (knobs sim) (state a) /\ food_radius (state a) <> -1 /\
                     alive a = true /\ (pos a ∉ food_set sim') /\
                     exists b, b ∈ agents sim /\ aged_survivor b a) (agents sim') /\
    (length (agents sim') <= length (agents sim))%nat /\
    (NoDup (pos <$> agents sim) -> NoDup (pos <$> agents sim')) /\
    food_set sim' ⊆ food_set sim /\ knobs sim' = knobs sim.
Proof.
  intros Hw Hh Hall Hlen Hdec.
  assert (Hr : Forall (fun a => food_radius (state a) <> -1) (agents sim))
    by (eapply Forall_impl; [exact Hall |]; cbn beta; tauto).
  destruct (sense_all_spec sim Hw Hh Hr) as (ags & Es & Hst).
  assert (Hall0 : Forall (fun a => inside (knobs sim) (state a) /\
                                  food_radius (state a) <> -1) ags).
  { clear -Hst Hall. induction Hst as [| a a' l l' Ha _ IH]; [constructor |].
    apply Forall_cons in Hall as [H1 H2]. constructor; [rewrite Ha; exact H1 | exact (IH H2)]. }
  assert (Hpos0 : pos <$> ags = pos <$> agents sim).
  { clear -Hst. induction Hst as [| a a' l l' Ha _ IH]; [reflexivity |].
    cbn [fmap list_fmap]. f_equal; [unfold pos; rewrite Ha; reflexivity | exact IH]. }
  pose proof (active_idx_same_states _ _ Hst) as Hact.
  pose proof (Forall2_length _ _ _ Hst) as Hlen0.
  set (sim0 := set_agents ags sim) in *.
  assert (Hin0 : Forall (fun a => inside (knobs sim0) (state a)) (agents sim0))
    by (eapply Forall_impl; [exact Hall0 |]; cbn beta; tauto).
  destruct (resolve_moves_total decisions sim0) as [sim1 E1].
  { cbn [agents sim0 set_agents]. rewrite Hact. exact Hlen. }
  { exact Hdec. }
  destruct (resolve_moves_effect decisions sim0 sim1 Hin0 E1)
    as (Hin1 & Hlen1 & Hidx & Hk1 & Hf1 & _).
  change (knobs sim0) with (knobs sim) in *. change (food_set sim0) with (food_set sim) in *.
  change (agents sim0) with ags in *.
  assert (Hr1 : Forall (fun a => food_radius (state a) <> -1) (agents sim1)).
  { apply Forall_lookup. intros i a' Ha'.
    destruct (Hidx i a' Ha') as (a & Ha & Hcase).
    pose proof (proj1 (Forall_lookup _ _) Hall0 i a Ha) as [_ Hra].
    destruct Hcase as [-> | Hc]; [exact Hra |].
    unfold charged in Hc. destruct Hc as (_ & _ & _ & _ & Hfr & _). rewrite Hfr. exact Hra. }
  destruct (eat_and_step_spec sim1) as (l2 & E2 & Hs2 & Hr2 & Hfood2 & Hk2).
  destruct (cleanup_keeps (eat_and_step sim1)) as [Hf3 Hk3].
  exists (cleanup (eat_and_step sim1)).
  split.
  { unfold lifecycle, before_cleanup. rewrite Es. cbn [mbind option_bind].
    fold sim0. rewrite E1. reflexivity. }
  rewrite cleanup_agents, E2, Hf3, Hfood2, Hk3, Hk2, Hk1, Hf1.
  split; [| split; [| split; [| split; [| reflexivity]]]].
  - apply Forall_forall. intros a' Ha'.
    apply list_elem_of_filter in Ha' as [Hal' Ha'].
    apply list_elem_of_lookup in Ha' as [i Hi].
    destruct (Forall2_lookup_r _ _ _ _ _ Hs2 Hi) as (a & Ha & Hst2).
    destruct (Forall2_lookup_r _ _ _ _ _ Hr2 Hi) as (b & Hb & Hrad).
    assert (b = a) by congruence. subst b.
    unfold stepped in Hst2. destruct (alive a) eqn:Hal.
    2:{ subst a'. congruence. }
    destruct Hst2 as (Hp & Hage & _ & Hid & _).
    pose proof (proj1 (Forall_lookup _ _) Hin1 i a Ha) as Hia.
    pose proof (proj1 (Forall_lookup _ _) Hr1 i a Ha) as Hra.
    cbn beta in Hia, Hra.
    split.
    { unfold inside, pos in *. injection Hp as -> ->. exact Hia. }
    split; [rewrite Hrad; exact Hra |]. split; [exact Hal' |].
    split.
    { rewrite Hp. intros Hin. apply elem_of_difference in Hin as [_ Hn]. apply Hn.
      apply elem_of_list_to_set. apply list_elem_of_fmap. exists a.
      split; [reflexivity |]. apply list_elem_of_filter. split; [exact Hal |].
      apply list_elem_of_lookup_2 in Ha. exact Ha. }
    destruct (Hidx i a Ha) as (a0 & Ha0 & Hcase).
    destruct (Forall2_lookup_r _ _ _ _ _ Hst Ha0) as (b0 & Hb0 & Hsb).
    exists b0. split; [apply list_elem_of_lookup_2 in Hb0; exact Hb0 |].
    assert (Hmove : id (state a) = id (state a0) /\
                    food_radius (state a) = food_radius (state a0) /\
                    age (state a) = age (state a0)).
    { destruct Hcase as [-> | Hc]; [repeat split |].
      unfold charged in Hc. tauto. }
    cbn beta in Hsb. unfold aged_survivor. rewrite <- Hsb.
    destruct Hmove as (M1 & M2 & M3). rewrite Hid, Hrad, Hage, M1, M2, M3.
    repeat split.
  - pose proof (length_filter (fun a => alive a = true) l2) as L.
    pose proof (Forall2_length _ _ _ Hs2) as L2. lia.
  - intros Hnd. apply NoDup_fmap_filter.
    rewrite (stepped_pos _ _ Hs2).
    apply (resolve_moves_distinct decisions sim0 sim1); [| exact E1].
    cbn [agents sim0 set_agents]. rewrite Hpos0. exact Hnd.
  - intros c Hc. apply elem_of_difference in Hc as [Hc _]. exact Hc.
Qed.

Lemma lifecycle_keeps_the_population_well_formed_witness :
  exists sim',
    lifecycle [go 3; go 2] two_neighbours = Some sim' /\
    NoDup (pos <$> agents sim').
Proof.
  destruct (lifecycle_keeps_the_population_well_formed [go 3; go 2] two_neighbours)
    as (sim' & E & _ & _ & Hnd & _).
  - vm_compute. discriminate.
  - vm_compute. discriminate.
  - repeat constructor; vm_compute; congruence.
  - vm_compute. lia.
  - repeat constructor; vm_compute; congruence.
  - exists sim'. split; [exact E |]. apply Hnd.
    vm_compute. repeat constructor; rewrite ?elem_of_cons, ?elem_of_nil;
      intros H; repeat destruct H as [H | H]; try discriminate H; exact H.
Defined.

(** ** [hard_cull]: how many agents are left alive *)

Lemma filter_none {A : Type} (P : A -> Prop) `{!forall a, Decision (P a)} (l : list A) :
  Forall (fun a => ~ P a) l -> filter P l = [].
Proof.
  induction 1 as [| a l Ha _ IH]; [reflexivity |].
  rewrite filter_cons. destruct (decide (P a)); [contradiction | exact IH].
Qed.

Lemma filter_all {A : Type} (P : A -> Prop) `{!forall a, Decision (P a)} (l : list A) :
  Forall P l -> filter P l = l.
Proof.
  induction 1 as [| a l Ha _ IH]; [reflexivity |].
  rewrite filter_cons. destruct (decide (P a)); [f_equal; exact IH | contradiction].
Qed.

Lemma imap_indexed_fmap {A B : Type} (f : nat -> A -> B) (g : nat -> nat) (l : list A) :
  imap (fun i a => f (g i) a) l
  = (fun ia : nat * A => f ia.1 ia.2) <$> imap (fun i a => (g i, a)) l.
Proof.
  revert g. induction l as [| a l IH]; intros g; [reflexivity |].
  cbn [imap fmap list_fmap fst snd]. f_equal. exact (IH (g ∘ S)).
Qed.

Lemma cull_agents_alive (count : Z) (sim : Simulation) :
  0 < count -> Forall (fun a => alive a = true) (agents sim) ->
  length (filter (fun a => alive a = true) (agents (cull_agents count sim)))
  = (length (agents sim) - Z.to_nat count)%nat /\
  Forall (fun a => alive a = true \/
                   (energy (state a) = (-1)%Q /\ death_reason (state a) = PyStr "cull"))
    (agents (cull_agents count sim)).
Proof.
  intros Hc Hal. unfold cull_agents. apply Z.leb_gt in Hc. rewrite Hc. clear Hc.
  cbn zeta. cbn [agents set_agents].
  set (indexed := imap (fun i a => (i, a)) (agents sim)).
  set (key := fun ia : nat * Agent => - age (state ia.2)).
  set (sorted := sorted_by key indexed).
  set (k := Z.to_nat count).
  set (kill := map fst (take k sorted)).
  set (G := fun ia : nat * Agent =>
              if bool_decide (ia.1 ∈ kill)
              then with_state (fun s => set_death_reason (PyStr "cull") (set_energy (-1) s)) ia.2
              else ia.2).
  assert (Eimap : imap (fun i a =>
                          if bool_decide (i ∈ kill)
                          then with_state (fun s => set_death_reason (PyStr "cull")
                                                      (set_energy (-1) s)) a
                          else a) (agents sim)
                  = G <$> indexed).
  { exact (imap_indexed_fmap
             (fun i a => if bool_decide (i ∈ kill)
                         then with_state (fun s => set_death_reason (PyStr "cull")
                                                     (set_energy (-1) s)) a
                         else a) (fun i => i) (agents sim)). }
  rewrite Eimap.
  assert (Hperm : sorted ≡ₚ indexed) by apply sorted_by_perm.
  assert (Hidx : fst <$> indexed = seq 0 (length (agents sim)))
    by apply (fst_imap_indexed (agents sim) 0).
  assert (Hnd : NoDup (fst <$> sorted)) by (rewrite Hperm, Hidx; apply NoDup_seq).
  assert (Hsplit : sorted = take k sorted ++ drop k sorted)
    by (symmetry; apply take_drop).
  assert (Hin : forall ia, ia ∈ sorted -> alive ia.2 = true).
  { intros [i a] Hia. rewrite Hperm in Hia. apply elem_of_imap_indexed in Hia.
    apply list_elem_of_lookup_2 in Hia. exact (proj1 (Forall_forall _ _) Hal a Hia). }
  assert (Hdead : Forall (fun a => ~ alive a = true) (G <$> take k sorted)).
  { apply Forall_fmap, Forall_forall. intros ia Hia. cbn [compose]. unfold G.
    rewrite bool_decide_eq_true_2; [unfold alive; cbn; discriminate |].
    apply list_elem_of_fmap. exists ia. split; [reflexivity | exact Hia]. }
  assert (Hkeep : forall ia, ia ∈ drop k sorted -> G ia = ia.2).
  { intros ia Hia. unfold G. rewrite bool_decide_eq_false_2; [reflexivity |].
    intros Hk. rewrite Hsplit, fmap_app in Hnd. apply NoDup_app in Hnd as (_ & Hd & _).
    apply (Hd ia.1 Hk). apply list_elem_of_fmap. exists ia. split; [reflexivity | exact Hia]. }
  assert (Hlive : Forall (fun a => alive a = true) (G <$> drop k sorted)).
  { apply Forall_fmap, Forall_forall. intros ia Hia. cbn [compose].
    rewrite (Hkeep ia Hia). apply Hin. rewrite Hsplit. apply elem_of_app. right. exact Hia. }
  assert (HpermG : G <$> indexed ≡ₚ (G <$> take k sorted) ++ (G <$> drop k sorted)).
  { rewrite <- fmap_app, <- Hsplit, Hperm. reflexivity. }
  split.
  - rewrite HpermG, filter_app, (filter_none _ _ Hdead), (filter_all _ _ Hlive).
    cbn [app]. rewrite length_fmap, length_drop, Hperm. unfold indexed.
    rewrite length_imap. reflexivity.
  - rewrite HpermG. apply Forall_app. split.
    + apply Forall_fmap, Forall_forall. intros ia Hia. cbn [compose]. right. unfold G.
      rewrite bool_decide_eq_true_2; [split; reflexivity |].
      apply list_elem_of_fmap. exists ia. split; [reflexivity | exact Hia].
    + eapply Forall_impl; [exact Hlive |]. cbn beta. tauto.
Qed.

Lemma py_int_scale (n : Z) : 0 <= n -> n <= py_int (inject_Z n * (13 # 10)).
Proof.
  intros Hn. unfold py_int, Qmult, inject_Z. cbn [Qnum Qden Pos.mul].
  change (Z.pos (1 * 10)) with 10.
  rewrite Z.quot_div_nonneg by lia. Z.to_euclidean_division_equations. lia.
Qed.

(** X24: [hard_cull] does nothing up to [int(MAX_POP * 1.3)] agents. Past
    that, on agents that all have positive energy, it leaves exactly
    [MAX_POP] of them with positive energy; the others are marked with
    energy -1 and the death cause "cull", and stay in the list, so the
    population read by the rest of [balance] is unchanged and the soft
    control that follows fires on the same call: the move cost goes up by
    0.05, capped at [MOVE_MAX], and the food count down by 50, not below
    [FOOD_MIN]. *)
Theorem hard_cull_leaves_max_pop_alive (sim : Simulation) :
  0 <= MAX_POP (knobs sim) ->
  Forall (fun a => alive a = true) (agents sim) ->
  (population sim <= py_int (inject_Z (MAX_POP (knobs sim)) * (13 # 10)) ->
   hard_cull sim = sim) /\
  (py_int (inject_Z (MAX_POP (knobs sim)) * (13 # 10)) < population sim ->
   Z.of_nat (length (filter (fun a => alive a = true) (agents (hard_cull sim))))
   = MAX_POP (knobs sim) /\
   Forall (fun a => alive a = true \/
                    (energy (state a) = (-1)%Q /\ death_reason (state a) = PyStr "cull"))
     (agents (hard_cull sim)) /\
   population (hard_cull sim) = population sim /\
   MOVE_COST (knobs (pop_control (hard_cull sim)))
   = py_min (MOVE_COST (knobs sim) + (5 # 100)) MOVE_MAX /\
   FOOD_COUNT (knobs (pop_control (hard_cull sim)))
   = Z.max (FOOD_COUNT (knobs sim) - 50) FOOD_MIN).
Proof.
  intros Hm Hal. pose proof (py_int_scale _ Hm) as Hs. split.
  - intros H. unfold hard_cull. apply Z.ltb_ge in H. rewrite H. reflexivity.
  - intros H.
    assert (Hc : 0 < population sim - MAX_POP (knobs sim)) by lia.
    destruct (cull_agents_alive _ sim Hc Hal) as [Hcount Hmark].
    pose proof (hard_cull_population sim) as Hpop.
    pose proof (hard_cull_knobs sim) as Hk.
    assert (E : hard_cull sim = cull_agents (population sim - MAX_POP (knobs sim)) sim).
    { unfold hard_cull. apply Z.ltb_lt in H. rewrite H. reflexivity. }
    split; [| split; [| split]].
    + rewrite E, Hcount. unfold population in *. lia.
    + rewrite E. exact Hmark.
    + exact Hpop.
    + unfold pop_control. cbn zeta. rewrite Hpop, Hk.
      assert (Hlt : (MAX_POP (knobs sim) <? population sim) = true)
        by (apply Z.ltb_lt; lia).
      rewrite Hlt. split; reflexivity.
Qed.

Lemma hard_cull_leaves_max_pop_alive_witness :
  let sim := set_knobs (mkWorld 107 82 15 600 1 (6 # 10) 1)
               (simulation_with [agent_at 1 1 45; agent_at 2 2 45; agent_at 3 3 45] ∅) in
  Z.of_nat (length (filter (fun a => alive a = true) (agents (hard_cull sim)))) = 1.
Proof.
  intros sim.
  destruct (hard_cull_leaves_max_pop_alive sim) as [_ H].
  - vm_compute. discriminate.
  - repeat constructor.
  - destruct H as (H1 & _); [vm_compute; reflexivity | exact H1].
Defined.

(** ** The soft control and the recovery of [balance] *)

(** X25: on knobs within their ranges the soft control only tightens (the
    move cost does not go down, the food count does not go up) and the
    recovery only relaxes (the move cost does not go up, the food count
    does not go down); the two never act in the same call, and with a
    population between [MIN_POP] and [MAX_POP] neither acts. *)
Theorem soft_control_and_recovery_are_opposed (sim : Simulation) :
  legal (knobs sim) ->
  (MOVE_COST (knobs sim) <= MOVE_COST (knobs (pop_control sim)))%Q /\
  FOOD_COUNT (knobs (pop_control sim)) <= FOOD_COUNT (knobs sim) /\
  (MOVE_COST (knobs (pop_recovery sim)) <= MOVE_COST (knobs sim))%Q /\
  FOOD_COUNT (knobs sim) <= FOOD_COUNT (knobs (pop_recovery sim)) /\
  (pop_control sim = sim \/ pop_recovery (pop_control sim) = pop_control sim) /\
  (MIN_POP <= population sim <= MAX_POP (knobs sim) ->
   pop_recovery (pop_control sim) = sim).
Proof.
  intros (_ & Hf & Hm & Hp & _).
  assert (Hc : MAX_POP (knobs sim) < population sim \/ pop_control sim = sim).
  { unfold pop_control. cbn zeta. destruct (_ <? _) eqn:E; [left | right; reflexivity].
    apply Z.ltb_lt in E. exact E. }
  assert (Hr : forall s, population s < MIN_POP \/ pop_recovery s = s).
  { intros s. unfold pop_recovery. cbn zeta.
    destruct (_ <? _) eqn:E; [left | right; reflexivity].
    apply Z.ltb_lt in E. exact E. }
  split; [| split; [| split; [| split; [| split]]]].
  - unfold pop_control. cbn zeta. destruct (_ <? _); [| apply Qle_refl].
    cbn [knobs apply_resource_limits set_knobs MOVE_COST move_cost].
    unfold py_min, MOVE_MAX. destruct (Qltb _ _) eqn:E; [lra |].
    apply Qltb_ge in E. lra.
  - unfold pop_control. cbn zeta. destruct (_ <? _); [| lia].
    cbn [knobs apply_resource_limits set_knobs FOOD_COUNT food_count].
    unfold FOOD_MIN. lia.
  - unfold pop_recovery. cbn zeta. destruct (_ <? _); [| apply Qle_refl].
    cbn [knobs apply_resource_limits set_knobs MOVE_COST move_cost].
    unfold py_max, MOVE_MIN. destruct (Qltb _ _) eqn:E; [lra |].
    apply Qltb_ge in E. lra.
  - unfold pop_recovery. cbn zeta. destruct (_ <? _); [| lia].
    cbn [knobs apply_resource_limits set_knobs FOOD_COUNT food_count].
    unfold FOOD_MAX. lia.
  - destruct Hc as [Hc | Hc]; [| left; exact Hc]. right.
    destruct (Hr (pop_control sim)) as [H | H]; [| exact H].
    destruct (pop_control_fixed sim) as (_ & _ & Hpop & _).
    rewrite Hpop in H. unfold MIN_POP in H. lia.
  - intros [H1 H2].
    destruct Hc as [Hc | Hc]; [lia |]. rewrite Hc.
    destruct (Hr sim) as [H | H]; [lia | exact H].
Qed.

Lemma soft_control_and_recovery_are_opposed_witness :
  FOOD_COUNT (knobs (pop_control (simulation_with [agent_at 5 5 45] ∅))) <= 600.
Proof.
  destruct (soft_control_and_recovery_are_opposed (simulation_with [agent_at 5 5 45] ∅))
    as (_ & H & _); [| exact H].
  unfold legal. cbn. repeat split; try lia; try discriminate.
Defined.

(** ** What a run keeps: the death log, the crowd average, the counter *)

Lemma apply_move_reason (w : World) (s s' : AgentState) (a : Z)
    (h c : list Q) (taken : gset cell) (tm tm' : gmap cell Z) (now : Z) :
  apply_move w s a h c taken tm now = Some (s', tm') ->
  death_reason s' = death_reason s.
Proof.
  unfold apply_move. destruct (_decode_action a) as [[dx dy] |]; [| discriminate].
  cbn zeta. destruct (_ || _); intros [= <- _]; reflexivity.
Qed.

Lemma move_one_reasons (w : World) (now : Z) (decisions : list decision)
    (st st' : move_state) (p : nat * nat) :
  Forall (fun a => written (reason a)) st.1.1 ->
  move_one w now decisions (Some st) p = Some st' ->
  Forall (fun a => written (reason a)) st'.1.1.
Proof.
  destruct st as [[ags taken] tm]. cbn [fst]. intros Hall E.
  unfold move_one in E. cbn [mbind option_bind] in E.
  destruct (ags !! p.2) as [a |] eqn:Ea; [| discriminate E]. cbn [mbind option_bind] in E.
  destruct (decisions !! p.1) as [d |]; [| discriminate E]. cbn [mbind option_bind] in E.
  destruct (apply_move _ _ _ _ _ _ _ _) as [[s' tm'] |] eqn:Em; [| discriminate E].
  cbn [mbind option_bind] in E. injection E as <-. cbn [fst].
  apply Forall_insert; [exact Hall |].
  unfold reason. cbn [state]. rewrite (apply_move_reason _ _ _ _ _ _ _ _ _ _ Em).
  exact (proj1 (Forall_lookup _ _) Hall _ _ Ea).
Qed.

Lemma move_fold_reasons (w : World) (now : Z) (decisions : list decision)
    (ps : list (nat * nat)) (st st' : move_state) :
  Forall (fun a => written (reason a)) st.1.1 ->
  foldl (move_one w now decisions) (Some st) ps = Some st' ->
  Forall (fun a => written (reason a)) st'.1.1.
Proof.
  revert st. induction ps as [| p ps IH]; intros st Hall H.
  - cbn in H. injection H as <-. exact Hall.
  - cbn [foldl] in H.
    destruct (move_one w now decisions (Some st) p) as [st1 |] eqn:E;
      [| rewrite foldl_move_one_None in H; discriminate H].
    apply (IH st1); [| exact H]. exact (move_one_reasons _ _ _ _ _ _ Hall E).
Qed.

Lemma resolve_moves_run (decisions : list decision) (sim sim' : Simulation) :
  resolve_moves decisions sim = Some sim' ->
  Forall (fun a => written (reason a)) (agents sim) ->
  Forall (fun a => written (reason a)) (agents sim') /\
  controller sim' = controller sim /\ recent_deaths sim' = recent_deaths sim.
Proof.
  unfold resolve_moves. destruct (active_idx (agents sim)).
  - intros [= <-] H. split; [exact H |]. split; reflexivity.
  - unfold move_loop.
    destruct (foldl _ _ _) as [[[ags taken] tm] |] eqn:Hf; [| discriminate].
    cbn [mbind option_bind]. intros [= <-] H.
    split; [| split; reflexivity].
    cbn [agents set_agents set_trace_map].
    exact (move_fold_reasons _ _ _ _ (agents sim, list_to_set (pos <$> agents sim), ∅)
             (ags, taken, tm) H Hf).
Qed.

Lemma step_reason (w : World) (sn : Senses) (s : AgentState) :
  written (death_reason s) -> written (death_reason (step w sn s)).
Proof.
  intros H. unfold step. cbn zeta.
  repeat (match goal with |- context [if ?c then _ else _] => destruct c end);
    cbn [death_reason set_energy set_death_reason set_age];
    first [exact H | right; eexists; reflexivity].
Qed.

Lemma eat_step_one_reasons (w : World) (acc : list Agent * gset cell) (a : Agent) :
  Forall (fun a => written (reason a)) acc.1 -> written (reason a) ->
  Forall (fun a => written (reason a)) (eat_step_one w acc a).1.
Proof.
  intros Hacc Ha. unfold eat_step_one. destruct (alive a).
  - unfold AgentBody.eat. cbn zeta.
    destruct (bool_decide _); cbn [fst snd]; apply Forall_app; (split; [exact Hacc |]);
      apply Forall_singleton; unfold reason; cbn [state]; apply step_reason; exact Ha.
  - cbn [fst]. apply Forall_app. split; [exact Hacc |]. apply Forall_singleton. exact Ha.
Qed.

Lemma eat_step_fold_reasons (w : World) (l : list Agent) (acc : list Agent * gset cell) :
  Forall (fun a => written (reason a)) acc.1 ->
  Forall (fun a => written (reason a)) l ->
  Forall (fun a => written (reason a)) (foldl (eat_step_one w) acc l).1.
Proof.
  revert acc. induction l as [| a l IH]; intros acc Hacc Hl; [exact Hacc |].
  apply Forall_cons in Hl as [Ha Hl]. cbn [foldl].
  apply IH; [apply eat_step_one_reasons; assumption | exact Hl].
Qed.

Lemma eat_and_step_run (sim : Simulation) :
  Forall (fun a => written (reason a)) (agents sim) ->
  Forall (fun a => written (reason a)) (agents (eat_and_step sim)) /\
  controller (eat_and_step sim) = controller sim /\
  recent_deaths (eat_and_step sim) = recent_deaths sim.
Proof.
  intros H. unfold eat_and_step.
  pose proof (eat_step_fold_reasons (knobs sim) (agents sim) ([], food_set sim)
                (Forall_nil_2 _) H) as Hf.
  destruct (foldl _ _ _) as [ags food']. cbn [fst] in Hf.
  split; [exact Hf |]. split; reflexivity.
Qed.

Lemma record_deaths_controller (l : list Agent) (sim : Simulation) :
  controller (foldl record_death sim l) = controller sim.
Proof.
  revert sim. induction l as [| a l IH]; intros sim; [reflexivity |].
  cbn [foldl]. rewrite IH. reflexivity.
Qed.

Lemma deque_appends_written (n : nat) (rs log : list pyval) :
  written_log log -> Forall written rs ->
  written_log (foldl (deque_append n) log rs).
Proof.
  revert log. induction rs as [| r rs IH]; intros log Hlog Hrs; [exact Hlog |].
  apply Forall_cons in Hrs as [Hr Hrs]. cbn [foldl]. apply IH; [| exact Hrs].
  unfold deque_append, written_log. cbn zeta. apply Forall_drop, Forall_app.
  split; [exact Hlog |]. apply Forall_singleton. exact Hr.
Qed.

Lemma cleanup_run (sim : Simulation) :
  written_log (recent_deaths sim) ->
  Forall (fun a => written (reason a)) (agents sim) ->
  written_log (recent_deaths (cleanup sim)) /\
  Forall (fun a => written (reason a)) (agents (cleanup sim)) /\
  controller (cleanup sim) = controller sim.
Proof.
  intros Hlog Hall.
  destruct (record_deaths_log (dead sim) sim) as (Hrd & Hag & _).
  split; [| split].
  - unfold cleanup. cbn zeta. cbn [recent_deaths set_agents]. rewrite Hrd.
    apply deque_appends_written; [exact Hlog |].
    apply Forall_fmap, Forall_forall. intros a Ha. cbn [compose].
    unfold dead in Ha. apply list_elem_of_filter in Ha as [_ Ha].
    exact (proj1 (Forall_forall _ _) Hall a Ha).
  - rewrite cleanup_agents. apply Forall_forall. intros a Ha.
    apply list_elem_of_filter in Ha as [_ Ha].
    exact (proj1 (Forall_forall _ _) Hall a Ha).
  - unfold cleanup. cbn zeta.
    change (controller (set_agents ?l ?s)) with (controller s).
    apply record_deaths_controller.
Qed.

Lemma lifecycle_run (decisions : list decision) (sim sim' : Simulation) :
  lifecycle decisions sim = Some sim' -> run_state sim -> run_state sim'.
Proof.
  unfold lifecycle, before_cleanup. intros E (Hlog & Hall & Hema & Ht).
  destruct (sense_all sim) as [ags |] eqn:Es; [| discriminate E].
  cbn [mbind option_bind] in E.
  destruct (resolve_moves decisions (set_agents ags sim)) as [sim1 |] eqn:E1;
    [| discriminate E].
  cbn [mbind option_bind fmap option_fmap option_map] in E. injection E as <-.
  assert (Hall0 : Forall (fun a => written (reason a)) ags).
  { unfold sense_all in Es. cbn zeta in Es. apply mapM_Some in Es.
    apply Forall_lookup. intros i a' Hi.
    destruct (Forall2_lookup_r _ _ _ _ _ Es Hi) as (a & Ha & Hup).
    cbn beta in Hup.
    destruct (AgentSenses.update _ _ _ _ _); [| discriminate Hup].
    cbn in Hup. injection Hup as <-.
    exact (proj1 (Forall_lookup _ _) Hall i a Ha). }
  destruct (resolve_moves_run _ _ _ E1 Hall0) as (Hall1 & Hc1 & Hl1).
  destruct (eat_and_step_run sim1 Hall1) as (Hall2 & Hc2 & Hl2).
  assert (Hlog2 : written_log (recent_deaths (eat_and_step sim1)))
    by (rewrite Hl2, Hl1; exact Hlog).
  destruct (cleanup_run _ Hlog2 Hall2) as (Hlog3 & Hall3 & Hc3).
  assert (Hc : controller (cleanup (eat_and_step sim1)) = controller sim)
    by (rewrite Hc3, Hc2, Hc1; reflexivity).
  assert (Hce : ema_crowd (cleanup (eat_and_step sim1)) = ema_crowd sim)
    by exact (f_equal (fun c : Q * Q * Q * Z => c.1.1.1) Hc).
  assert (Hct : _deadlock_ticks (cleanup (eat_and_step sim1)) = _deadlock_ticks sim)
    by exact (f_equal snd Hc).
  split; [exact Hlog3 |]. split; [exact Hall3 |].
  split; [rewrite Hce; exact Hema | rewrite Hct; exact Ht].
Qed.

Lemma reproduce_one_reasons (w : World) (food : gset cell) (st : repro_state)
    (a : Agent) (d : nat * repro_draws) :
  Forall (fun a => written (reason a)) (parents st ++ new_agents st) ->
  written (reason a) ->
  Forall (fun a => written (reason a))
    (parents (reproduce_one w food st a d) ++ new_agents (reproduce_one w food st a d)).
Proof.
  intros Hst Ha. apply Forall_app in Hst as [Hp Hn]. unfold reproduce_one.
  destruct (negb (can_reproduce (state a))).
  { cbn [parents new_agents]. rewrite !Forall_app. repeat split; try assumption.
    apply Forall_singleton. exact Ha. }
  destruct (choice _ _) as [[nx ny] |].
  2:{ cbn [parents new_agents]. rewrite !Forall_app. repeat split; try assumption.
      apply Forall_singleton. exact Ha. }
  unfold reproduce. destruct (color (state a)) as [[r g] b].
  destruct (d_color d.2) as [[dr dg] db].
  cbn [parents new_agents]. rewrite !Forall_app. repeat split; try assumption.
  - apply Forall_singleton. exact Ha.
  - apply Forall_singleton. left. reflexivity.
Qed.

Lemma reproduction_run (draws : nat -> nat * repro_draws) (sim : Simulation) :
  run_state sim -> run_state (reproduction draws sim).
Proof.
  intros (Hlog & Hall & Hema & Ht). unfold reproduction, reproduce_loop. cbn zeta.
  split; [exact Hlog |]. split; [| split; assumption].
  cbn [agents set_agents].
  assert (G : forall (ias : list (nat * Agent)) st,
             Forall (fun ia : nat * Agent => written (reason ia.2)) ias ->
             Forall (fun a => written (reason a)) (parents st ++ new_agents st) ->
             Forall (fun a => written (reason a))
               (parents (foldl (fun st ia => reproduce_one (knobs sim) (food_set sim) st
                                               ia.2 (draws ia.1)) st ias)
                ++ new_agents (foldl (fun st ia => reproduce_one (knobs sim) (food_set sim) st
                                                     ia.2 (draws ia.1)) st ias))).
  { induction ias as [| [i a] ias IH]; intros st Hias Hst; [exact Hst |].
    apply Forall_cons in Hias as [Ha Hias]. cbn [foldl]. apply IH; [exact Hias |].
    apply reproduce_one_reasons; assumption. }
  apply G; [| constructor].
  apply Forall_forall. intros [i a] Hia. cbn [snd].
  apply elem_of_imap_indexed in Hia. apply list_elem_of_lookup_2 in Hia.
  exact (proj1 (Forall_forall _ _) Hall a Hia).
Qed.

Lemma start_of_tick_run (idx idx' : nat) (draws : nat -> Z * Z) (sim sim' : Simulation) :
  start_of_tick idx draws sim = Some (idx', sim') -> run_state sim -> run_state sim'.
Proof.
  unfold start_of_tick, rotate_zone, _spawn_food. intros E H.
  destruct (tick sim mod 1000 =? 0);
    destruct (_current_food_zone _ _) as [zone |]; try discriminate E;
    cbn [mbind option_bind] in E;
    destruct (spawn_food _ _ _ _ _) as [food' |]; try discriminate E;
    cbn [mbind option_bind] in E; injection E as _ <-; exact H.
Qed.

Lemma running_call_of_a_run (sim : Simulation) :
  written_log (recent_deaths sim) -> (0 <= ema_crowd sim <= 96 # 100)%Q ->
  deadlock_condition sim = false /\
  (ema_crowd (update_ema sim) == (97 # 100) * ema_crowd sim)%Q.
Proof.
  intros Hlog [H0 H1].
  pose proof (crowd_count_strings _ Hlog) as Hzero.
  assert (Hema : (ema_crowd (update_ema sim) == (97 # 100) * ema_crowd sim)%Q).
  { cbn [ema_crowd update_ema set_emas]. unfold ema_step, current_crowd_ratio.
    rewrite Hzero. unfold dynamic_alpha.
    assert (Hz : (inject_Z 0 / inject_Z (total (recent_deaths sim)) == 0)%Q)
      by (unfold Qdiv; apply Qmult_0_l).
    rewrite Hz. ring. }
  split; [| exact Hema].
  unfold deadlock_condition, is_deadlocked.
  rewrite !andb_false_iff. right. apply Qltb_ge. rewrite Hema. lra.
Qed.

Lemma cull_agents_reasons (count : Z) (sim : Simulation) :
  Forall (fun a => written (reason a)) (agents sim) ->
  Forall (fun a => written (reason a)) (agents (cull_agents count sim)).
Proof.
  intros H. unfold cull_agents. destruct (count <=? 0); [exact H |].
  cbn zeta. cbn [agents set_agents]. apply Forall_lookup. intros i a' Hi.
  rewrite list_lookup_imap in Hi. destruct (agents sim !! i) as [a |] eqn:Ea; [| discriminate Hi].
  cbn in Hi. injection Hi as <-.
  destruct (bool_decide _); [right; eexists; reflexivity |].
  exact (proj1 (Forall_lookup _ _) H i a Ea).
Qed.

Lemma balance_run (raw_n raw_f : Z) (sim : Simulation) :
  run_state sim -> run_state (balance raw_n raw_f sim).
Proof.
  intros (Hlog & Hall & Hema & Ht).
  destruct (insufficient_data sim) eqn:Hg.
  { unfold balance. rewrite Hg. repeat split; try assumption; apply Hema. }
  destruct (running_call_of_a_run sim Hlog Hema) as [Hd Hup].
  pose proof (balance_controller raw_n raw_f sim Hg) as Hc.
  unfold controller in Hc. injection Hc as Hce _ _ Hct.
  rewrite adjust_ticks, Hd in Hct. rewrite adjust_crowd_average, Hd in Hce.
  cbn [andb] in Hce.
  assert (Hrest : recent_deaths (balance raw_n raw_f sim) = recent_deaths sim /\
                  Forall (fun a => written (reason a)) (agents (balance raw_n raw_f sim))).
  { unfold balance. rewrite Hg.
    assert (Ha : recent_deaths (adjust raw_n raw_f sim) = recent_deaths sim /\
                 agents (adjust raw_n raw_f sim) = agents sim).
    { unfold adjust. cbn zeta. destruct (DEADLOCK_LIMIT <=? _); split; reflexivity. }
    destruct Ha as [Ha1 Ha2].
    set (s1 := adjust raw_n raw_f sim) in *.
    assert (Hh : recent_deaths (hard_cull s1) = recent_deaths s1 /\
                 Forall (fun a => written (reason a)) (agents (hard_cull s1))).
    { unfold hard_cull. destruct (_ <? _).
      - split; [unfold cull_agents; destruct (_ <=? 0); reflexivity |].
        apply cull_agents_reasons. rewrite Ha2. exact Hall.
      - split; [reflexivity | rewrite Ha2; exact Hall]. }
    destruct Hh as [Hh1 Hh2].
    set (s2 := hard_cull s1) in *.
    assert (Hp : recent_deaths (pop_control s2) = recent_deaths s2 /\
                 agents (pop_control s2) = agents s2).
    { unfold pop_control. cbn zeta. destruct (_ <? _); split; reflexivity. }
    destruct Hp as [Hp1 Hp2].
    set (s3 := pop_control s2) in *.
    assert (Hq : recent_deaths (pop_recovery s3) = recent_deaths s3 /\
                 agents (pop_recovery s3) = agents s3).
    { unfold pop_recovery. cbn zeta. destruct (_ <? _); split; reflexivity. }
    destruct Hq as [Hq1 Hq2].
    split; [rewrite Hq1, Hp1, Hh1, Ha1; reflexivity | rewrite Hq2, Hp2; exact Hh2]. }
  destruct Hrest as [Hr1 Hr2].
  split; [rewrite Hr1; exact Hlog |]. split; [exact Hr2 |].
  split; [| exact Hct].
  rewrite Hce. fold (ema_step (ema_crowd sim) (current_crowd_ratio (recent_deaths sim))).
  change (ema_step (ema_crowd sim) (current_crowd_ratio (recent_deaths sim)))
    with (ema_crowd (update_ema sim)).
  rewrite Hup. destruct Hema as [H0 H1]. split; lra.
Qed.

(** A run starts in such a state, and every phase of a tick keeps it: the
    food of the start of the tick, the lifecycle step, the reproduction and
    the balancer. *)
Lemma run_state_kept :
  (forall w ds, run_state (simulation_with (seed_agent w <$> ds) ∅)) /\
  (forall idx idx' draws sim sim',
     start_of_tick idx draws sim = Some (idx', sim') -> run_state sim -> run_state sim') /\
  (forall decisions sim sim',
     lifecycle decisions sim = Some sim' -> run_state sim -> run_state sim') /\
  (forall draws sim, run_state sim -> run_state (reproduction draws sim)) /\
  (forall raw_n raw_f sim, run_state sim -> run_state (balance raw_n raw_f sim)).
Proof.
  split; [| split; [| split; [| split]]].
  - intros w ds. split; [constructor |]. split; [| split; [split; discriminate | reflexivity]].
    cbn [agents simulation_with]. apply Forall_fmap, Forall_forall. intros d _.
    cbn [compose]. left. unfold reason, seed_agent, seeding_zone, random_pos_in_zone.
    destruct (raw_color d) as [[r g] b]. reflexivity.
  - apply start_of_tick_run.
  - apply lifecycle_run.
  - apply reproduction_run.
  - apply balance_run.
Qed.

(** ** The deadlock counter, on every call *)

(** C6: on every call of [balance] that a run can make, and on every call
    that gets past the data test whatever the state, the deadlock counter
    is incremented when the deadlock condition holds (the four proposed
    knobs within a tiny tolerance of their restrictive extremes, the
    updated crowd average above 0.96) and is reset to zero when it does not;
    when the incremented counter reaches the limit of 80, the same call
    applies the recovery: max neighbours drawn in [20, 30], food target
    drawn in [600, 1200], move cost at its legal minimum 0.8, population
    cap at its legal maximum 2000, crowd average forced down to 0.3,
    counter reset to zero. A call that stops at the data test changes
    nothing; in a run the counter is 0 and the condition false at that
    point, as they are on every call of a run. *)
Theorem balance_deadlock_counter (raw_n raw_f : Z) (sim : Simulation) :
  let sim' := balance raw_n raw_f sim in
  let recovered := knobs (adjust raw_n raw_f sim) in
  (insufficient_data sim = true -> sim' = sim) /\
  (run_state sim -> deadlock_condition sim = false /\ run_state sim') /\
  (insufficient_data sim = false \/ run_state sim ->
   (deadlock_condition sim = false -> _deadlock_ticks sim' = 0) /\
   (deadlock_condition sim = true -> _deadlock_ticks sim + 1 < 80 ->
      _deadlock_ticks sim' = _deadlock_ticks sim + 1) /\
   (deadlock_condition sim = true -> 80 <= _deadlock_ticks sim + 1 ->
      _deadlock_ticks sim' = 0 /\
      ema_crowd sim' = 3 # 10 /\
      (ema_crowd sim' < ema_crowd (update_ema sim))%Q /\
      20 <= MAX_NEIGHBORS recovered <= 30 /\
      600 <= FOOD_COUNT recovered <= 1200 /\
      MOVE_COST recovered = 8 # 10 /\
      MAX_POP recovered = 2000 /\
      MAX_NEIGHBORS (knobs sim') = MAX_NEIGHBORS recovered /\
      MAX_POP (knobs sim') = 2000 /\
      (population sim <= 2000 ->
         600 <= FOOD_COUNT (knobs sim') <= 1200 /\ MOVE_COST (knobs sim') = 8 # 10))).
Proof.
  intros sim' recovered.
  assert (Hrun : run_state sim -> deadlock_condition sim = false /\ run_state sim').
  { intros Hr. split; [| apply balance_run; exact Hr].
    destruct Hr as (Hlog & _ & Hema & _).
    apply (running_call_of_a_run sim Hlog Hema). }
  split; [| split; [exact Hrun |]].
  - intros Hg. unfold sim', balance. rewrite Hg. reflexivity.
  - intros [Hg | Hr]; [exact (balance_counter_past_the_test raw_n raw_f sim Hg) |].
    destruct (Hrun Hr) as [Hd (_ & _ & _ & Ht)].
    split; [intros _; exact Ht |].
    split; intros Hd'; congruence.
Qed.

(** The counter on a running call and on a skipped call of a run; and the
    recovery, at a state set by hand with the counter at 79 and the crowd
    average at 0.99, which no run reaches. *)
Lemma balance_deadlock_counter_witness :
  (run_state fifty_old_age_deaths /\
   insufficient_data fifty_old_age_deaths = false /\
   _deadlock_ticks (balance 3 7 fifty_old_age_deaths) = 0) /\
  (run_state (simulation_with [agent_at 5 5 45] ∅) /\
   insufficient_data (simulation_with [agent_at 5 5 45] ∅) = true /\
   _deadlock_ticks (balance 3 7 (simulation_with [agent_at 5 5 45] ∅)) = 0) /\
  (deadlock_condition (pinned 79 [agent_at 5 5 45]) = true /\
   _deadlock_ticks (balance 3 7 (pinned 79 [agent_at 5 5 45])) = 0 /\
   ema_crowd (balance 3 7 (pinned 79 [agent_at 5 5 45])) = 3 # 10).
Proof.
  assert (Hold : run_state fifty_old_age_deaths).
  { split; [| split; [| split; [split; discriminate | reflexivity]]].
    - apply Forall_forall. intros d Hd. apply elem_of_replicate in Hd as [-> _].
      right. eexists. reflexivity.
    - repeat constructor. }
  assert (Hnew : run_state (simulation_with [agent_at 5 5 45] ∅)).
  { split; [constructor |]. split; [repeat constructor |].
    split; [split; discriminate | reflexivity]. }
  split; [| split].
  - split; [exact Hold |]. split; [reflexivity |].
    destruct (balance_deadlock_counter 3 7 fifty_old_age_deaths) as (_ & _ & H).
    destruct (H (or_intror Hold)) as (H0 & _). apply H0.
    destruct (balance_deadlock_counter 3 7 fifty_old_age_deaths) as (_ & H' & _).
    exact (proj1 (H' Hold)).
  - split; [exact Hnew |]. split; [reflexivity |].
    destruct (balance_deadlock_counter 3 7 (simulation_with [agent_at 5 5 45] ∅))
      as (_ & H' & H).
    destruct (H (or_intror Hnew)) as (H0 & _). apply H0. exact (proj1 (H' Hnew)).
  - assert (Hd : deadlock_condition (pinned 79 [agent_at 5 5 45]) = true)
      by (vm_compute; reflexivity).
    split; [exact Hd |].
    destruct (balance_deadlock_counter 3 7 (pinned 79 [agent_at 5 5 45])) as (_ & _ & H).
    destruct (H (or_introl eq_refl)) as (_ & _ & H3).
    destruct (H3 Hd) as (H1 & H2 & _); [cbn; lia |].
    split; [exact H1 | exact H2].
Defined.
